(** * vector_reader: upload orchestration, archive extraction, format validators

    A shallow embedding of [file_uploader.py], [archive_reader.py] and
    [validators.py].  The Python code is effectful: it creates and deletes
    files, raises and catches exceptions, and talks to external collaborators
    (libmagic, zipfile/tarfile/7z, GDAL/OGR, json).  The embedding uses

    - [string] for paths and MIME types, a Python [str] being held as the
      bytes of its UTF-8 encoding, with the few [str] and [os.path]
      operations the code calls written out;
    - a record [World] for the read-only answers of the collaborators;
    - a record [State] for what the code mutates (disk, working directory,
      the uploader's [TEMP_FOLDER], the output data source);
    - a state-and-exception monad [M] in which a raised exception keeps the
      side effects performed so far.

    The disk of the embedding has regular files and directories; it has no
    symbolic links, so a path names the file that [os.path.abspath] gives for
    it. *)

From Stdlib Require Import Ascii ZArith DecimalString.
From stdpp Require Import base tactics option list strings gmap.

Local Open Scope Z_scope.

(** ** Python [str] operations *)

Module Str.

Definition lower_ascii (c : ascii) : ascii :=
  let n := Ascii.N_of_ascii c in
  if ((65 <=? n) && (n <=? 90))%N then Ascii.ascii_of_N (n + 32) else c.

Definition is_byte (n : N) (c : ascii) : bool := (Ascii.N_of_ascii c =? n)%N.

(** A byte that is an ASCII character on its own. *)
Definition isascii (c : ascii) : bool := (Ascii.N_of_ascii c <? 128)%N.

(** [s.lower()], as far as ASCII characters go.  The letters [A] to [Z] are
    lowered, and so are the two characters outside ASCII whose lower case has
    an ASCII character: U+212A KELVIN SIGN (bytes 226 132 170), which lowers
    to [k], and U+0130 (bytes 196 176), which lowers to [i] followed by
    U+0307 (bytes 204 135).  Every other character outside ASCII has a lower
    case outside ASCII and is left as it is: the code compares a lowered
    name with ASCII text only, and never keeps or returns one. *)
Fixpoint lower (s : string) : string :=
  match s with
  | EmptyString => EmptyString
  | String c s1 =>
      match s1 with
      | EmptyString => String (lower_ascii c) EmptyString
      | String c1 s2 =>
          if is_byte 196 c && is_byte 176 c1 then
            String "i" (String (Ascii.ascii_of_N 204)
                          (String (Ascii.ascii_of_N 135) (lower s2)))
          else
            match s2 with
            | String c2 s3 =>
                if is_byte 226 c && is_byte 132 c1 && is_byte 170 c2
                then String "k" (lower s3)
                else String (lower_ascii c) (lower s1)
            | EmptyString => String (lower_ascii c) (lower s1)
            end
      end
  end.

(** Whether [p] is empty or starts with an ASCII character. *)
Definition starts_ascii (p : string) : bool :=
  match p with
  | EmptyString => true
  | String c _ => isascii c
  end.

(** [sep in s] for a one-character [sep]. *)
Fixpoint contains (sep : ascii) (s : string) : bool :=
  match s with
  | EmptyString => false
  | String c s' => Ascii.eqb c sep || contains sep s'
  end.

(** [s.startswith(p)] *)
Fixpoint startswith (s p : string) {struct p} : bool :=
  match p, s with
  | EmptyString, _ => true
  | String c p', String d s' => Ascii.eqb c d && startswith s' p'
  | String _ _, EmptyString => false
  end.

(** [s.endswith(p)] *)
Definition endswith (s p : string) : bool :=
  startswith (String.rev s) (String.rev p).

(** The position-independent part of [s.rsplit(sep, 1)]: the text before and
    after the last occurrence of [sep], when there is one. *)
Fixpoint rpartition (sep : ascii) (s : string) : option (string * string) :=
  match s with
  | EmptyString => None
  | String c s' =>
      match rpartition sep s' with
      | Some (a, b) => Some (String c a, b)
      | None => if Ascii.eqb c sep then Some (EmptyString, s') else None
      end
  end.

(** [s.rsplit(sep, 1)] for a one-character separator. *)
Definition rsplit1 (sep : ascii) (s : string) : list string :=
  match rpartition sep s with
  | Some (a, b) => [a; b]
  | None => [s]
  end.

(** [s.split(sep)] for a one-character separator. *)
Fixpoint split (sep : ascii) (s : string) : list string :=
  match s with
  | EmptyString => [EmptyString]
  | String c s' =>
      if Ascii.eqb c sep then EmptyString :: split sep s'
      else match split sep s' with
           | [] => [String c EmptyString]
           | w :: ws => String c w :: ws
           end
  end.

(** [sep.join(l)] *)
Definition join (sep : string) (l : list string) : string :=
  String.concat sep l.

(** Truth value of a [str]: the empty string is falsy. *)
Definition truthy (s : string) : bool :=
  match s with EmptyString => false | _ => true end.

(** [x in l] for a list of strings. *)
Definition isin (x : string) (l : list string) : bool :=
  bool_decide (x ∈ l).

End Str.

(** ** [os.path] on POSIX *)

Module PosixPath.

Definition isabs (p : string) : bool := Str.startswith p "/".

(** [os.path.join(a, b)] *)
Definition join (a b : string) : string :=
  if Str.startswith b "/" then b
  else if negb (Str.truthy a) || Str.endswith a "/" then a +:+ b
  else a +:+ "/" +:+ b.

(** The component loop of [normpath]; [new_comps] is kept reversed, so that
    its head is [new_comps[-1]]. *)
Fixpoint normpath_comps (initial_slashes : bool) (comps new_comps : list string)
  : list string :=
  match comps with
  | [] => new_comps
  | comp :: rest =>
      if Str.isin comp [""; "."] then
        normpath_comps initial_slashes rest new_comps
      else if negb (String.eqb comp "..")
              || (negb initial_slashes && bool_decide (new_comps = []))
              || (match new_comps with
                  | last :: _ => String.eqb last ".."
                  | [] => false
                  end)
      then normpath_comps initial_slashes rest (comp :: new_comps)
      else normpath_comps initial_slashes rest (tail new_comps)
  end.

(** [os.path.normpath(path)] *)
Definition normpath (path : string) : string :=
  if negb (Str.truthy path) then "."
  else
    let initial_slashes : nat :=
      if Str.startswith path "/" then
        if Str.startswith path "//" && negb (Str.startswith path "///")
        then 2%nat else 1%nat
      else 0%nat in
    let comps := Str.split "/" path in
    let new_comps :=
      rev (normpath_comps (bool_decide (initial_slashes ≠ 0%nat)) comps []) in
    let path' := Str.join "/" new_comps in
    let path'' :=
      match initial_slashes with
      | 0%nat => path'
      | 1%nat => "/" +:+ path'
      | _ => "//" +:+ path'
      end in
    if Str.truthy path'' then path'' else ".".

(** [os.path.abspath(path)], in working directory [cwd]. *)
Definition abspath (cwd path : string) : string :=
  normpath (if isabs path then path else join cwd path).

(** [os.path.commonprefix([a, b])]: the longest common leading run of
    characters.  It compares character by character, not by component. *)
Fixpoint commonprefix (a b : string) : string :=
  match a, b with
  | String c a', String d b' =>
      if Ascii.eqb c d then String c (commonprefix a' b') else EmptyString
  | _, _ => EmptyString
  end.

(** Whether the normalised absolute path [p] is directory [d] itself or lies
    below it. *)
Definition inside_dir (d p : string) : bool :=
  String.eqb p d || Str.startswith p (d +:+ "/").

(** The directories above a normalised absolute path, the root left out and
    the nearest last: [/a] and [/a/b] for [/a/b/c]. *)
Fixpoint ancestors_from (d : string) (comps : list string) : list string :=
  match comps with
  | [] => []
  | comp :: rest =>
      match rest with
      | [] => []
      | _ :: _ => (d +:+ "/" +:+ comp) :: ancestors_from (d +:+ "/" +:+ comp) rest
      end
  end.

Definition ancestors (p : string) : list string :=
  ancestors_from "" (tail (Str.split "/" p)).

End PosixPath.

(** ** Exceptions and the effect monad *)

(** The exception classes the code raises or lets through.  All of them are
    subclasses of Python's [Exception], so [except Exception] catches each. *)
Inductive ExnClass :=
| ValidationError   (* django.core.exceptions.ValidationError *)
| TypeError
| IndexError
| AttributeError
| PlainException    (* raise Exception(...) *)
| OSError           (* FileNotFoundError, FileExistsError, IsADirectoryError,
                       NotADirectoryError, PermissionError *)
| LibraryError.     (* BadZipFile, tarfile.ReadError, MagicException, GDAL and
                       json errors *)

(** An exception object: its class and its message. *)
Record exn := Exn { exn_class : ExnClass; exn_msg : string }.

Inductive result (A : Type) :=
| Ok (a : A)
| Raise (e : exn).
Arguments Ok {A} a.
Arguments Raise {A} e.

(** ** The geometry library's data (OGR) *)

Record Geometry := {
  GetGeometryName : string;   (* e.g. POINT, LINESTRING, POLYGON *)
  ExportToWkt : string        (* str(geom) *)
}.

(** A source feature: [feature.geometry()] is [None] for a feature without
    geometry, such as a GeoJSON feature whose [geometry] member is [null]. *)
Record Feature := { geometry : option Geometry }.

(** [str(geom)]: the WKT text of a geometry, and [None] as Python prints it. *)
Definition str_geom (geom : option Geometry) : string :=
  match geom with
  | Some g => ExportToWkt g
  | None => "None"
  end.

(** A source layer is the sequence of features [GetNextFeature] yields, a
    source data source the sequence of its layers. *)
Definition Layer := list Feature.
Definition DataSource := list Layer.

(** A feature of the output: [ogr.Feature(feature_defn)], with the geometry
    that [SetGeometry] put there, if it was called with one. *)
Record OutFeature := { out_geometry : option Geometry }.

Record OutLayer := {
  layer_name : string;
  layer_epsg : Z;
  out_features : list OutFeature
}.

(** [type(json.loads(data))] *)
Inductive JsonType := JDict | JList | JStr | JNumber | JBool | JNull.

(** What libmagic's [from_file] does with a path: it answers with a MIME
    type, or raises because the file cannot be opened ([FileNotFoundError] and
    the like), or because the library fails on it ([MagicException]). *)
Inductive Sniffed :=
| Mime (mime_type : string)
| CannotOpen
| MagicException.

(** A member of a tar archive: its name, and whether it is a directory.  The
    embedding covers archives of regular files and directories; link and
    device members are outside it. *)
Record TarInfo := { name : string; isdir : bool }.

#[global] Instance JsonType_eq_dec : EqDecision JsonType.
Proof. solve_decision. Defined.

(** ** The environment *)

(** What the collaborators answer.  Paths given to them are absolute and
    normalised; the operations below resolve a path first. *)
Record World := {
  (* django settings *)
  MAX_VECTOR_FILE_SIZE : Z;
  AOI_TEMP_ROOT : string;
  (* str(uuid.uuid4()): the identifier drawn for the output artifact and the
     one drawn for the workspace *)
  uuid_output : string;
  uuid_workspace : string;
  (* os.path.getsize, of a file that libmagic has just opened, and libmagic *)
  getsize : string -> Z;
  from_file : string -> Sniffed;
  (* members of an archive, in the archive's order; None when the archive
     cannot be read.  A zip member is its name as stored, a directory being a
     name that ends in a slash.  For 7z, None means that the command could
     not be started and a list is what the command, whatever its exit status,
     left in its working directory *)
  zip_namelist : string -> option (list string);
  tar_getmembers : string -> option (list TarInfo);
  sevenzip_x : string -> option (list string);
  (* open(file).read(), ast.literal_eval(json.dumps(_)), json.loads,
     django's DataSource(file) *)
  open_read : string -> option string;
  literal_eval_dumps : string -> option string;
  json_loads : string -> option JsonType;
  DataSource_opens : string -> bool;
  (* ogr.GetDriverByName(name).Open(file), ogr.Open(file), and
     ogr.CreateGeometryFromWkt, which gives None for a text that is no WKT *)
  driver_Open : string -> string -> option DataSource;
  ogr_Open : string -> option DataSource;
  CreateGeometryFromWkt : string -> option Geometry
}.

(** What the code mutates. *)
Record State := {
  cwd : string;                 (* os.getcwd() *)
  files : gset string;          (* regular files on disk *)
  dirs : gset string;           (* directories the run made, or made sure of *)
  TEMP_FOLDER : option string;  (* VectorFileUploader.TEMP_FOLDER *)
  output : list OutLayer        (* layers of OUTPUT_DATASOURCE *)
}.

Definition set_cwd (c : string) (s : State) : State :=
  {| cwd := c; files := files s; dirs := dirs s;
     TEMP_FOLDER := TEMP_FOLDER s; output := output s |}.
Definition set_files (f : gset string) (s : State) : State :=
  {| cwd := cwd s; files := f; dirs := dirs s;
     TEMP_FOLDER := TEMP_FOLDER s; output := output s |}.
Definition set_dirs (d : gset string) (s : State) : State :=
  {| cwd := cwd s; files := files s; dirs := d;
     TEMP_FOLDER := TEMP_FOLDER s; output := output s |}.
Definition set_TEMP_FOLDER (t : option string) (s : State) : State :=
  {| cwd := cwd s; files := files s; dirs := dirs s;
     TEMP_FOLDER := t; output := output s |}.
Definition set_output (o : list OutLayer) (s : State) : State :=
  {| cwd := cwd s; files := files s; dirs := dirs s;
     TEMP_FOLDER := TEMP_FOLDER s; output := o |}.

(** A computation: from a state to a result and the state left behind,
    whether it returned or raised. *)
Definition M (A : Type) : Type := State -> result A * State.

Definition ret {A} (a : A) : M A := fun s => (Ok a, s).
Definition raise {A} (e : exn) : M A := fun s => (Raise e, s).
Definition bind {A B} (m : M A) (f : A -> M B) : M B :=
  fun s => match m s with
           | (Ok a, s') => f a s'
           | (Raise e, s') => (Raise e, s')
           end.
(** [try: body except Exception as e: handler(e)] *)
Definition try_except {A} (body : M A) (handler : exn -> M A) : M A :=
  fun s => match body s with
           | (Ok a, s') => (Ok a, s')
           | (Raise e, s') => handler e s'
           end.
Definition gets {A} (f : State -> A) : M A := fun s => (Ok (f s), s).
Definition modify (f : State -> State) : M unit := fun s => (Ok tt, f s).

Declare Scope py_scope.
Delimit Scope py_scope with py.
Notation "x ← y ; z" := (bind y (fun x => z))
  (at level 20, y at level 100, z at level 200, only parsing) : py_scope.
Notation "' x ← y ; z" := (bind y (fun x => z))
  (at level 20, x pattern, y at level 100, z at level 200, only parsing) : py_scope.
Notation "x ;; z" := (bind x (fun _ => z))
  (at level 100, z at level 200, only parsing, right associativity) : py_scope.
Local Open Scope py_scope.

(** [for x in l: body(x)] *)
Fixpoint for_each {A} (l : list A) (body : A -> M unit) : M unit :=
  match l with
  | [] => ret tt
  | x :: l' => body x;; for_each l' body
  end.

(** [if c: body] *)
Definition when (c : bool) (body : M unit) : M unit :=
  if c then body else ret tt.

(** A call into a library that either answers or raises. *)
Definition answer {A} (o : option A) (e : exn) : M A :=
  match o with
  | Some a => ret a
  | None => raise e
  end.

(** ** Operating-system calls *)

Module OS.

Definition resolve (p : string) : M string :=
  gets (fun s => PosixPath.abspath (cwd s) p).

(** [os.remove(p)] *)
Definition remove (p : string) : M unit :=
  k ← resolve p;
  present ← gets (fun s => bool_decide (k ∈ files s));
  if present then modify (fun s => set_files (files s ∖ {[k]}) s)
  else raise (Exn OSError "FileNotFoundError").

(** [os.mkdir(p)]; the parent directory is taken to exist. *)
Definition mkdir (p : string) : M unit :=
  k ← resolve p;
  taken ← gets (fun s => bool_decide (k ∈ dirs s) || bool_decide (k ∈ files s));
  if taken then raise (Exn OSError "FileExistsError")
  else modify (fun s => set_dirs ({[k]} ∪ dirs s) s).

(** [os.chdir(p)] *)
Definition chdir (p : string) : M unit :=
  k ← resolve p;
  modify (set_cwd k).

(** Creating or overwriting the regular file [p]. *)
Definition write_file (p : string) : M unit :=
  k ← resolve p;
  modify (fun s => set_files ({[k]} ∪ files s) s).

Definition outside (d p : string) : Prop := PosixPath.inside_dir d p = false.
Definition inside (d p : string) : Prop := PosixPath.inside_dir d p = true.
#[global] Instance outside_dec d p : Decision (outside d p).
Proof. unfold outside. apply _. Defined.
#[global] Instance inside_dec d p : Decision (inside d p).
Proof. unfold inside. apply _. Defined.

(** [shutil.rmtree(p, ignore_errors=True)]: everything at and below [p]
    goes, and nothing is raised. *)
Definition rmtree (p : string) : M unit :=
  k ← resolve p;
  modify (fun s => set_dirs (filter (fun d => outside k d) (dirs s))
                     (set_files (filter (fun f => outside k f) (files s)) s)).

(** The files a recursive [os.walk(p)] finds below [p], in the order the set
    enumerates them; [os.walk] promises none. *)
Definition walk_files (p : string) : M (list string) :=
  k ← resolve p;
  gets (fun s => elements (filter (fun f => inside k f) (files s))).

(** What [zipfile] and [tarfile] do for one member, a regular file or a
    directory, whose destination is [p].  [os.makedirs] makes the missing
    directories above [p], which fails when one of them is a regular file.
    Then a directory member is made with [os.mkdir], unless that directory
    is there, and a regular file is opened for writing, which fails on a
    directory.  ([tarfile] before Python 3.12 passed over the [FileExistsError]
    of [os.mkdir]; it is raised here, as [zipfile] and later versions do.) *)
Definition extract_member (p : string) (is_dir : bool) : M unit :=
  k ← resolve p;
  blocked ← gets (fun s =>
    existsb (fun d => bool_decide (d ∈ files s)) (PosixPath.ancestors k));
  if blocked then raise (Exn OSError "NotADirectoryError")
  else
    modify (fun s => set_dirs (list_to_set (PosixPath.ancestors k) ∪ dirs s) s);;
    present ← gets (fun s => bool_decide (k ∈ dirs s));
    if is_dir then
      if present then ret tt else mkdir p
    else
      if present then raise (Exn OSError "IsADirectoryError")
      else write_file p.

(** [os.path.getsize(p)] *)
Definition getsize (w : World) (p : string) : M Z :=
  k ← resolve p; ret (getsize w k).

(** [magic.from_file(p, mime=True)] and [magic.Magic(mime=True).from_file(p)] *)
Definition from_file (w : World) (p : string) : M string :=
  k ← resolve p;
  match from_file w k with
  | Mime mime_type => ret mime_type
  | CannotOpen => raise (Exn OSError "FileNotFoundError")
  | MagicException => raise (Exn LibraryError "MagicException")
  end.

End OS.

(** ** validators.py *)

Module Validators.

(** The concrete validator classes. *)
Inductive Validator :=
| ShapeValidator
| KMLValidator
| KMZValidator
| GeoJSONValidator.

(** [self.driver_name], set by [__init__]; [KMZValidator] inherits the
    constructor of [KMLValidator]. *)
Definition driver_name (v : Validator) : string :=
  match v with
  | ShapeValidator => "ESRI Shapefile"
  | KMLValidator | KMZValidator => "KML"
  | GeoJSONValidator => "GeoJson"
  end.

Definition no_attribute (attr : string) : exn :=
  Exn AttributeError ("'NoneType' object has no attribute '" +:+ attr +:+ "'").

(** The loop of [__set_data_source]: [dataSource] is re-bound to the result
    of the generic [ogr.Open] whenever the layer at the current index has no
    feature; the index range was fixed before the loop. *)
Fixpoint set_data_source_loop (w : World) (k : string) (indices : list nat)
    (dataSource : option DataSource) : M (option DataSource) :=
  match indices with
  | [] => ret dataSource
  | layer_index :: rest =>
      match dataSource with
      | None => raise (no_attribute "GetLayerByIndex")
      | Some ds =>
          match ds !! layer_index with
          | None => raise (no_attribute "GetFeatureCount")
          | Some ds_layer =>
              if bool_decide (length ds_layer = 0%nat)
              then set_data_source_loop w k rest (ogr_Open w k)
              else set_data_source_loop w k rest dataSource
          end
      end
  end.

(** [VectorValidator.__set_data_source]; the value returned is what the
    method stores in [self.DATA_SOURCE]. *)
Definition set_data_source (w : World) (v : Validator) (file_name : string)
  : M (option DataSource) :=
  k ← OS.resolve file_name;
  match driver_Open w (driver_name v) k with
  | None => raise (no_attribute "GetLayerCount")
  | Some ds => set_data_source_loop w k (seq 0 (length ds)) (Some ds)
  end.

(** [data_source.CreateLayer(name=..., srs=srs)] *)
Definition CreateLayer (name : string) (epsg : Z) : M unit :=
  modify (fun s => set_output
    (output s ++ [{| layer_name := name; layer_epsg := epsg; out_features := [] |}]) s).

(** [out_layer.CreateFeature(out_feature)].  [out_layer] is always the
    output's layer of index 0: either [data_source.GetLayer()], or the layer
    just created in an output that had none. *)
Definition CreateFeature (out_feature : OutFeature) : M unit :=
  o ← gets output;
  match o with
  | [] => raise (no_attribute "CreateFeature")
  | out_layer :: others =>
      modify (set_output
        ({| layer_name := layer_name out_layer;
            layer_epsg := layer_epsg out_layer;
            out_features := out_features out_layer ++ [out_feature] |} :: others))
  end.

(** [geom.GetGeometryName()], on what [feature.geometry()] gave *)
Definition geometry_name (geom : option Geometry) : M string :=
  match geom with
  | Some g => ret (GetGeometryName g)
  | None => raise (no_attribute "GetGeometryName")
  end.

(** The body of [while feature:], up to [CreateFeature]: the feature made for
    one source feature.  In [(types and geom.GetGeometryName() in types) or
    not types] the name of the geometry is asked for only under a filter that
    is not empty.  [SetGeometry] takes the [None] that [CreateGeometryFromWkt]
    gives for a text that is no WKT, and the feature then has no geometry. *)
Definition copy_feature (w : World) (types : list string) (feature : Feature)
  : M OutFeature :=
  let geom := geometry feature in
  name_in_types ←
    (if bool_decide (types ≠ []) then
       type_name ← geometry_name geom;
       ret (Str.isin type_name types)
     else ret false);
  if name_in_types || negb (bool_decide (types ≠ []))
  then ret {| out_geometry := CreateGeometryFromWkt w (str_geom geom) |}
  else ret {| out_geometry := None |}.

(** One turn of [for layer_index in range(0, self.DATA_SOURCE.GetLayerCount())]:
    [data_source.GetLayer()] is the output's first layer, or [None]. *)
Definition layer_body (w : World) (types : list string) (ds : DataSource)
    (layer_index : nat) : M unit :=
  existing ← gets (fun s => head (output s));
  when (negb (bool_decide (is_Some existing))) (CreateLayer "layer_1" 4326);;
  match ds !! layer_index with
  | None => raise (no_attribute "GetNextFeature")
  | Some ds_layer =>
      for_each ds_layer (fun feature =>
        out_feature ← copy_feature w types feature;
        CreateFeature out_feature)
  end.

(** [VectorValidator.write_geometry_to_data_source], on the uploader's
    output data source. *)
Definition write_geometry_to_data_source (w : World) (v : Validator)
    (tmp_file_name : string) (types : list string) : M unit :=
  DATA_SOURCE ← set_data_source w v tmp_file_name;
  match DATA_SOURCE with
  | None => raise (no_attribute "GetLayerCount")
  | Some ds => for_each (seq 0 (length ds)) (layer_body w types ds)
  end.

Definition SHP_SET : list string := ["dbf"; "shp"; "shx"; "prj"].

(** The list [files_extension] built by [ShapeValidator.driver_validation]:
    the test looks at the lowered name, the extension is taken from the name
    as it is. *)
Fixpoint files_extension (files : list string) : list string :=
  match files with
  | [] => []
  | el :: rest =>
      if bool_decide (1 < length (Str.rsplit1 "." (Str.lower el)))%nat
      then default "" (Str.rsplit1 "." el !! 1%nat) :: files_extension rest
      else files_extension rest
  end.

(** [ShapeValidator.driver_validation] *)
Definition Shape_driver_validation (files : list string) : bool :=
  forallb (fun e => Str.isin e (files_extension files)) SHP_SET.

(** [ShapeValidator.get_shp_files] *)
Definition get_shp_files (extracted_files : list string) : list string :=
  List.filter (fun file => Str.endswith file ".shp") extracted_files.

(** [ShapeValidator.get_geometry_from_shp_files], on the uploader's output
    data source, which is never [None] there. *)
Definition get_geometry_from_shp_files (w : World)
    (extracted_files : list string) (types : list string) : M unit :=
  let shp_files := get_shp_files extracted_files in
  when (bool_decide (1 <= length shp_files)%nat)
    (for_each shp_files (fun file =>
       when (Str.endswith file ".shp")
         (write_geometry_to_data_source w ShapeValidator file types))).

(** [KMLValidator.driver_validation] *)
Definition KML_driver_validation (w : World) (file : string) : M bool :=
  mime_type ← OS.from_file w file;
  ret (Str.isin mime_type ["application/xml"; "text/plain"; "text/html"]
       && Str.endswith (Str.lower file) ".kml").

(** [KMZValidator.driver_validation] *)
Definition KMZ_driver_validation (w : World) (file : string) : M bool :=
  mime_type ← OS.from_file w file;
  ret (Str.isin mime_type ["application/xml"; "text/plain"]
       && Str.endswith (Str.lower file) ".kml").

(** [GeoJSONValidator.driver_validation] *)
Definition GeoJSON_driver_validation (w : World) (file : string) : M bool :=
  mime_type ← OS.from_file w file;
  if String.eqb mime_type "text/plain" then
    try_except
      (k ← OS.resolve file;
       content ← answer (open_read w k) (Exn OSError "open");
       data ← answer (literal_eval_dumps w content) (Exn LibraryError "literal_eval");
       ty ← answer (json_loads w data) (Exn LibraryError "JSONDecodeError");
       if negb (bool_decide (ty = JDict)) then ret false
       else
         when (negb (DataSource_opens w k)) (raise (Exn LibraryError "GDALException"));;
         ret true)
      (fun _ => ret false)
  else ret false.

(** The loop of [ShapeValidator.check_count_of_shp], entered with [count];
    returning [true] is the [break] with [is_not_one_flag] set. *)
Fixpoint check_count_loop (extracted_files : list string) (count : nat) : bool :=
  match extracted_files with
  | [] => false
  | file :: rest =>
      if Str.endswith (Str.lower file) ".shp" then
        let count := S count in
        if bool_decide (1 < count)%nat then true
        else check_count_loop rest count
      else check_count_loop rest count
  end.

(** [ShapeValidator.check_count_of_shp] *)
Definition check_count_of_shp (extracted_files : list string) : bool :=
  check_count_loop extracted_files 0.

End Validators.

(** ** archive_reader.py *)

Module Archive.

Definition TAR_ARCHIVES_MIME_TYPES : list string :=
  ["application/x-bzip2"; "application/x-tar"; "application/gzip"; "application/x-xz"].
Definition ZIP_FILE_MIME_TYPES : list string := ["application/zip"].
Definition SEVEN_ZIP_MIME_TYPES : list string := ["application/x-7z-compressed"].

Record ArchiveReader := {
  mime_type : string;
  file : string;
  tmp_folder : string
}.

(** [ArchiveReader.__init__] *)
Definition init (w : World) (file_path : string) : M ArchiveReader :=
  mime ← OS.from_file w file_path;
  if Str.isin mime TAR_ARCHIVES_MIME_TYPES
     || Str.isin mime ZIP_FILE_MIME_TYPES
     || Str.isin mime SEVEN_ZIP_MIME_TYPES
  then
    let tmp := PosixPath.join (AOI_TEMP_ROOT w) (uuid_workspace w) in
    OS.mkdir tmp;;
    ret {| mime_type := mime; file := file_path; tmp_folder := tmp |}
  else
    raise (Exn ValidationError
             ("Incorrect MIME_TYPE. " +:+ mime +:+ " does not support")).

(** [__absolute_file_paths]: [os.walk] visits the directory and every
    directory below it, and the loop reports each regular file [f] it finds in
    one of them as [abspath(join(dirpath, f))], the absolute path under which
    the file is on disk. *)
Definition absolute_file_paths (directory : string) : M (list string) :=
  OS.walk_files directory.

(** The path under which [zipfile] extracts a member, relative to the
    destination: the components of its name that are not empty, [.] or [..]. *)
Definition zip_arcname (name : string) : string :=
  Str.join "/"
    (List.filter (fun x => negb (Str.isin x [""; "."; ".."])) (Str.split "/" name)).

(** [ZipFile(file).extractall(path)] *)
Definition zip_extractall (names : list string) (path : string) : M unit :=
  for_each names (fun name =>
    OS.extract_member (PosixPath.join path (zip_arcname name)) (Str.endswith name "/")).

(** [__read_from_zip] *)
Definition read_from_zip (w : World) (self : ArchiveReader) : M (list string) :=
  k ← OS.resolve (file self);
  names ← answer (zip_namelist w k) (Exn LibraryError "BadZipFile");
  zip_extractall names (tmp_folder self);;
  OS.remove (file self);;
  absolute_file_paths (tmp_folder self).

(** [is_within_directory], nested in [__read_from_tar] *)
Definition is_within_directory (directory target : string) : M bool :=
  abs_directory ← OS.resolve directory;
  abs_target ← OS.resolve target;
  let prefix := PosixPath.commonprefix abs_directory abs_target in
  ret (String.eqb prefix abs_directory).

(** [tar.extractall(path)], called without a filter: each member is
    extracted at [os.path.join(path, member.name)].  This is [tarfile] before
    Python 3.14, whose default filter refuses no member. *)
Definition tar_extractall (members : list TarInfo) (path : string) : M unit :=
  for_each members (fun member =>
    OS.extract_member (PosixPath.join path (name member)) (isdir member)).

(** [safe_extract], nested in [__read_from_tar]; [members] is
    [tar.getmembers()]. *)
Definition safe_extract (members : list TarInfo) (path : string) : M unit :=
  for_each members (fun member =>
    let member_path := PosixPath.join path (name member) in
    within ← is_within_directory path member_path;
    when (negb within)
      (raise (Exn PlainException "Attempted Path Traversal in Tar File")));;
  tar_extractall members path.

(** [__read_from_tar] *)
Definition read_from_tar (w : World) (self : ArchiveReader) : M (list string) :=
  k ← OS.resolve (file self);
  members ← answer (tar_getmembers w k) (Exn LibraryError "ReadError");
  safe_extract members (tmp_folder self);;
  OS.remove (file self);;
  absolute_file_paths (tmp_folder self).

(** [__read_from_7z]: the command runs in the workspace, and its exit status
    is dropped. *)
Definition read_from_7z (w : World) (self : ArchiveReader) : M (list string) :=
  current_directory ← OS.resolve ".";
  OS.chdir (tmp_folder self);;
  k ← OS.resolve (file self);
  produced ← answer (sevenzip_x w k) (Exn OSError "FileNotFoundError: '7z'");
  for_each produced OS.write_file;;
  OS.chdir current_directory;;
  OS.remove (file self);;
  absolute_file_paths (tmp_folder self).

(** [get_files]; a MIME type of no family falls off the end of the method,
    which then returns [None]. *)
Definition get_files (w : World) (self : ArchiveReader)
  : M (option (list string * string)) :=
  if Str.isin (mime_type self) ZIP_FILE_MIME_TYPES then
    l ← read_from_zip w self; ret (Some (l, tmp_folder self))
  else if Str.isin (mime_type self) TAR_ARCHIVES_MIME_TYPES then
    l ← read_from_tar w self; ret (Some (l, tmp_folder self))
  else if Str.isin (mime_type self) SEVEN_ZIP_MIME_TYPES then
    l ← read_from_7z w self; ret (Some (l, tmp_folder self))
  else ret None.

Definition return_temp_dir (self : ArchiveReader) : string := tmp_folder self.

End Archive.

(** ** file_uploader.py *)

Module Uploader.

Definition FILE_TYPES : list string :=
  ["application/xml"; "text/plain"; "text/html"].

Definition ARCHIVE_TYPES : list string :=
  ["application/zip"; "application/x-bzip2"; "application/x-tar";
   "application/gzip"; "application/x-xz"; "application/zip";
   "application/x-7z-compressed"].

Record VectorFileUploader := {
  file : string;
  mime_type : string
}.

Definition str_of_Z (z : Z) : string := NilZero.string_of_int (Z.to_int z).

Definition size_error (w : World) : exn :=
  Exn ValidationError ("File size more than " +:+ str_of_Z (MAX_VECTOR_FILE_SIZE w)).

Definition type_error (mime : string) : exn :=
  Exn TypeError
    (mime +:+ " not supported by this class. Supported file types: "
          +:+ "['application/xml', 'text/plain', 'text/html'] and archive types: "
          +:+ "['application/zip', 'application/x-bzip2', 'application/x-tar', "
          +:+ "'application/gzip', 'application/x-xz', 'application/zip', "
          +:+ "'application/x-7z-compressed']").

(** [VectorFileUploader.__init__] *)
Definition init (w : World) (file_path : string) : M VectorFileUploader :=
  mime ← OS.from_file w file_path;
  size ← OS.getsize w file_path;
  if bool_decide (size >= MAX_VECTOR_FILE_SIZE w) then raise (size_error w)
  else if negb (Str.isin mime FILE_TYPES) && negb (Str.isin mime ARCHIVE_TYPES)
  then raise (type_error mime)
  else ret {| file := file_path; mime_type := mime |}.

(** [__get_driver_for_file], for the file currently in [self.file] *)
Definition get_driver_for_file (w : World) (file : string)
  : M (option Validators.Validator) :=
  kmz ← Validators.KMZ_driver_validation w file;
  if kmz then ret (Some Validators.KMZValidator)
  else
    kml ← Validators.KML_driver_validation w file;
    if kml then ret (Some Validators.KMLValidator)
    else
      geojson ← Validators.GeoJSON_driver_validation w file;
      if geojson then ret (Some Validators.GeoJSONValidator)
      else ret None.

(** The [while self.file:] loop of [__write_geometry_by_type].  [files.pop()]
    takes the last element, so the pending files are held as a stack whose
    head is the end of the Python list; an empty stack stands for
    [self.file = None].  The value returned is [shp_files]. *)
Fixpoint dispatch (w : World) (geom_types : list string) (current : string)
    (stack : list string) (shp_files : list string) : M (list string) :=
  if negb (Str.truthy current) then ret shp_files
  else
    driver ← get_driver_for_file w current;
    shp_files' ←
      match driver with
      | Some d =>
          Validators.write_geometry_to_data_source w d current geom_types;;
          ret shp_files
      | None => ret (shp_files ++ [current])
      end;
    match stack with
    | [] => ret shp_files'
    | next :: stack' => dispatch w geom_types next stack' shp_files'
    end.

(** The first statements of [__write_geometry_by_type]: the candidate files
    and the archive reader, if one was made. *)
Definition materialize (w : World) (self : VectorFileUploader)
  : M (list string * option Archive.ArchiveReader) :=
  if Str.isin (mime_type self) FILE_TYPES then ret ([file self], None)
  else
    archive_reader ← Archive.init w (file self);
    got ← Archive.get_files w archive_reader;
    match got with
    | None => raise (Exn TypeError "cannot unpack non-iterable NoneType object")
    | Some (files, tmp) =>
        modify (set_TEMP_FOLDER (Some tmp));;
        ret (files, Some archive_reader)
    end.

(** [__write_geometry_by_type] *)
Definition write_geometry_by_type (w : World) (self : VectorFileUploader)
    (geom_types : list string) : M unit :=
  '(files, archive_reader) ← materialize w self;
  match rev files with
  | [] => raise (Exn IndexError "pop from empty list")
  | first :: stack =>
      shp_files ← dispatch w geom_types first stack [];
      when (bool_decide (shp_files ≠ []))
        (Validators.get_geometry_from_shp_files w shp_files geom_types);;
      match archive_reader with
      | Some reader => OS.rmtree (Archive.return_temp_dir reader)
      | None => ret tt
      end
  end.

(** The path of the output artifact. *)
Definition output_name (w : World) : string :=
  PosixPath.join (AOI_TEMP_ROOT w) (uuid_output w +:+ ".geojson").

(** [outdriver.CreateDataSource(name)]: the GeoJSON driver opens the file for
    writing at once; the new data source has no layer. *)
Definition CreateDataSource (name : string) : M unit :=
  OS.write_file name;;
  modify (set_output []).

(** The [except Exception as e:] block of [create_output_data_source] *)
Definition rollback (name : string) (e : exn) : M unit :=
  temp ← gets TEMP_FOLDER;
  match temp with
  | Some t => when (Str.truthy t) (OS.rmtree t)
  | None => ret tt
  end;;
  OS.remove name;;
  raise e.

(** [create_output_data_source] *)
Definition create_output_data_source (w : World) (self : VectorFileUploader)
    (types : list string) : M string :=
  let name := output_name w in
  CreateDataSource name;;
  try_except (write_geometry_by_type w self types) (rollback name);;
  ret name.

(** The test of [__get_vector_files_from_archive] on one name. *)
Definition vector_name (file : string) : bool :=
  Str.endswith (Str.lower file) "kml"
  || Str.endswith (Str.lower file) "geojson"
  || Str.endswith (Str.lower file) "shp".

(** The loop of [__get_vector_files_from_archive], entered with the list
    [vector_files] built so far. *)
Fixpoint get_vector_files_loop (files_from_archive vector_files : list string)
  : list string :=
  match files_from_archive with
  | [] => vector_files
  | file :: rest =>
      if vector_name file then get_vector_files_loop rest (vector_files ++ [file])
      else get_vector_files_loop rest vector_files
  end.

(** [__get_vector_files_from_archive] *)
Definition get_vector_files_from_archive (files_from_archive : list string)
  : list string :=
  get_vector_files_loop files_from_archive [].

End Uploader.

(** ** Concrete environments *)

Module Scenarios.

(** The leading keyword of a WKT text, [POINT] in [POINT (1 2)]. *)
Fixpoint wkt_keyword (s : string) : string :=
  match s with
  | EmptyString => EmptyString
  | String c s' =>
      if Ascii.eqb c " " || Ascii.eqb c "(" then EmptyString
      else String c (wkt_keyword s')
  end.

Definition geometry_of_wkt (s : string) : Geometry :=
  {| GetGeometryName := wkt_keyword s; ExportToWkt := s |}.

Definition feature_of_wkt (s : string) : Feature :=
  {| geometry := Some (geometry_of_wkt s) |}.

(** A feature without geometry. *)
Definition no_geometry : Feature := {| geometry := None |}.

(** A regular file as tar member. *)
Definition file_member (name : string) : TarInfo :=
  {| name := name; isdir := false |}.

Definition point : Feature := feature_of_wkt "POINT (1 2)".
Definition polygon : Feature := feature_of_wkt "POLYGON ((0 0,1 0,1 1,0 0))".

(** A world in which nothing is recognised: every file looks like binary
    data of 10 bytes and no library can read it. *)
Definition blank : World :=
  {| MAX_VECTOR_FILE_SIZE := 1000;
     AOI_TEMP_ROOT := "/tmp/aoi";
     uuid_output := "out";
     uuid_workspace := "ws";
     getsize := fun _ => 10;
     from_file := fun _ => Mime "application/octet-stream";
     zip_namelist := fun _ => None;
     tar_getmembers := fun _ => None;
     sevenzip_x := fun _ => None;
     open_read := fun _ => None;
     literal_eval_dumps := fun c => Some c;
     json_loads := fun _ => None;
     DataSource_opens := fun _ => false;
     driver_Open := fun _ _ => None;
     ogr_Open := fun _ => None;
     CreateGeometryFromWkt := fun s =>
       if String.eqb s "None" then None else Some (geometry_of_wkt s) |}.

Definition with_mime (mimes : list (string * string)) (w : World) : World :=
  {| MAX_VECTOR_FILE_SIZE := MAX_VECTOR_FILE_SIZE w;
     AOI_TEMP_ROOT := AOI_TEMP_ROOT w;
     uuid_output := uuid_output w;
     uuid_workspace := uuid_workspace w;
     getsize := getsize w;
     from_file := fun k =>
       match list_find (fun e => e.1 = k) mimes with
       | Some (_, (_, m)) => Mime m
       | None => from_file w k
       end;
     zip_namelist := zip_namelist w;
     tar_getmembers := tar_getmembers w;
     sevenzip_x := sevenzip_x w;
     open_read := open_read w;
     literal_eval_dumps := literal_eval_dumps w;
     json_loads := json_loads w;
     DataSource_opens := DataSource_opens w;
     driver_Open := driver_Open w;
     ogr_Open := ogr_Open w;
     CreateGeometryFromWkt := CreateGeometryFromWkt w |}.

Definition with_size (size : Z) (w : World) : World :=
  {| MAX_VECTOR_FILE_SIZE := MAX_VECTOR_FILE_SIZE w;
     AOI_TEMP_ROOT := AOI_TEMP_ROOT w;
     uuid_output := uuid_output w;
     uuid_workspace := uuid_workspace w;
     getsize := fun _ => size;
     from_file := from_file w;
     zip_namelist := zip_namelist w;
     tar_getmembers := tar_getmembers w;
     sevenzip_x := sevenzip_x w;
     open_read := open_read w;
     literal_eval_dumps := literal_eval_dumps w;
     json_loads := json_loads w;
     DataSource_opens := DataSource_opens w;
     driver_Open := driver_Open w;
     ogr_Open := ogr_Open w;
     CreateGeometryFromWkt := CreateGeometryFromWkt w |}.

(** Archives: the members of the zip, tar and 7z file at [k]. *)
Definition with_archive (k : string) (zip : option (list string))
    (tar : option (list TarInfo)) (sevenzip : option (list string))
    (w : World) : World :=
  {| MAX_VECTOR_FILE_SIZE := MAX_VECTOR_FILE_SIZE w;
     AOI_TEMP_ROOT := AOI_TEMP_ROOT w;
     uuid_output := uuid_output w;
     uuid_workspace := uuid_workspace w;
     getsize := getsize w;
     from_file := from_file w;
     zip_namelist := fun k' => if String.eqb k' k then zip else zip_namelist w k';
     tar_getmembers := fun k' => if String.eqb k' k then tar else tar_getmembers w k';
     sevenzip_x := fun k' => if String.eqb k' k then sevenzip else sevenzip_x w k';
     open_read := open_read w;
     literal_eval_dumps := literal_eval_dumps w;
     json_loads := json_loads w;
     DataSource_opens := DataSource_opens w;
     driver_Open := driver_Open w;
     ogr_Open := ogr_Open w;
     CreateGeometryFromWkt := CreateGeometryFromWkt w |}.

(** A vector file at [k] that the driver named [driver] opens as [ds]. *)
Definition with_source (driver k : string) (ds : DataSource) (w : World) : World :=
  {| MAX_VECTOR_FILE_SIZE := MAX_VECTOR_FILE_SIZE w;
     AOI_TEMP_ROOT := AOI_TEMP_ROOT w;
     uuid_output := uuid_output w;
     uuid_workspace := uuid_workspace w;
     getsize := getsize w;
     from_file := from_file w;
     zip_namelist := zip_namelist w;
     tar_getmembers := tar_getmembers w;
     sevenzip_x := sevenzip_x w;
     open_read := open_read w;
     literal_eval_dumps := literal_eval_dumps w;
     json_loads := json_loads w;
     DataSource_opens := DataSource_opens w;
     driver_Open := fun d k' =>
       if String.eqb d driver && String.eqb k' k then Some ds else driver_Open w d k';
     ogr_Open := fun k' => if String.eqb k' k then Some ds else ogr_Open w k';
     CreateGeometryFromWkt := CreateGeometryFromWkt w |}.

(** A text file at [k] holding the JSON object [{}], which django's
    [DataSource] opens. *)
Definition with_json_object (k : string) (w : World) : World :=
  {| MAX_VECTOR_FILE_SIZE := MAX_VECTOR_FILE_SIZE w;
     AOI_TEMP_ROOT := AOI_TEMP_ROOT w;
     uuid_output := uuid_output w;
     uuid_workspace := uuid_workspace w;
     getsize := getsize w;
     from_file := from_file w;
     zip_namelist := zip_namelist w;
     tar_getmembers := tar_getmembers w;
     sevenzip_x := sevenzip_x w;
     open_read := fun k' => if String.eqb k' k then Some "{}" else open_read w k';
     literal_eval_dumps := literal_eval_dumps w;
     json_loads := fun d => if String.eqb d "{}" then Some JDict else json_loads w d;
     DataSource_opens := fun k' => String.eqb k' k || DataSource_opens w k';
     driver_Open := driver_Open w;
     ogr_Open := ogr_Open w;
     CreateGeometryFromWkt := CreateGeometryFromWkt w |}.

(** A disk holding the upload only; the uploader has not run yet. *)
Definition disk (upload : string) : State :=
  {| cwd := "/srv/app";
     files := {[upload]};
     dirs := ∅;
     TEMP_FOLDER := None;
     output := [] |}.

(** The end-to-end example: a zip holding [a.geojson] with three features
    and [b.kml] with two. *)
Definition zip_world (p1 p2 p3 q1 q2 : Feature) : World :=
  with_source "GeoJson" "/tmp/aoi/ws/a.geojson" [[p1; p2; p3]]
    (with_source "KML" "/tmp/aoi/ws/b.kml" [[q1; q2]]
      (with_json_object "/tmp/aoi/ws/a.geojson"
        (with_archive "/uploads/data.zip" (Some ["a.geojson"; "b.kml"]) None None
          (with_mime [("/uploads/data.zip", "application/zip");
                      ("/tmp/aoi/ws/a.geojson", "text/plain");
                      ("/tmp/aoi/ws/b.kml", "application/xml")] blank)))).

Definition zip_upload : Uploader.VectorFileUploader :=
  {| Uploader.file := "/uploads/data.zip"; Uploader.mime_type := "application/zip" |}.

(** A tar archive with one member that climbs out of the workspace into a
    sibling directory whose name starts like the workspace's. *)
Definition sibling_tar_world : World :=
  with_archive "/uploads/data.tar" None (Some [file_member "../ws_evil/x"]) None
    (with_mime [("/uploads/data.tar", "application/x-tar")] blank).

(** A tar archive with the member [../../etc/evil]. *)
Definition evil_tar_world : World :=
  with_archive "/uploads/data.tar" None (Some [file_member "../../etc/evil"]) None
    (with_mime [("/uploads/data.tar", "application/x-tar")] blank).

(** One GeoJSON file with a point and a polygon. *)
Definition mixed_world : World :=
  with_source "GeoJson" "/data/mixed.geojson"
    [[point; polygon]] blank.

Definition tar_upload : Uploader.VectorFileUploader :=
  {| Uploader.file := "/uploads/data.tar"; Uploader.mime_type := "application/x-tar" |}.

Definition tar_reader : Archive.ArchiveReader :=
  {| Archive.mime_type := "application/x-tar";
     Archive.file := "/uploads/data.tar";
     Archive.tmp_folder := "/tmp/aoi/ws" |}.

(** A zip archive holding [roads.shp] with its [roads.shx] and [roads.dbf],
    and no [roads.prj]: the Shapefile driver opens such a file, taking the
    spatial reference as unknown. *)
Definition no_prj_names : list string := ["roads.dbf"; "roads.shp"; "roads.shx"].

Definition no_prj_world (f : Feature) : World :=
  with_source "ESRI Shapefile" "/tmp/aoi/ws/roads.shp" [[f]]
    (with_archive "/uploads/data.zip" (Some no_prj_names) None None
      (with_mime [("/uploads/data.zip", "application/zip")] blank)).

(** A zip archive with no member. *)
Definition empty_zip_world : World :=
  with_archive "/uploads/data.zip" (Some []) None None
    (with_mime [("/uploads/data.zip", "application/zip")] blank).

(** An upload of exactly [MAX_VECTOR_FILE_SIZE] bytes of plain text. *)
Definition full_size_world : World :=
  with_size 1000 (with_mime [("/uploads/a.geojson", "text/plain")] blank).

(** A small PNG image. *)
Definition png_world : World :=
  with_mime [("/uploads/a.png", "image/png")] blank.

(** A 7z archive on which the external command fails: it leaves nothing in
    the workspace, and its exit status is not looked at. *)
Definition failed_7z_world : World :=
  with_archive "/uploads/data.7z" None None (Some [])
    (with_mime [("/uploads/data.7z", "application/x-7z-compressed")] blank).

Definition sevenzip_upload : Uploader.VectorFileUploader :=
  {| Uploader.file := "/uploads/data.7z";
     Uploader.mime_type := "application/x-7z-compressed" |}.

(** The reader [ArchiveReader.__init__] makes for the zip upload, and the
    disk once it has made the workspace. *)
Definition zip_reader : Archive.ArchiveReader :=
  {| Archive.mime_type := "application/zip";
     Archive.file := "/uploads/data.zip";
     Archive.tmp_folder := "/tmp/aoi/ws" |}.

Definition disk_with_workspace (upload : string) : State :=
  set_dirs {["/tmp/aoi/ws"]} (disk upload).

(** The reader for the 7z upload. *)
Definition sevenzip_reader : Archive.ArchiveReader :=
  {| Archive.mime_type := "application/x-7z-compressed";
     Archive.file := "/uploads/data.7z";
     Archive.tmp_folder := "/tmp/aoi/ws" |}.

(** An HTML page as upload: a supported MIME type that no validator
    recognises. *)
Definition html_world : World :=
  with_mime [("/uploads/page.html", "text/html")] blank.

Definition html_upload : Uploader.VectorFileUploader :=
  {| Uploader.file := "/uploads/page.html"; Uploader.mime_type := "text/html" |}.

(** A file that libmagic cannot open: there is none at [k]. *)
Definition without_file (k : string) (w : World) : World :=
  {| MAX_VECTOR_FILE_SIZE := MAX_VECTOR_FILE_SIZE w;
     AOI_TEMP_ROOT := AOI_TEMP_ROOT w;
     uuid_output := uuid_output w;
     uuid_workspace := uuid_workspace w;
     getsize := getsize w;
     from_file := fun k' => if String.eqb k' k then CannotOpen else from_file w k';
     zip_namelist := zip_namelist w;
     tar_getmembers := tar_getmembers w;
     sevenzip_x := sevenzip_x w;
     open_read := open_read w;
     literal_eval_dumps := literal_eval_dumps w;
     json_loads := json_loads w;
     DataSource_opens := DataSource_opens w;
     driver_Open := driver_Open w;
     ogr_Open := ogr_Open w;
     CreateGeometryFromWkt := CreateGeometryFromWkt w |}.

(** The setting [AOI_TEMP_ROOT]. *)
Definition with_root (root : string) (w : World) : World :=
  {| MAX_VECTOR_FILE_SIZE := MAX_VECTOR_FILE_SIZE w;
     AOI_TEMP_ROOT := root;
     uuid_output := uuid_output w;
     uuid_workspace := uuid_workspace w;
     getsize := getsize w;
     from_file := from_file w;
     zip_namelist := zip_namelist w;
     tar_getmembers := tar_getmembers w;
     sevenzip_x := sevenzip_x w;
     open_read := open_read w;
     literal_eval_dumps := literal_eval_dumps w;
     json_loads := json_loads w;
     DataSource_opens := DataSource_opens w;
     driver_Open := driver_Open w;
     ogr_Open := ogr_Open w;
     CreateGeometryFromWkt := CreateGeometryFromWkt w |}.

(** A 7z upload on a machine without the [7z] command, the temporary root
    being the relative path [tmp]. *)
Definition relative_root_world : World :=
  with_root "tmp"
    (with_mime [("/uploads/data.7z", "application/x-7z-compressed")] blank).

(** A GeoJSON file whose second feature has no geometry, between a polygon
    and a point. *)
Definition null_geometry_world : World :=
  with_source "GeoJson" "/data/null.geojson" [[polygon; no_geometry; point]] blank.

(** What the generic [ogr.Open] gives for the file at [k]. *)
Definition with_generic_source (k : string) (ds : option DataSource) (w : World)
  : World :=
  {| MAX_VECTOR_FILE_SIZE := MAX_VECTOR_FILE_SIZE w;
     AOI_TEMP_ROOT := AOI_TEMP_ROOT w;
     uuid_output := uuid_output w;
     uuid_workspace := uuid_workspace w;
     getsize := getsize w;
     from_file := from_file w;
     zip_namelist := zip_namelist w;
     tar_getmembers := tar_getmembers w;
     sevenzip_x := sevenzip_x w;
     open_read := open_read w;
     literal_eval_dumps := literal_eval_dumps w;
     json_loads := json_loads w;
     DataSource_opens := DataSource_opens w;
     driver_Open := driver_Open w;
     ogr_Open := fun k' => if String.eqb k' k then ds else ogr_Open w k';
     CreateGeometryFromWkt := CreateGeometryFromWkt w |}.

(** A file that the KML driver opens with a second layer that is empty, and
    the generic [ogr.Open] with the one layer that has features. *)
Definition empty_layer_world : World :=
  with_generic_source "/data/empty.kml" (Some [[point]])
    (with_source "KML" "/data/empty.kml" [[point]; []] blank).

(** A name ending in [.Kml], the first letter being U+212A KELVIN SIGN. *)
Definition kelvin_name : string :=
  "/uploads/a."
    +:+ String (Ascii.ascii_of_N 226)
          (String (Ascii.ascii_of_N 132) (String (Ascii.ascii_of_N 170) "ml")).

(** A plain GeoJSON upload with a point and a polygon. *)
Definition geojson_world : World :=
  with_source "GeoJson" "/uploads/mixed.geojson" [[point; polygon]]
    (with_json_object "/uploads/mixed.geojson"
      (with_mime [("/uploads/mixed.geojson", "text/plain")] blank)).

Definition geojson_upload : Uploader.VectorFileUploader :=
  {| Uploader.file := "/uploads/mixed.geojson"; Uploader.mime_type := "text/plain" |}.

End Scenarios.

(** ** The output after an append *)

(** The layers of the output once the features [new] were added to its
    first layer, a layer [layer_1] being made for them when it has none. *)
Definition with_new_features (new : list OutFeature) (o : list OutLayer)
  : list OutLayer :=
  match o with
  | [] => [{| layer_name := "layer_1"; layer_epsg := 4326; out_features := new |}]
  | l :: others =>
      {| layer_name := layer_name l;
         layer_epsg := layer_epsg l;
         out_features := out_features l ++ new |} :: others
  end.

(** The features of all layers, layer after layer, and their number. *)
Definition all_features (o : list OutLayer) : list OutFeature :=
  concat (map out_features o).

Definition feature_count (o : list OutLayer) : nat :=
  length (all_features o).

(** A feature that an append under the filter [types] does not stumble on:
    the name of its geometry is asked for only under a filter that is not
    empty. *)
Definition readable (types : list string) (feature : Feature) : Prop :=
  types = [] ∨ is_Some (geometry feature).

#[global] Instance readable_dec types feature : Decision (readable types feature).
Proof. unfold readable. apply _. Defined.

(** The output feature an append makes for a readable source feature: it
    carries [CreateGeometryFromWkt(str(geom))] when the filter is empty or
    holds the name of the geometry, and nothing otherwise. *)
Definition clone (w : World) (types : list string) (feature : Feature) : OutFeature :=
  match geometry feature with
  | Some g =>
      if bool_decide (types = [] ∨ GetGeometryName g ∈ types)
      then {| out_geometry := CreateGeometryFromWkt w (ExportToWkt g) |}
      else {| out_geometry := None |}
  | None => {| out_geometry := CreateGeometryFromWkt w "None" |}
  end.

(** ** The check of tar members *)

(** The exception [safe_extract] raises. *)
Definition traversal : exn :=
  Exn PlainException "Attempted Path Traversal in Tar File".

(** The test [safe_extract] applies to a member's name, in working directory
    [c]. *)
Definition passes_check (c path name : string) : bool :=
  String.eqb
    (PosixPath.commonprefix (PosixPath.abspath c path)
       (PosixPath.abspath c (PosixPath.join path name)))
    (PosixPath.abspath c path).

(** ** Assumptions on names *)

(** The workspace of a run, as [ArchiveReader.__init__] names it. *)
Definition workspace_name (w : World) : string :=
  PosixPath.join (AOI_TEMP_ROOT w) (uuid_workspace w).

(** What fresh identifiers and an absolute temporary root give: the output
    artifact is not the upload, and does not lie in the workspace. *)
Record fresh_names (w : World) (self : Uploader.VectorFileUploader) : Prop := {
  root_absolute : PosixPath.isabs (AOI_TEMP_ROOT w) = true;
  upload_apart :
    ∀ c, PosixPath.abspath c (Uploader.file self)
         ≠ PosixPath.normpath (Uploader.output_name w);
  workspace_apart :
    OS.outside (PosixPath.normpath (workspace_name w))
               (PosixPath.normpath (Uploader.output_name w))
}.

(** The invariant of a run between the creation of the output artifact and
    the end of [__write_geometry_by_type]: the artifact is on disk, and
    [TEMP_FOLDER] is unset or names the workspace. *)
Definition artifact_kept (w : World) (s : State) : Prop :=
  PosixPath.normpath (Uploader.output_name w) ∈ files s
  ∧ (TEMP_FOLDER s = None ∨ TEMP_FOLDER s = Some (workspace_name w)).

(** Nothing is left of directory [d]: no file and no directory at or below
    it. *)
Definition gone (d : string) (s : State) : Prop :=
  ∀ p, PosixPath.inside_dir d p = true → (p ∉ files s) ∧ (p ∉ dirs s).

(** A computation that touches nothing but the output data source. *)
Definition only_output {A} (m : M A) : Prop :=
  ∀ s, ∃ o, (m s).2 = set_output o s.

(** [m] keeps [I], whether it returns or raises, and its values satisfy [Q]. *)
Definition hoare {A} (I : State → Prop) (m : M A) (Q : A → Prop) : Prop :=
  ∀ s, I s →
    match m s with
    | (Ok a, s') => I s' ∧ Q a
    | (Raise _, s') => I s'
    end.

(** ** Which exceptions a computation raises *)

(** Every exception [m] raises satisfies [P]. *)
Definition raises_only {A} (P : exn → Prop) (m : M A) : Prop :=
  ∀ s, match m s with
       | (Raise e, _) => P e
       | (Ok _, _) => True
       end.

(** The classes of the exceptions that reading an archive raises. *)
Definition extraction_error (e : exn) : Prop :=
  exn_class e = OSError ∨ exn_class e = LibraryError ∨ exn_class e = PlainException.


(** * Properties *)

(** ** Strings and paths *)

Example lower_ex : Str.lower "/W/Roads.SHP" = "/w/roads.shp".
Proof. reflexivity. Qed.

Example endswith_ex : Str.endswith "/w/roads.shp" ".shp" = true.
Proof. reflexivity. Qed.

Example rsplit1_ex : Str.rsplit1 "." "a.tar.gz" = ["a.tar"; "gz"].
Proof. reflexivity. Qed.

Example split_ex : Str.split "/" "/a//b/" = [""; "a"; ""; "b"; ""].
Proof. reflexivity. Qed.

Example normpath_ex1 : PosixPath.normpath "/tmp/aoi/ws/../../etc/evil" = "/tmp/etc/evil".
Proof. reflexivity. Qed.

Example normpath_ex2 : PosixPath.normpath "a/./b/../../../c/" = "../c".
Proof. reflexivity. Qed.

Example normpath_ex3 : PosixPath.normpath "//x/../.." = "//".
Proof. reflexivity. Qed.

Example abspath_ex : PosixPath.abspath "/srv/app" "media/../up.zip" = "/srv/app/up.zip".
Proof. reflexivity. Qed.

Example commonprefix_ex :
  PosixPath.commonprefix "/tmp/aoi/ws" "/tmp/aoi/ws_evil/x" = "/tmp/aoi/ws".
Proof. reflexivity. Qed.

(** ** The effect monad *)

Section Monad.
Context {A B : Type}.

Lemma bind_ok (m : M A) (f : A → M B) s a s' :
  m s = (Ok a, s') → bind m f s = f a s'.
Proof. intros H. unfold bind. by rewrite H. Qed.

Lemma bind_raise (m : M A) (f : A → M B) s e s' :
  m s = (Raise e, s') → bind m f s = (Raise e, s').
Proof. intros H. unfold bind. by rewrite H. Qed.

Lemma bind_inv (m : M A) (f : A → M B) s r s'' :
  bind m f s = (r, s'') →
  (∃ a s', m s = (Ok a, s') ∧ f a s' = (r, s''))
  ∨ (∃ e, m s = (Raise e, s'') ∧ r = Raise e).
Proof.
  unfold bind. destruct (m s) as [[a|e] s'] eqn:Hm; intros H.
  - left. eauto.
  - right. inversion H; subst. eauto.
Qed.

End Monad.

Lemma set_output_id s : set_output (output s) s = s.
Proof. by destruct s. Qed.

Lemma set_output_twice o o' s : set_output o' (set_output o s) = set_output o' s.
Proof. done. Qed.

Section OnlyOutput.
Context {A B : Type}.

Lemma only_output_ret (a : A) : only_output (ret a).
Proof. intros s. exists (output s). by rewrite set_output_id. Qed.

Lemma only_output_raise e : only_output (@raise A e).
Proof. intros s. exists (output s). by rewrite set_output_id. Qed.

Lemma only_output_gets (f : State → A) : only_output (gets f).
Proof. intros s. exists (output s). by rewrite set_output_id. Qed.

Lemma only_output_set o : only_output (modify (set_output o)).
Proof. intros s. by exists o. Qed.

Lemma only_output_bind (m : M A) (f : A → M B) :
  only_output m → (∀ a, only_output (f a)) → only_output (bind m f).
Proof.
  intros Hm Hf s. unfold bind. destruct (Hm s) as [o Ho].
  destruct (m s) as [[a|e] s']; simpl in Ho; subst s'.
  - destruct (Hf a (set_output o s)) as [o' Ho']. exists o'. by rewrite Ho'.
  - by exists o.
Qed.

Lemma only_output_try (m : M A) (h : exn → M A) :
  only_output m → (∀ e, only_output (h e)) → only_output (try_except m h).
Proof.
  intros Hm Hh s. unfold try_except. destruct (Hm s) as [o Ho].
  destruct (m s) as [[a|e] s']; simpl in Ho; subst s'.
  - by exists o.
  - destruct (Hh e (set_output o s)) as [o' Ho']. exists o'. by rewrite Ho'.
Qed.

Lemma only_output_answer (o : option A) e : only_output (answer o e).
Proof. destruct o; [apply only_output_ret | apply only_output_raise]. Qed.

End OnlyOutput.

Lemma only_output_when c (m : M unit) : only_output m → only_output (when c m).
Proof. intros H. destruct c; [done | apply only_output_ret]. Qed.

Lemma only_output_for_each {A} (l : list A) (body : A → M unit) :
  (∀ x, only_output (body x)) → only_output (for_each l body).
Proof.
  intros H. induction l as [|x l IH]; simpl.
  - apply only_output_ret.
  - apply only_output_bind; auto.
Qed.

Lemma only_output_resolve p : only_output (OS.resolve p).
Proof. apply only_output_gets. Qed.

Ltac only_output_step :=
  first
    [ apply only_output_ret
    | apply only_output_raise
    | apply only_output_gets
    | apply only_output_resolve
    | apply only_output_set
    | apply only_output_answer
    | apply only_output_bind; [| intros ?]
    | apply only_output_try; [| intros ?]
    | apply only_output_when
    | apply only_output_for_each; intros ? ].

Ltac only_output_auto :=
  repeat first
    [ only_output_step
    | match goal with
      | |- only_output (if ?c then _ else _) => destruct c
      | |- only_output (match ?x with _ => _ end) => destruct x
      end ].

Lemma only_output_from_file w p : only_output (OS.from_file w p).
Proof. unfold OS.from_file. only_output_auto. Qed.

Lemma only_output_set_data_source_loop w k indices d :
  only_output (Validators.set_data_source_loop w k indices d).
Proof.
  revert d. induction indices as [|i indices IH]; intros d; simpl.
  - apply only_output_ret.
  - destruct d as [ds|]; [| apply only_output_raise].
    destruct (ds !! i); [| apply only_output_raise].
    case_bool_decide; apply IH.
Qed.

Lemma only_output_set_data_source w v p :
  only_output (Validators.set_data_source w v p).
Proof.
  unfold Validators.set_data_source. only_output_step; [only_output_auto |].
  destruct (driver_Open _ _ _); [| apply only_output_raise].
  apply only_output_set_data_source_loop.
Qed.

Lemma only_output_CreateLayer name epsg : only_output (Validators.CreateLayer name epsg).
Proof. intros s. by eexists. Qed.

Lemma only_output_CreateFeature f : only_output (Validators.CreateFeature f).
Proof. unfold Validators.CreateFeature. only_output_auto. Qed.

Lemma only_output_copy_feature w types f :
  only_output (Validators.copy_feature w types f).
Proof. unfold Validators.copy_feature, Validators.geometry_name. only_output_auto. Qed.

Lemma only_output_write_geometry w v p types :
  only_output (Validators.write_geometry_to_data_source w v p types).
Proof.
  unfold Validators.write_geometry_to_data_source.
  only_output_step; [apply only_output_set_data_source |].
  destruct a; [| apply only_output_raise].
  only_output_step. unfold Validators.layer_body.
  only_output_step; [only_output_auto |].
  only_output_step; [only_output_step; apply only_output_CreateLayer |].
  destruct (_ !! _); [| apply only_output_raise].
  only_output_step. only_output_step; [apply only_output_copy_feature |].
  apply only_output_CreateFeature.
Qed.

Lemma only_output_shp_pass w files types :
  only_output (Validators.get_geometry_from_shp_files w files types).
Proof.
  unfold Validators.get_geometry_from_shp_files.
  do 3 only_output_step. apply only_output_write_geometry.
Qed.

Lemma only_output_get_driver w p : only_output (Uploader.get_driver_for_file w p).
Proof.
  unfold Uploader.get_driver_for_file, Validators.KMZ_driver_validation,
    Validators.KML_driver_validation, Validators.GeoJSON_driver_validation.
  repeat first
    [ apply only_output_from_file
    | only_output_step
    | match goal with
      | |- only_output (if ?c then _ else _) => destruct c
      end ].
Qed.

Lemma only_output_dispatch w types current stack shp :
  only_output (Uploader.dispatch w types current stack shp).
Proof.
  revert current shp. induction stack as [|next stack IH]; intros current shp; simpl.
  all: destruct (negb (Str.truthy current)); [apply only_output_ret |].
  all: only_output_step; [apply only_output_get_driver |].
  all: only_output_step;
    [ destruct a; [only_output_step; [apply only_output_write_geometry | only_output_step]
                  | only_output_step ] |].
  - apply only_output_ret.
  - apply IH.
Qed.

(** ** Invariants of a run *)

Section Hoare.
Context {A B : Type} (I : State → Prop).

Lemma hoare_ret (a : A) (Q : A → Prop) : Q a → hoare I (ret a) Q.
Proof. intros H s Hs. done. Qed.

Lemma hoare_raise e (Q : A → Prop) : hoare I (raise e) Q.
Proof. intros s Hs. done. Qed.

Lemma hoare_gets (f : State → A) : hoare I (gets f) (λ _, True).
Proof. intros s Hs. done. Qed.

Lemma hoare_bind (m : M A) (f : A → M B) (Q : A → Prop) (Q' : B → Prop) :
  hoare I m Q → (∀ a, Q a → hoare I (f a) Q') → hoare I (bind m f) Q'.
Proof.
  intros Hm Hf s Hs. unfold bind. specialize (Hm s Hs).
  destruct (m s) as [[a|e] s']; [| done].
  destruct Hm as [Hs' Ha]. by apply Hf.
Qed.

Lemma hoare_weaken (m : M A) (Q Q' : A → Prop) :
  hoare I m Q → (∀ a, Q a → Q' a) → hoare I m Q'.
Proof.
  intros Hm HQ s Hs. specialize (Hm s Hs).
  destruct (m s) as [[a|e] s']; [| done].
  destruct Hm as [Hs' Ha]. split; [done | by apply HQ].
Qed.

Lemma hoare_answer (o : option A) e : hoare I (answer o e) (λ _, True).
Proof. destruct o; [by apply hoare_ret | apply hoare_raise]. Qed.

End Hoare.

Lemma hoare_for_each {A} I (l : list A) (body : A → M unit) :
  (∀ x, hoare I (body x) (λ _, True)) → hoare I (for_each l body) (λ _, True).
Proof.
  intros H. induction l as [|x l IH]; simpl.
  - by apply hoare_ret.
  - eapply hoare_bind; [apply H | done].
Qed.

Lemma hoare_when I c (m : M unit) :
  hoare I m (λ _, True) → hoare I (when c m) (λ _, True).
Proof. intros H. destruct c; [exact H | by apply hoare_ret]. Qed.

(** Paths *)

Lemma abspath_isabs c p :
  PosixPath.isabs p = true → PosixPath.abspath c p = PosixPath.normpath p.
Proof. intros H. unfold PosixPath.abspath. by rewrite H. Qed.

Lemma startswith_slash a :
  Str.startswith a "/" = true → ∃ a', a = String "/" a'.
Proof.
  destruct a as [|c a]; [discriminate |].
  change (Ascii.eqb "/" c && true = true → ∃ a', String c a = String "/" a').
  destruct (Ascii.eqb_spec "/" c) as [<-|]; [eauto | discriminate].
Qed.

Lemma isabs_join a b :
  PosixPath.isabs a = true → PosixPath.isabs (PosixPath.join a b) = true.
Proof.
  unfold PosixPath.isabs, PosixPath.join. intros [a' ->]%startswith_slash.
  destruct (Str.startswith b "/") eqn:Hb; [done |].
  by destruct (_ || _).
Qed.

Lemma inside_dir_self d : PosixPath.inside_dir d d = true.
Proof. unfold PosixPath.inside_dir. by rewrite String.eqb_refl. Qed.

Section ArtifactKept.
Variables (w : World) (self : Uploader.VectorFileUploader).
Hypothesis fresh : fresh_names w self.

Let I := artifact_kept w.

Lemma abspath_output_name c :
  PosixPath.abspath c (Uploader.output_name w)
  = PosixPath.normpath (Uploader.output_name w).
Proof. apply abspath_isabs, isabs_join, fresh. Qed.

Lemma abspath_workspace_name c :
  PosixPath.abspath c (workspace_name w) = PosixPath.normpath (workspace_name w).
Proof. apply abspath_isabs, isabs_join, fresh. Qed.

Lemma artifact_kept_set_output o s : I (set_output o s) ↔ I s.
Proof. done. Qed.

Lemma hoare_only_output {A} (m : M A) : only_output m → hoare I m (λ _, True).
Proof.
  intros Hm s Hs. destruct (Hm s) as [o Ho].
  destruct (m s) as [[a|e] s']; simpl in Ho; subst s'; by rewrite ?artifact_kept_set_output.
Qed.

Lemma hoare_resolve p : hoare I (OS.resolve p) (λ _, True).
Proof. apply hoare_gets. Qed.

Lemma hoare_from_file p : hoare I (OS.from_file w p) (λ _, True).
Proof. apply hoare_only_output, only_output_from_file. Qed.

Lemma hoare_write_file p : hoare I (OS.write_file p) (λ _, True).
Proof.
  intros s [Hn Ht]. cbn. split; [| done]. split; [| done]. cbn.
  apply elem_of_union. by right.
Qed.

Lemma hoare_mkdir p : hoare I (OS.mkdir p) (λ _, True).
Proof.
  intros s Hs. unfold OS.mkdir, OS.resolve, bind, gets. cbn.
  destruct (_ || _); cbn; done.
Qed.

Lemma hoare_chdir p : hoare I (OS.chdir p) (λ _, True).
Proof. intros s Hs. done. Qed.

Lemma hoare_set_dirs d : hoare I (modify (λ s, set_dirs (d s) s)) (λ _, True).
Proof. intros s Hs. done. Qed.

Lemma hoare_extract_member p is_dir :
  hoare I (OS.extract_member p is_dir) (λ _, True).
Proof.
  unfold OS.extract_member.
  eapply hoare_bind; [apply hoare_gets |]. intros k _.
  eapply hoare_bind; [apply hoare_gets |]. intros blocked _.
  destruct blocked; [apply hoare_raise |].
  eapply hoare_bind; [apply (hoare_set_dirs (λ s, _ ∪ dirs s)) |]. intros _ _.
  eapply hoare_bind; [apply hoare_gets |]. intros present _.
  destruct is_dir, present;
    first [by apply hoare_ret | apply hoare_raise | apply hoare_mkdir | apply hoare_write_file].
Qed.

Lemma hoare_remove_upload : hoare I (OS.remove (Uploader.file self)) (λ _, True).
Proof.
  intros s [Hn Ht]. unfold OS.remove, OS.resolve, bind, gets. cbn.
  case_bool_decide; cbn; [| done].
  split; [| done]. split; [| done]. cbn.
  pose proof (upload_apart w self fresh (cwd s)). set_solver.
Qed.

Lemma hoare_rmtree_workspace : hoare I (OS.rmtree (workspace_name w)) (λ _, True).
Proof.
  intros s [Hn Ht]. cbn. split; [| done]. split; [| done]. cbn.
  rewrite abspath_workspace_name. apply elem_of_filter. split; [| done].
  apply fresh.
Qed.

Lemma hoare_set_TEMP_FOLDER :
  hoare I (modify (set_TEMP_FOLDER (Some (workspace_name w)))) (λ _, True).
Proof. intros s [Hn Ht]. cbn. split; [| done]. split; [done | by right]. Qed.

Ltac hoare_leaf :=
  first
    [ by apply hoare_ret
    | apply hoare_raise
    | apply hoare_gets
    | apply hoare_resolve
    | apply hoare_answer
    | apply hoare_from_file
    | apply hoare_write_file
    | apply hoare_mkdir
    | apply hoare_chdir
    | apply hoare_extract_member
    | apply hoare_remove_upload
    | apply hoare_rmtree_workspace
    | apply hoare_set_TEMP_FOLDER ].

Ltac hoare_auto :=
  repeat first
    [ hoare_leaf
    | eapply hoare_bind; [| intros ? _]
    | apply hoare_when
    | apply hoare_for_each; intros ?
    | match goal with
      | |- hoare _ (if ?c then _ else _) _ => destruct c
      end ].

Lemma hoare_walk_files p : hoare I (OS.walk_files p) (λ _, True).
Proof. unfold OS.walk_files. hoare_auto. Qed.

Lemma hoare_init :
  hoare I (Archive.init w (Uploader.file self))
    (λ r, Archive.tmp_folder r = workspace_name w
          ∧ Archive.file r = Uploader.file self).
Proof.
  unfold Archive.init. eapply hoare_bind; [apply hoare_from_file |].
  intros mime _. destruct (_ || _); [| apply hoare_raise].
  eapply hoare_bind; [apply hoare_mkdir |]. intros _ _. by apply hoare_ret.
Qed.

Section Reader.
Variable r : Archive.ArchiveReader.
Hypothesis r_tmp : Archive.tmp_folder r = workspace_name w.
Hypothesis r_file : Archive.file r = Uploader.file self.

Lemma hoare_read_from_zip : hoare I (Archive.read_from_zip w r) (λ _, True).
Proof.
  unfold Archive.read_from_zip, Archive.zip_extractall, Archive.absolute_file_paths.
  rewrite r_file. hoare_auto; apply hoare_walk_files.
Qed.

Lemma hoare_safe_extract members path :
  hoare I (Archive.safe_extract members path) (λ _, True).
Proof.
  unfold Archive.safe_extract, Archive.tar_extractall, Archive.is_within_directory.
  hoare_auto.
Qed.

Lemma hoare_read_from_tar : hoare I (Archive.read_from_tar w r) (λ _, True).
Proof.
  unfold Archive.read_from_tar, Archive.absolute_file_paths.
  rewrite r_file. hoare_auto; first [apply hoare_safe_extract | apply hoare_walk_files].
Qed.

Lemma hoare_read_from_7z : hoare I (Archive.read_from_7z w r) (λ _, True).
Proof.
  unfold Archive.read_from_7z, Archive.absolute_file_paths.
  rewrite r_file. hoare_auto; apply hoare_walk_files.
Qed.

Lemma hoare_get_files :
  hoare I (Archive.get_files w r)
    (λ got, ∀ l t, got = Some (l, t) → t = workspace_name w).
Proof.
  unfold Archive.get_files.
  repeat match goal with
         | |- hoare _ (if ?c then _ else _) _ => destruct c
         end.
  - eapply hoare_bind; [apply hoare_read_from_zip |]. intros l _.
    apply hoare_ret. intros ? ? [= <- <-]. done.
  - eapply hoare_bind; [apply hoare_read_from_tar |]. intros l _.
    apply hoare_ret. intros ? ? [= <- <-]. done.
  - eapply hoare_bind; [apply hoare_read_from_7z |]. intros l _.
    apply hoare_ret. intros ? ? [= <- <-]. done.
  - by apply hoare_ret.
Qed.

End Reader.

Lemma hoare_materialize :
  hoare I (Uploader.materialize w self)
    (λ got, ∀ r, got.2 = Some r → Archive.tmp_folder r = workspace_name w).
Proof.
  unfold Uploader.materialize. destruct (Str.isin _ _); [by apply hoare_ret |].
  eapply hoare_bind; [apply hoare_init |]. intros r [Htmp Hfile].
  eapply hoare_bind; [by apply hoare_get_files |]. intros [[l t]|] Ht; [| apply hoare_raise].
  rewrite (Ht l t eq_refl).
  eapply hoare_bind; [apply hoare_set_TEMP_FOLDER |]. intros _ _.
  apply hoare_ret. by intros ? [= <-].
Qed.


Lemma hoare_write_geometry_by_type types :
  hoare I (Uploader.write_geometry_by_type w self types) (λ _, True).
Proof.
  unfold Uploader.write_geometry_by_type.
  eapply hoare_bind; [apply hoare_materialize |]. intros [l reader] Hr.
  destruct (rev l) as [|first stack]; [apply hoare_raise |].
  eapply hoare_bind; [apply hoare_only_output, only_output_dispatch |]. intros shp _.
  eapply hoare_bind;
    [apply hoare_when, hoare_only_output, only_output_shp_pass |]. intros _ _.
  destruct reader as [r|]; [| by apply hoare_ret].
  unfold Archive.return_temp_dir. rewrite (Hr r eq_refl).
  apply hoare_rmtree_workspace.
Qed.

(** Once the artifact is on disk, the handler of [create_output_data_source]
    removes it and raises the exception it was given. *)
Lemma rmtree_gone p s :
  gone (PosixPath.abspath (cwd s) p) (OS.rmtree p s).2.
Proof.
  intros q Hq. cbn. rewrite !elem_of_filter. unfold OS.outside.
  split; intros [Hout _]; by rewrite Hq in Hout.
Qed.

Lemma rollback_raises e s :
  I s →
  ∃ s', Uploader.rollback (Uploader.output_name w) e s = (Raise e, s')
        ∧ (PosixPath.normpath (Uploader.output_name w) ∉ files s')
        ∧ (∀ t, TEMP_FOLDER s = Some t → Str.truthy t = true →
                gone (PosixPath.abspath (cwd s) t) s').
Proof.
  intros [Hn Ht]. unfold Uploader.rollback.
  set (cleanup := match TEMP_FOLDER s with
                  | Some t => when (Str.truthy t) (OS.rmtree t)
                  | None => ret tt
                  end).
  assert (∃ s1, cleanup s = (Ok tt, s1) ∧ cwd s1 = cwd s
                ∧ PosixPath.normpath (Uploader.output_name w) ∈ files s1
                ∧ (∀ t, TEMP_FOLDER s = Some t → Str.truthy t = true →
                        gone (PosixPath.abspath (cwd s) t) s1)) as (s1 & Hc & Hcwd & Hn1 & Hd1).
  { subst cleanup. destruct Ht as [-> | ->].
    - exists s. do 3 (split; [done |]). by intros t [=].
    - destruct (Str.truthy (workspace_name w)) eqn:Htr; cbn.
      + eexists. split; [reflexivity |]. split; [reflexivity |]. split.
        * cbn. rewrite abspath_workspace_name. apply elem_of_filter.
          split; [apply fresh | done].
        * intros t [= <-] _. apply rmtree_gone.
      + exists s. do 3 (split; [done |]). intros t [= <-]. by rewrite Htr. }
  exists (set_files (files s1 ∖ {[PosixPath.normpath (Uploader.output_name w)]}) s1).
  split; [| split].
  - unfold bind at 1. unfold gets at 1. cbn. fold cleanup.
    unfold bind at 1. rewrite Hc.
    unfold OS.remove, OS.resolve, bind, gets, modify, raise. cbn.
    rewrite abspath_output_name. by rewrite bool_decide_eq_true_2.
  - cbn. intros [_ Hne]%elem_of_difference. apply Hne. by apply elem_of_singleton.
  - intros t Htemp Htruthy q Hq. destruct (Hd1 t Htemp Htruthy q Hq) as [Hf Hd].
    split; [| exact Hd]. cbn. intros [Hin _]%elem_of_difference. by apply Hf.
Qed.

End ArtifactKept.

(** ** Failure of a run *)

Section Failure.
Variables (w : World) (self : Uploader.VectorFileUploader).
Hypothesis fresh : fresh_names w self.

Lemma artifact_kept_after_create s s1 :
  TEMP_FOLDER s = None →
  Uploader.CreateDataSource (Uploader.output_name w) s = (Ok tt, s1) →
  artifact_kept w s1.
Proof.
  intros Ht [= <-]. split; [| by left]. cbn.
  rewrite (abspath_output_name w self fresh). apply elem_of_union. left.
  by apply elem_of_singleton.
Qed.

(** The [try]/[except] of [create_output_data_source], entered with the
    artifact on disk: a raising body ends in the same exception, with the
    artifact removed. *)
Lemma failed_body_rolls_back types s s1 e s2 :
  TEMP_FOLDER s = None →
  Uploader.CreateDataSource (Uploader.output_name w) s = (Ok tt, s1) →
  Uploader.write_geometry_by_type w self types s1 = (Raise e, s2) →
  ∃ s3, Uploader.create_output_data_source w self types s = (Raise e, s3)
        ∧ (PosixPath.normpath (Uploader.output_name w) ∉ files s3).
Proof.
  intros Ht Hc Hw.
  pose proof (artifact_kept_after_create s s1 Ht Hc) as H1.
  pose proof (hoare_write_geometry_by_type w self fresh types s1 H1) as H2.
  rewrite Hw in H2.
  destruct (rollback_raises w self fresh e s2 H2) as (s3 & Hr & Hn & _).
  exists s3. split; [| done].
  unfold Uploader.create_output_data_source.
  rewrite (bind_ok _ _ _ _ _ Hc).
  apply bind_raise. unfold try_except. by rewrite Hw.
Qed.

End Failure.

(** What the handler does achieve, under an absolute temporary root: when
    [__write_geometry_by_type] raises [e] from the state in which the artifact
    has just been created, [create_output_data_source] raises that same [e],
    and the artifact, which was on disk, is on disk no more. *)
Lemma failure_removes_artifact_and_reraises
    (w : World) (self : Uploader.VectorFileUploader) (types : list string)
    (s s1 s2 : State) (e : exn) :
  fresh_names w self →
  TEMP_FOLDER s = None →
  Uploader.CreateDataSource (Uploader.output_name w) s = (Ok tt, s1) →
  Uploader.write_geometry_by_type w self types s1 = (Raise e, s2) →
  PosixPath.normpath (Uploader.output_name w) ∈ files s1
  ∧ ∃ s3, Uploader.create_output_data_source w self types s = (Raise e, s3)
          ∧ (PosixPath.normpath (Uploader.output_name w) ∉ files s3).
Proof.
  intros fresh Ht Hc Hw. split.
  - by destruct (artifact_kept_after_create w self fresh s s1 Ht Hc).
  - by eapply failed_body_rolls_back.
Qed.

(** C10.  When materialising the candidates gives an empty list, the first
    [files.pop()] raises [IndexError]; the run ends in that exception and
    returns no artifact, the one it had created being removed. *)
Theorem empty_candidate_list_raises_IndexError
    (w : World) (self : Uploader.VectorFileUploader) (types : list string)
    (s s1 s2 : State) (reader : option Archive.ArchiveReader) :
  fresh_names w self →
  TEMP_FOLDER s = None →
  Uploader.CreateDataSource (Uploader.output_name w) s = (Ok tt, s1) →
  Uploader.materialize w self s1 = (Ok ([], reader), s2) →
  ∃ s3, Uploader.create_output_data_source w self types s
        = (Raise (Exn IndexError "pop from empty list"), s3)
        ∧ (PosixPath.normpath (Uploader.output_name w) ∉ files s3).
Proof.
  intros fresh Ht Hc Hm.
  eapply failed_body_rolls_back; [done | done | exact Hc |].
  unfold Uploader.write_geometry_by_type.
  by rewrite (bind_ok _ _ _ _ _ Hm).
Qed.

(** C3, at the failing input: a 7z upload on a machine without the [7z]
    command, the temporary root being the relative path [tmp].  The artifact
    is created at [/srv/app/tmp/out.geojson].  [__read_from_7z] has changed
    the working directory to the workspace when [subprocess.call] raises, and
    the [chdir] back is not reached.  The handler's [remove(name)] then looks
    for [tmp/out.geojson] below the workspace and raises its own
    [FileNotFoundError]: the artifact stays on disk, and the exception that
    leaves [create_output_data_source] is not the one that was raised. *)
Theorem relative_root_failure_keeps_artifact :
  ∃ s1 s2 s3,
    Uploader.CreateDataSource (Uploader.output_name Scenarios.relative_root_world)
      (Scenarios.disk "/uploads/data.7z")
    = (Ok tt, s1)
    ∧ "/srv/app/tmp/out.geojson" ∈ files s1
    ∧ Uploader.write_geometry_by_type Scenarios.relative_root_world
        Scenarios.sevenzip_upload [] s1
      = (Raise (Exn OSError "FileNotFoundError: '7z'"), s2)
    ∧ cwd s2 = "/srv/app/tmp/ws"
    ∧ Uploader.create_output_data_source Scenarios.relative_root_world
        Scenarios.sevenzip_upload [] (Scenarios.disk "/uploads/data.7z")
      = (Raise (Exn OSError "FileNotFoundError"), s3)
    ∧ "/srv/app/tmp/out.geojson" ∈ files s3.
Proof.
  do 3 eexists.
  split; [reflexivity |].
  split; [apply (bool_decide_eq_true_1 _); vm_compute; reflexivity |].
  split; [vm_compute; reflexivity |].
  split; [reflexivity |].
  split; [vm_compute; reflexivity |].
  apply (bool_decide_eq_true_1 _). vm_compute. reflexivity.
Qed.

Lemma empty_candidate_list_raises_IndexError_witness :
  ∃ s3, Uploader.create_output_data_source Scenarios.failed_7z_world
          Scenarios.sevenzip_upload ["POLYGON"] (Scenarios.disk "/uploads/data.7z")
        = (Raise (Exn IndexError "pop from empty list"), s3)
        ∧ ("/tmp/aoi/out.geojson" ∉ files s3).
Proof.
  eapply (empty_candidate_list_raises_IndexError Scenarios.failed_7z_world
            Scenarios.sevenzip_upload ["POLYGON"] (Scenarios.disk "/uploads/data.7z")).
  - split; [reflexivity | intros c; vm_compute; discriminate | vm_compute; reflexivity].
  - reflexivity.
  - vm_compute. reflexivity.
  - vm_compute. reflexivity.
Defined.

(** A zip archive whose only member is the directory [sub/]: the workspace
    holds no file, the candidate list is empty, and the run raises
    [IndexError]. *)
Example directory_only_zip_raises_IndexError :
  (Uploader.create_output_data_source
     (Scenarios.with_archive "/uploads/data.zip" (Some ["sub/"]) None None
        (Scenarios.with_mime [("/uploads/data.zip", "application/zip")] Scenarios.blank))
     Scenarios.zip_upload [] (Scenarios.disk "/uploads/data.zip")).1
  = Raise (Exn IndexError "pop from empty list").
Proof. vm_compute. reflexivity. Qed.

(** ** Appending a file's geometries *)

Section Append.
Variables (w : World) (types : list string).

Let copy := clone w types.

Let body := λ feature,
  bind (Validators.copy_feature w types feature) Validators.CreateFeature.

Lemma with_new_features_nil l others : with_new_features [] (l :: others) = l :: others.
Proof. destruct l. cbn. by rewrite app_nil_r. Qed.

Lemma with_new_features_app a b o :
  with_new_features b (with_new_features a o) = with_new_features (a ++ b) o.
Proof. destruct o as [|l others]; cbn; [done |]. by rewrite app_assoc. Qed.

Lemma CreateFeature_appends f s :
  output s ≠ [] →
  Validators.CreateFeature f s
  = (Ok tt, set_output (with_new_features [f] (output s)) s).
Proof.
  intros Ho. unfold Validators.CreateFeature, bind, gets. cbn.
  by destruct (output s).
Qed.

(** The feature made for a source feature: a readable one gives its clone,
    and one without geometry under a filter raises. *)
Lemma copy_feature_readable feature s :
  readable types feature →
  Validators.copy_feature w types feature s = (Ok (copy feature), s).
Proof.
  unfold readable, copy, clone, Validators.copy_feature, Validators.geometry_name, Str.isin.
  intros [-> | [g Hg]].
  - cbn. by destruct (geometry feature).
  - rewrite Hg. cbn. unfold bind, ret. case_bool_decide as Ht; cbn.
    + destruct (decide (GetGeometryName g ∈ types)) as [Hin | Hin].
      * rewrite (bool_decide_eq_true_2 _ Hin). cbn.
        by rewrite bool_decide_eq_true_2 by (by right).
      * rewrite (bool_decide_eq_false_2 _ Hin). cbn.
        by rewrite bool_decide_eq_false_2 by (by intros [|]).
    + by rewrite bool_decide_eq_true_2 by (left; by destruct types).
Qed.

Lemma copy_feature_unreadable feature s :
  ¬ readable types feature →
  Validators.copy_feature w types feature s
  = (Raise (Validators.no_attribute "GetGeometryName"), s).
Proof.
  unfold readable, Validators.copy_feature, Validators.geometry_name. intros H.
  rewrite bool_decide_eq_true_2 by (intros ->; apply H; by left).
  destruct (geometry feature) as [g|]; [| done].
  exfalso. apply H. right. by eexists.
Qed.

Lemma body_readable feature s :
  readable types feature →
  output s ≠ [] →
  body feature s
  = (Ok tt, set_output (with_new_features [copy feature] (output s)) s).
Proof.
  intros Hf Ho. unfold body.
  rewrite (bind_ok _ _ _ _ _ (copy_feature_readable feature s Hf)).
  by apply CreateFeature_appends.
Qed.

Lemma body_unreadable feature s :
  ¬ readable types feature →
  body feature s = (Raise (Validators.no_attribute "GetGeometryName"), s).
Proof.
  intros Hf. unfold body.
  by rewrite (bind_raise _ _ _ _ _ (copy_feature_unreadable feature s Hf)).
Qed.

Lemma feature_loop_appends (ds_layer : Layer) s :
  Forall (readable types) ds_layer →
  output s ≠ [] →
  for_each ds_layer body s
  = (Ok tt, set_output (with_new_features (map copy ds_layer) (output s)) s).
Proof.
  revert s. induction ds_layer as [|f l IH]; intros s Hr Ho; cbn.
  - destruct (output s) as [|o others] eqn:E; [done |].
    rewrite with_new_features_nil, <- E. by rewrite set_output_id.
  - apply Forall_cons in Hr as [Hf Hl].
    rewrite (bind_ok _ _ _ _ _ (body_readable f s Hf Ho)).
    rewrite IH; cbn.
    + by rewrite with_new_features_app.
    + done.
    + by destruct (output s).
Qed.

(** The loop stops at the first feature that is not readable, with the
    features before it written. *)
Lemma feature_loop_stops (pre post : Layer) feature s :
  Forall (readable types) pre →
  ¬ readable types feature →
  output s ≠ [] →
  for_each (pre ++ feature :: post) body s
  = (Raise (Validators.no_attribute "GetGeometryName"),
     set_output (with_new_features (map copy pre) (output s)) s).
Proof.
  revert s. induction pre as [|f l IH]; intros s Hr Hf Ho; cbn.
  - rewrite (bind_raise _ _ _ _ _ (body_unreadable feature s Hf)).
    destruct (output s) as [|o others] eqn:E; [done |].
    rewrite with_new_features_nil, <- E. by rewrite set_output_id.
  - apply Forall_cons in Hr as [Hf' Hl].
    rewrite (bind_ok _ _ _ _ _ (body_readable f s Hf' Ho)).
    rewrite IH; cbn.
    + by rewrite with_new_features_app.
    + done.
    + done.
    + by destruct (output s).
Qed.

Lemma layer_body_appends ds i ds_layer s :
  ds !! i = Some ds_layer →
  Forall (readable types) ds_layer →
  Validators.layer_body w types ds i s
  = (Ok tt, set_output (with_new_features (map copy ds_layer) (output s)) s).
Proof.
  intros Hi Hr. unfold Validators.layer_body, bind at 1, gets. rewrite Hi.
  fold body.
  destruct (output s) as [|o others] eqn:E; cbn.
  - rewrite feature_loop_appends; cbn; rewrite ?E; done.
  - rewrite feature_loop_appends; rewrite ?E; done.
Qed.

Lemma layer_loop_appends (post pre : DataSource) s :
  Forall (readable types) (concat post) →
  for_each (seq (length pre) (length post))
    (Validators.layer_body w types (pre ++ post)) s
  = (Ok tt,
     match post with
     | [] => s
     | _ => set_output (with_new_features (map copy (concat post)) (output s)) s
     end).
Proof.
  revert pre s. induction post as [|ds_layer post IH]; intros pre s Hr; [done |].
  cbn [concat] in Hr. apply Forall_app in Hr as [Hr1 Hr2].
  cbn [length seq for_each].
  rewrite (bind_ok _ _ _ _ _
             (layer_body_appends _ _ ds_layer s
                (list_lookup_middle pre post ds_layer _ eq_refl) Hr1)).
  specialize (IH (pre ++ [ds_layer])).
  rewrite length_app, Nat.add_1_r, <- app_assoc in IH. cbn in IH.
  rewrite IH by done. destruct post as [|l post'].
  - cbn. by rewrite app_nil_r.
  - cbn [output set_output]. rewrite with_new_features_app, <- map_app. done.
Qed.

Lemma set_data_source_loop_reads k indices d s :
  (Validators.set_data_source_loop w k indices d s).2 = s.
Proof.
  revert d. induction indices as [|i indices IH]; intros d; cbn; [done |].
  destruct d as [ds|]; [| done]. destruct (ds !! i); [| done].
  case_bool_decide; apply IH.
Qed.

Lemma set_data_source_reads v file s :
  (Validators.set_data_source w v file s).2 = s.
Proof.
  unfold Validators.set_data_source, bind, OS.resolve, gets.
  destruct (driver_Open _ _ _); [| done]. apply set_data_source_loop_reads.
Qed.

Lemma write_geometry_appends v file s ds :
  (Validators.set_data_source w v file s).1 = Ok (Some ds) →
  Forall (readable types) (concat ds) →
  Validators.write_geometry_to_data_source w v file types s
  = (Ok tt,
     match ds with
     | [] => s
     | _ => set_output (with_new_features (map copy (concat ds)) (output s)) s
     end).
Proof.
  intros Hds Hr. pose proof (set_data_source_reads v file s) as Hs.
  destruct (Validators.set_data_source w v file s) as [r s'] eqn:E.
  cbn in Hds, Hs. subst r s'.
  unfold Validators.write_geometry_to_data_source.
  rewrite (bind_ok _ _ _ _ _ E).
  by apply (layer_loop_appends ds []).
Qed.

Lemma clone_accepted feature :
  types = [] ∨ (∃ g, geometry feature = Some g ∧ GetGeometryName g ∈ types) →
  out_geometry (copy feature)
  = CreateGeometryFromWkt w (str_geom (geometry feature)).
Proof.
  unfold copy, clone. intros [-> | (g & -> & Hin)].
  - destruct (geometry feature) as [g|]; [| done].
    by rewrite bool_decide_eq_true_2 by (by left).
  - by rewrite bool_decide_eq_true_2 by (by right).
Qed.

Lemma clone_rejected feature :
  readable types feature →
  ¬ (types = [] ∨ (∃ g, geometry feature = Some g ∧ GetGeometryName g ∈ types)) →
  out_geometry (copy feature) = None.
Proof.
  unfold copy, clone, readable. intros [-> | [g Hg]] H; [exfalso; apply H; by left |].
  rewrite Hg. rewrite bool_decide_eq_false_2; [done |].
  intros [Ht | Hin]; apply H; [by left | right; eauto].
Qed.

End Append.

(** What [write_geometry_to_data_source] does for a file whose data source
    opens as [ds] and whose features are all readable: it returns, and the
    output's first layer (made if the output had none) has gained one feature
    for each feature of [ds], in order.  The new feature carries
    [CreateGeometryFromWkt(str(geom))], the clone of the source geometry, when
    the filter is empty or holds the geometry's name, and no geometry
    otherwise. *)
Lemma append_geometry_clones_accepted_geometries
    (w : World) (v : Validators.Validator) (file : string)
    (types : list string) (s : State) (ds : DataSource) :
  (Validators.set_data_source w v file s).1 = Ok (Some ds) →
  Forall (readable types) (concat ds) →
  ∃ new : list OutFeature,
    Validators.write_geometry_to_data_source w v file types s
    = (Ok tt,
       match ds with
       | [] => s
       | _ => set_output (with_new_features new (output s)) s
       end)
    ∧ length new = length (concat ds)
    ∧ ∀ i feature, concat ds !! i = Some feature →
        ∃ out_feature, new !! i = Some out_feature
          ∧ (types = [] ∨ (∃ g, geometry feature = Some g ∧ GetGeometryName g ∈ types) →
             out_geometry out_feature
             = CreateGeometryFromWkt w (str_geom (geometry feature)))
          ∧ (¬ (types = [] ∨ (∃ g, geometry feature = Some g ∧ GetGeometryName g ∈ types)) →
             out_geometry out_feature = None).
Proof.
  intros Hds Hr. exists (map (clone w types) (concat ds)).
  split; [by apply write_geometry_appends |].
  split; [by rewrite length_map |].
  intros i feature Hi. exists (clone w types feature).
  split; [by rewrite list_lookup_fmap, Hi |].
  split; [apply clone_accepted | apply clone_rejected].
  rewrite Forall_forall in Hr. apply Hr. by eapply list_elem_of_lookup_2.
Qed.

(** C5, at the failing input: the file holds a polygon, a feature without
    geometry and a point, and the filter is [POLYGON].  The append writes the
    polygon; at the second feature [feature.geometry()] is [None] and
    [geom.GetGeometryName()] raises [AttributeError].  No feature is made for
    the second source feature, and the third is never looked at. *)
Theorem null_geometry_under_filter_raises :
  Validators.write_geometry_to_data_source Scenarios.null_geometry_world
    Validators.GeoJSONValidator "/data/null.geojson" ["POLYGON"]
    (Scenarios.disk "/data/null.geojson")
  = (Raise (Exn AttributeError "'NoneType' object has no attribute 'GetGeometryName'"),
     set_output
       [{| layer_name := "layer_1"; layer_epsg := 4326;
           out_features :=
             [{| out_geometry :=
                   Some (Scenarios.geometry_of_wkt "POLYGON ((0 0,1 0,1 1,0 0))") |}] |}]
       (Scenarios.disk "/data/null.geojson")).
Proof. vm_compute. reflexivity. Qed.

(** ** GeoJSON sniffing *)

(** How a validator's sniff ends: with the MIME type, or with the exception
    of libmagic. *)
Lemma from_file_runs w file s :
  OS.from_file w file s
  = (match from_file w (PosixPath.abspath (cwd s) file) with
     | Mime mime_type => Ok mime_type
     | CannotOpen => Raise (Exn OSError "FileNotFoundError")
     | MagicException => Raise (Exn LibraryError "MagicException")
     end, s).
Proof.
  unfold OS.from_file, OS.resolve, bind, gets. cbv beta iota.
  by destruct (from_file w _).
Qed.

(** The [try] block of the GeoJSON test answers whatever happens in it. *)
Lemma GeoJSON_try_block w file s :
  let k := PosixPath.abspath (cwd s) file in
  ∃ b : bool,
    try_except
      (k ← OS.resolve file;
       content ← answer (open_read w k) (Exn OSError "open");
       data ← answer (literal_eval_dumps w content) (Exn LibraryError "literal_eval");
       ty ← answer (json_loads w data) (Exn LibraryError "JSONDecodeError");
       if negb (bool_decide (ty = JDict)) then ret false
       else
         when (negb (DataSource_opens w k)) (raise (Exn LibraryError "GDALException"));;
         ret true)
      (λ _, ret false) s
    = (Ok b, s)
    ∧ (b = true ↔
         ∃ content data,
           open_read w k = Some content
           ∧ literal_eval_dumps w content = Some data
           ∧ json_loads w data = Some JDict
           ∧ DataSource_opens w k = true).
Proof.
  intros k.
  unfold answer, OS.resolve, when, try_except, bind, gets, ret, raise.
  assert (∀ P : Prop, ¬ P → false = true ↔ P) as no
    by (intros P HP; split; [discriminate | done]).
  cbv beta iota. fold k.
  destruct (open_read w k) as [content |] eqn:Hread;
    [| exists false; split; [reflexivity | apply no; intros (? & ? & ? & _); done]].
  destruct (literal_eval_dumps w content) as [data |] eqn:Heval;
    [| exists false; split;
       [reflexivity | apply no; intros (? & ? & [= <-] & ? & _); congruence]].
  destruct (json_loads w data) as [ty |] eqn:Hloads;
    [| exists false; split;
       [reflexivity | apply no; intros (? & ? & [= <-] & ? & ? & _); congruence]].
  case_bool_decide as Hty; cbn;
    [subst ty
    | exists false; split;
       [reflexivity | apply no; intros (? & ? & [= <-] & ? & ? & _); congruence]].
  destruct (DataSource_opens w k) eqn:Hopen; cbn;
    [| exists false; split; [reflexivity | apply no; intros (? & ? & _ & _ & _ & ?); done]].
  exists true. split; [reflexivity |]. split; [| done]. intros _. eauto 10.
Qed.

(** C7, as the code has it.  When libmagic answers for the file,
    [GeoJSONValidator.driver_validation] returns a boolean and leaves the
    state as it was; the boolean is [True] exactly when the MIME type is
    [text/plain], the content is read and parses as a JSON object, and the
    data-source reader opens the file, and a failure of any of these links
    makes it [False].  When libmagic raises, which it is asked before the
    [try] block, its exception leaves the test. *)
Theorem geojson_matches_raises_only_from_the_sniffer
    (w : World) (file : string) (s : State) :
  let k := PosixPath.abspath (cwd s) file in
  match from_file w k with
  | Mime mime_type =>
      ∃ b : bool,
        Validators.GeoJSON_driver_validation w file s = (Ok b, s)
        ∧ (b = true ↔
             mime_type = "text/plain"
             ∧ ∃ content data,
                 open_read w k = Some content
                 ∧ literal_eval_dumps w content = Some data
                 ∧ json_loads w data = Some JDict
                 ∧ DataSource_opens w k = true)
  | CannotOpen =>
      Validators.GeoJSON_driver_validation w file s
      = (Raise (Exn OSError "FileNotFoundError"), s)
  | MagicException =>
      Validators.GeoJSON_driver_validation w file s
      = (Raise (Exn LibraryError "MagicException"), s)
  end.
Proof.
  intros k. unfold Validators.GeoJSON_driver_validation.
  pose proof (from_file_runs w file s) as Hsniff. fold k in Hsniff.
  destruct (from_file w k) as [mime_type | |];
    [| by rewrite (bind_raise _ _ _ _ _ Hsniff)..].
  rewrite (bind_ok _ _ _ _ _ Hsniff).
  destruct (String.eqb_spec mime_type "text/plain") as [-> | Hmime].
  - destruct (GeoJSON_try_block w file s) as (b & Hb & Hiff). fold k in Hiff.
    exists b. split; [exact Hb |]. rewrite Hiff. tauto.
  - exists false. split; [reflexivity |]. split; [discriminate | tauto].
Qed.

(** C7 fails as stated: for a path at which there is no file, the test
    raises. *)
Lemma geojson_matches_raises_without_file :
  Validators.GeoJSON_driver_validation
    (Scenarios.without_file "/uploads/gone.geojson" Scenarios.blank)
    "/uploads/gone.geojson" (Scenarios.disk "/uploads/a.geojson")
  = (Raise (Exn OSError "FileNotFoundError"), Scenarios.disk "/uploads/a.geojson").
Proof. vm_compute. reflexivity. Qed.

(** ** The Shapefile validator *)

Section Extensions.

Lemma rpartition_Some sep s a b :
  Str.rpartition sep s = Some (a, b) → s = a +:+ String sep b.
Proof.
  revert a b. induction s as [|c s IH]; intros a b; cbn; [done |].
  destruct (Str.rpartition sep s) as [[a' b']|].
  - intros [= <- <-].
    change (String c s = String c (a' +:+ String sep b')). f_equal. by apply IH.
  - destruct (Ascii.eqb_spec c sep) as [->|]; [| done]. by intros [= <- <-].
Qed.

Lemma rpartition_last sep a b :
  Str.rpartition sep b = None →
  Str.rpartition sep (a +:+ String sep b) = Some (a, b).
Proof.
  intros Hb. induction a as [|c a IH].
  - change (Str.rpartition sep (String sep b) = Some (EmptyString, b)).
    cbn. by rewrite Hb, Ascii.eqb_refl.
  - change (Str.rpartition sep (String c (a +:+ String sep b)) = Some (String c a, b)).
    cbn. by rewrite IH.
Qed.

Lemma lower_ascii_dot c : Ascii.eqb (Str.lower_ascii c) "." = Ascii.eqb c ".".
Proof. by destruct c as [[] [] [] [] [] [] [] []]. Qed.

Lemma string_length_ind (P : string → Prop) :
  (∀ s, (∀ t, (String.length t < String.length s)%nat → P t) → P s) → ∀ s, P s.
Proof.
  intros H s. remember (String.length s) as n eqn:Hn. revert s Hn.
  induction n as [n IH] using lt_wf_ind. intros s ->. apply H.
  intros t Ht. by apply (IH (String.length t)).
Qed.

Lemma is_byte_eq n c : Str.is_byte n c = true → c = Ascii.ascii_of_N n.
Proof.
  unfold Str.is_byte. intros <-%N.eqb_eq. by rewrite Ascii.ascii_N_embedding.
Qed.

(** One step of [lower]. *)
Lemma lower_String c s1 :
  Str.lower (String c s1)
  = match s1 with
    | EmptyString => String (Str.lower_ascii c) EmptyString
    | String c1 s2 =>
        if Str.is_byte 196 c && Str.is_byte 176 c1 then
          String "i" (String (Ascii.ascii_of_N 204)
                        (String (Ascii.ascii_of_N 135) (Str.lower s2)))
        else
          match s2 with
          | String c2 s3 =>
              if Str.is_byte 226 c && Str.is_byte 132 c1 && Str.is_byte 170 c2
              then String "k" (Str.lower s3)
              else String (Str.lower_ascii c) (Str.lower s1)
          | EmptyString => String (Str.lower_ascii c) (Str.lower s1)
          end
    end.
Proof. by destruct s1 as [|c1 [|c2 s3]]. Qed.

(** Lowering neither makes a dot nor takes one away. *)
Lemma contains_dot_lower s : Str.contains "." (Str.lower s) = Str.contains "." s.
Proof.
  induction s as [s IH] using string_length_ind.
  destruct s as [|c s1]; [done |].
  rewrite lower_String. destruct s1 as [|c1 s2].
  { cbn. by rewrite lower_ascii_dot. }
  destruct (Str.is_byte 196 c && Str.is_byte 176 c1) eqn:HI.
  { apply andb_true_iff in HI as [->%is_byte_eq ->%is_byte_eq].
    cbn [Str.contains]. rewrite IH by (cbn; lia). reflexivity. }
  assert (Str.contains "." (String (Str.lower_ascii c) (Str.lower (String c1 s2)))
          = Str.contains "." (String c (String c1 s2))) as Hstep.
  { cbn [Str.contains]. rewrite lower_ascii_dot.
    rewrite (IH (String c1 s2)) by (cbn; lia). reflexivity. }
  destruct s2 as [|c2 s3]; [exact Hstep |].
  destruct (Str.is_byte 226 c && Str.is_byte 132 c1 && Str.is_byte 170 c2) eqn:HK;
    [| exact Hstep].
  apply andb_true_iff in HK as [[->%is_byte_eq ->%is_byte_eq]%andb_true_iff ->%is_byte_eq].
  cbn [Str.contains]. rewrite IH by (cbn; lia). reflexivity.
Qed.

Lemma rpartition_contains sep s :
  is_Some (Str.rpartition sep s) ↔ Str.contains sep s = true.
Proof.
  induction s as [|c s IH]; cbn.
  - split; [by intros ?%is_Some_None | done].
  - destruct (Str.rpartition sep s) as [[??]|].
    + rewrite (proj1 IH) by eauto. rewrite orb_true_r. split; eauto.
    + destruct (Ascii.eqb c sep); cbn.
      * split; eauto.
      * rewrite <- IH. done.
Qed.

Lemma rpartition_lower s :
  is_Some (Str.rpartition "." (Str.lower s)) ↔ is_Some (Str.rpartition "." s).
Proof. by rewrite !rpartition_contains, contains_dot_lower. Qed.

Lemma rsplit1_splits s :
  (1 < length (Str.rsplit1 "." s))%nat ↔ is_Some (Str.rpartition "." s).
Proof.
  unfold Str.rsplit1. destruct (Str.rpartition "." s) as [[??]|]; cbn.
  - split; [eauto | lia].
  - split; [lia | by intros ?%is_Some_None].
Qed.

(** The list built by [driver_validation] holds, for each name with a dot,
    the text after its last dot. *)
Lemma elem_of_files_extension e files :
  e ∈ Validators.files_extension files
  ↔ ∃ el stem, el ∈ files ∧ Str.rpartition "." el = Some (stem, e).
Proof.
  induction files as [|f files IH]; cbn.
  - split; [by intros ?%elem_of_nil | by intros (? & ? & ?%elem_of_nil & _)].
  - case_bool_decide as Hdot.
    + apply (proj1 (rsplit1_splits _)), (proj1 (rpartition_lower _)) in Hdot.
      destruct Hdot as [[stem ext] Hf].
      unfold Str.rsplit1. rewrite Hf. cbn. rewrite elem_of_cons, IH. split.
      * intros [-> | (el & st & Hel & Hp)].
        -- exists f, stem. split; [left | done].
        -- exists el, st. split; [by right | done].
      * intros (el & st & [-> | Hel]%elem_of_cons & Hp).
        -- left. congruence.
        -- right. eauto.
    + rewrite IH. split.
      * intros (el & st & Hel & Hp). exists el, st. split; [by right | done].
      * intros (el & st & [-> | Hel]%elem_of_cons & Hp); [| eauto].
        exfalso. apply Hdot, (proj2 (rsplit1_splits _)), (proj2 (rpartition_lower _)).
        eauto.
Qed.

Lemma SHP_SET_no_dot e : e ∈ Validators.SHP_SET → Str.rpartition "." e = None.
Proof.
  unfold Validators.SHP_SET. rewrite !elem_of_cons, elem_of_nil.
  by intros [-> | [-> | [-> | [-> | []]]]].
Qed.

Lemma Shape_driver_validation_spec files :
  Validators.Shape_driver_validation files = true
  ↔ ∀ e, e ∈ Validators.SHP_SET → ∃ stem, stem +:+ "." +:+ e ∈ files.
Proof.
  unfold Validators.Shape_driver_validation, Str.isin.
  rewrite forallb_forall. split.
  - intros H e He.
    specialize (H e (proj1 (list_elem_of_In _ _) He)).
    apply bool_decide_eq_true_1, elem_of_files_extension in H as (el & stem & Hel & Hp).
    exists stem. pose proof (rpartition_Some _ _ _ _ Hp) as ->. exact Hel.
  - intros H e He%list_elem_of_In. destruct (H e He) as [stem Hstem].
    apply bool_decide_eq_true_2, elem_of_files_extension.
    exists (stem +:+ "." +:+ e), stem. split; [done |].
    by apply (rpartition_last "." stem e), SHP_SET_no_dot.
Qed.

End Extensions.

Lemma get_shp_files_endswith files file :
  file ∈ Validators.get_shp_files files → Str.endswith file ".shp" = true.
Proof.
  unfold Validators.get_shp_files. rewrite list_elem_of_In, filter_In. tauto.
Qed.

Lemma for_each_ext {A} (l : list A) (f g : A → M unit) s :
  (∀ x s', x ∈ l → f x s' = g x s') → for_each l f s = for_each l g s.
Proof.
  revert s. induction l as [|x l IH]; intros s H; cbn; [done |].
  unfold bind. rewrite (H x s) by left.
  destruct (g x s) as [[[]|e] s']; [| done].
  apply IH. intros y s'' Hy. apply H. by right.
Qed.

Lemma shp_pass_spec w files types s :
  Validators.get_geometry_from_shp_files w files types s
  = for_each (List.filter (λ file, Str.endswith file ".shp") files)
      (λ file, Validators.write_geometry_to_data_source w
                 Validators.ShapeValidator file types) s.
Proof.
  unfold Validators.get_geometry_from_shp_files.
  fold (Validators.get_shp_files files).
  destruct (Validators.get_shp_files files) as [|f l] eqn:E; [done |].
  rewrite bool_decide_eq_true_2 by (cbn; lia). cbn [when].
  apply for_each_ext. intros x s' Hx.
  rewrite <- E in Hx. by rewrite (get_shp_files_endswith files x Hx).
Qed.

(** What opening a source gives does not depend on the output. *)
Lemma set_data_source_loop_output w k indices d o s :
  (Validators.set_data_source_loop w k indices d (set_output o s)).1
  = (Validators.set_data_source_loop w k indices d s).1.
Proof.
  revert d. induction indices as [|i indices IH]; intros d; cbn; [done |].
  destruct d as [ds|]; [| done]. destruct (ds !! i); [| done].
  case_bool_decide; apply IH.
Qed.

Lemma set_data_source_output w v file o s :
  (Validators.set_data_source w v file (set_output o s)).1
  = (Validators.set_data_source w v file s).1.
Proof.
  unfold Validators.set_data_source, bind, OS.resolve, gets. cbn [cwd set_output].
  destruct (driver_Open _ _ _); [| done]. apply set_data_source_loop_output.
Qed.

Lemma all_features_with_new_features new o :
  (length o ≤ 1)%nat →
  all_features (with_new_features new o) = all_features o ++ new.
Proof.
  unfold all_features. destruct o as [|l [|l' others]]; cbn; intros H.
  - by rewrite app_nil_r.
  - by rewrite !app_nil_r.
  - lia.
Qed.

(** The Shapefile pass over files whose sources open and are readable: every
    feature of every file is written, file after file. *)
Lemma shp_loop_appends w types (shp_files : list string) (sources : list DataSource) s :
  (length (output s) ≤ 1)%nat →
  Forall2 (λ file ds,
             (Validators.set_data_source w Validators.ShapeValidator file s).1
             = Ok (Some ds)) shp_files sources →
  Forall (readable types) (concat (concat sources)) →
  ∃ o,
    for_each shp_files (λ file,
      Validators.write_geometry_to_data_source w Validators.ShapeValidator file types) s
    = (Ok tt, set_output o s)
    ∧ (length o ≤ 1)%nat
    ∧ all_features o
      = all_features (output s) ++ map (clone w types) (concat (concat sources)).
Proof.
  intros Hlen Hopen. revert shp_files s Hlen Hopen.
  induction sources as [|ds sources IH]; intros shp_files s Hlen Hopen Hr.
  - apply Forall2_nil_inv_r in Hopen as ->. exists (output s).
    rewrite set_output_id. cbn. by rewrite app_nil_r.
  - apply Forall2_cons_inv_r in Hopen as (file & rest & Hds & Hrest & ->).
    cbn [concat] in Hr. rewrite concat_app in Hr. apply Forall_app in Hr as [Hr1 Hr2].
    cbn [for_each].
    rewrite (bind_ok _ _ _ _ _ (write_geometry_appends w types _ file s ds Hds Hr1)).
    set (s1 := match ds with
               | [] => s
               | _ => set_output
                        (with_new_features (map (clone w types) (concat ds)) (output s)) s
               end).
    assert (∃ o1, s1 = set_output o1 s ∧ (length o1 ≤ 1)%nat
                  ∧ all_features o1
                    = all_features (output s) ++ map (clone w types) (concat ds))
      as (o1 & Hs1 & Hlen1 & Hall1).
    { subst s1. destruct ds as [|l ds'].
      - exists (output s). rewrite set_output_id. cbn. by rewrite app_nil_r.
      - eexists. split; [reflexivity |]. split.
        + destruct (output s) as [|? [|? ?]]; cbn in *; lia.
        + by apply all_features_with_new_features. }
    clearbody s1. subst s1.
    destruct (IH rest (set_output o1 s)) as (o & Hrun & Hlen' & Hall).
    + exact Hlen1.
    + eapply Forall2_impl; [exact Hrest |]. intros f d Hfd. cbn in Hfd.
      by rewrite set_data_source_output.
    + exact Hr2.
    + exists o. rewrite Hrun. split; [done |]. split; [exact Hlen' |].
      rewrite Hall. cbn [output set_output]. rewrite Hall1.
      cbn [concat]. by rewrite concat_app, map_app, app_assoc.
Qed.

(** C6, as the code has it.  The set-level match of the Shapefile validator
    holds exactly when each of [dbf], [shp], [shx] and [prj] is the extension
    of some name of the list, the extension being the text after the last
    dot, as written.  The Shapefile pass of the orchestrator does not ask for
    that match and looks at no companion: of the unmatched candidates it takes
    those whose name ends in [.shp], whatever else the list holds, and, when
    the Shapefile driver opens each of them and their features are readable,
    it writes every feature of every one of them to the output, and nothing
    else.  It returns no value and touches nothing but the output: no
    candidate is reported as unmatched. *)
Theorem shapefile_match_and_pass
    (w : World) (unmatched types : list string) (s : State)
    (sources : list DataSource) :
  (length (output s) ≤ 1)%nat →
  Forall2 (λ file ds,
             (Validators.set_data_source w Validators.ShapeValidator file s).1
             = Ok (Some ds))
    (List.filter (λ file, Str.endswith file ".shp") unmatched) sources →
  Forall (readable types) (concat (concat sources)) →
  (∀ files : list string,
     Validators.Shape_driver_validation files = true
     ↔ ∀ e, e ∈ ["dbf"; "shp"; "shx"; "prj"] → ∃ stem, stem +:+ "." +:+ e ∈ files)
  ∧ ∃ s',
      when (bool_decide (unmatched ≠ []))
        (Validators.get_geometry_from_shp_files w unmatched types) s
      = (Ok tt, s')
      ∧ all_features (output s')
        = all_features (output s) ++ map (clone w types) (concat (concat sources))
      ∧ files s' = files s ∧ dirs s' = dirs s ∧ cwd s' = cwd s
      ∧ TEMP_FOLDER s' = TEMP_FOLDER s.
Proof.
  intros Hlen Hopen Hr. split; [apply Shape_driver_validation_spec |].
  destruct (shp_loop_appends w types _ sources s Hlen Hopen Hr) as (o & Hrun & _ & Hall).
  destruct unmatched as [|f l].
  - apply Forall2_nil_inv_l in Hopen as ->. exists s. cbn. by rewrite app_nil_r.
  - rewrite bool_decide_eq_true_2 by done. cbn [when].
    rewrite shp_pass_spec, Hrun. by exists (set_output o s).
Qed.

Lemma shapefile_match_and_pass_witness :
  (∀ files : list string,
     Validators.Shape_driver_validation files = true
     ↔ ∀ e, e ∈ ["dbf"; "shp"; "shx"; "prj"] → ∃ stem, stem +:+ "." +:+ e ∈ files)
  ∧ ∃ s',
      when (bool_decide
              (["/tmp/aoi/ws/roads.shx"; "/tmp/aoi/ws/roads.shp"; "/tmp/aoi/ws/roads.dbf"]
               ≠ []))
        (Validators.get_geometry_from_shp_files (Scenarios.no_prj_world Scenarios.point)
           ["/tmp/aoi/ws/roads.shx"; "/tmp/aoi/ws/roads.shp"; "/tmp/aoi/ws/roads.dbf"]
           ["POINT"])
        (Scenarios.disk "/uploads/data.zip")
      = (Ok tt, s')
      ∧ all_features (output s')
        = [] ++ map (clone (Scenarios.no_prj_world Scenarios.point) ["POINT"])
                  (concat (concat [[[Scenarios.point]]]))
      ∧ files s' = {["/uploads/data.zip"]} ∧ dirs s' = ∅ ∧ cwd s' = "/srv/app"
      ∧ TEMP_FOLDER s' = None.
Proof.
  apply (shapefile_match_and_pass (Scenarios.no_prj_world Scenarios.point)
           ["/tmp/aoi/ws/roads.shx"; "/tmp/aoi/ws/roads.shp"; "/tmp/aoi/ws/roads.dbf"]
           ["POINT"] (Scenarios.disk "/uploads/data.zip") [[[Scenarios.point]]]).
  - cbn. lia.
  - repeat constructor.
  - cbn. constructor; [right; by eexists | constructor].
Defined.

(** C6 fails as stated: the zip holds [roads.shp] with [roads.shx] and
    [roads.dbf] but without [roads.prj].  None of the three candidates is
    matched by a validator, the companion set is not matched either, and yet
    the run writes the geometry of the Shapefile's feature to the output
    artifact, and returns as for any other upload. *)
Lemma shp_without_prj_is_processed :
  (∃ candidates reader s1,
     Uploader.materialize (Scenarios.no_prj_world Scenarios.point) Scenarios.zip_upload
       (Scenarios.disk "/uploads/data.zip")
     = (Ok (candidates, Some reader), s1)
     ∧ candidates
       ≡ₚ ["/tmp/aoi/ws/roads.dbf"; "/tmp/aoi/ws/roads.shp"; "/tmp/aoi/ws/roads.shx"]
     ∧ Validators.Shape_driver_validation candidates = false)
  ∧ ∃ s',
      Uploader.create_output_data_source (Scenarios.no_prj_world Scenarios.point)
        Scenarios.zip_upload [] (Scenarios.disk "/uploads/data.zip")
      = (Ok "/tmp/aoi/out.geojson", s')
      ∧ output s'
        = [{| layer_name := "layer_1"; layer_epsg := 4326;
              out_features :=
                [{| out_geometry := Some (Scenarios.geometry_of_wkt "POINT (1 2)") |}] |}].
Proof.
  split.
  - do 3 eexists. split; [vm_compute; reflexivity |].
    split; [| reflexivity]. apply (bool_decide_eq_true_1 _). vm_compute. reflexivity.
  - eexists. split; vm_compute; reflexivity.
Qed.

(** ** The constructor of the uploader *)

Lemma init_runs (w : World) (file : string) (s : State) :
  let k := PosixPath.abspath (cwd s) file in
  Uploader.init w file s
  = (match from_file w k with
     | Mime mime =>
         if bool_decide (getsize w k >= MAX_VECTOR_FILE_SIZE w)
         then Raise (Uploader.size_error w)
         else if negb (Str.isin mime Uploader.FILE_TYPES)
                 && negb (Str.isin mime Uploader.ARCHIVE_TYPES)
              then Raise (Uploader.type_error mime)
              else Ok {| Uploader.file := file; Uploader.mime_type := mime |}
     | CannotOpen => Raise (Exn OSError "FileNotFoundError")
     | MagicException => Raise (Exn LibraryError "MagicException")
     end, s).
Proof.
  intros k. unfold Uploader.init.
  pose proof (from_file_runs w file s) as Hsniff. fold k in Hsniff.
  destruct (from_file w k) as [mime | |];
    [| by rewrite (bind_raise _ _ _ _ _ Hsniff)..].
  rewrite (bind_ok _ _ _ _ _ Hsniff).
  unfold OS.getsize, OS.resolve, bind, gets, ret.
  cbv beta iota. fold k. case_bool_decide; [reflexivity |].
  destruct (_ && _); reflexivity.
Qed.

(** X22.  The constructor raises [ValidationError] exactly when libmagic
    answers for the file and the size is at or above the maximum, and it
    never changes the disk. *)
Lemma init_ValidationError_iff (w : World) (file : string) (s : State) :
  let k := PosixPath.abspath (cwd s) file in
  (Uploader.init w file s).2 = s
  ∧ ((∃ msg, (Uploader.init w file s).1 = Raise (Exn ValidationError msg))
     ↔ (∃ mime, from_file w k = Mime mime)
       ∧ getsize w k >= MAX_VECTOR_FILE_SIZE w).
Proof.
  intros k. rewrite init_runs. fold k. split; [done |]. cbn.
  destruct (from_file w k) as [mime | |].
  - case_bool_decide as Hsize.
    + split; [by eauto | intros _; by eexists].
    + split; [| tauto]. intros [msg Hmsg]. by destruct (_ && _).
  - split; [by intros [msg [=]] | by intros [[mime [=]] _]].
  - split; [by intros [msg [=]] | by intros [[mime [=]] _]].
Qed.

(** C8, at the failing input: an upload of exactly [MAX_VECTOR_FILE_SIZE]
    bytes, of a supported type, is refused with [ValidationError]. *)
Theorem upload_of_maximum_size_is_rejected :
  getsize Scenarios.full_size_world "/uploads/a.geojson"
  = MAX_VECTOR_FILE_SIZE Scenarios.full_size_world
  ∧ from_file Scenarios.full_size_world "/uploads/a.geojson" = Mime "text/plain"
  ∧ Str.isin "text/plain" Uploader.FILE_TYPES = true
  ∧ Uploader.init Scenarios.full_size_world "/uploads/a.geojson"
      (Scenarios.disk "/uploads/a.geojson")
    = (Raise (Exn ValidationError "File size more than 1000"),
       Scenarios.disk "/uploads/a.geojson").
Proof. repeat split; vm_compute; reflexivity. Qed.

(** C9, as the code has it.  An upload whose MIME type is in neither list is
    refused by the constructor: with [ValidationError] when its size is at or
    above the maximum, since the size is looked at first, and with [TypeError]
    otherwise. *)
Theorem unsupported_mime_is_rejected (w : World) (file : string) (s : State)
    (mime : string) :
  let k := PosixPath.abspath (cwd s) file in
  from_file w k = Mime mime →
  mime ∉ Uploader.FILE_TYPES →
  mime ∉ Uploader.ARCHIVE_TYPES →
  Uploader.init w file s
  = (Raise (if bool_decide (getsize w k >= MAX_VECTOR_FILE_SIZE w)
            then Exn ValidationError
                   ("File size more than " +:+ Uploader.str_of_Z (MAX_VECTOR_FILE_SIZE w))
            else Uploader.type_error mime),
     s)
  ∧ exn_class (Uploader.type_error mime) = TypeError.
Proof.
  intros k Hmime Hfile Harchive. split; [| done]. rewrite init_runs. fold k.
  rewrite Hmime. unfold Str.isin.
  rewrite (bool_decide_eq_false_2 _ Hfile), (bool_decide_eq_false_2 _ Harchive).
  by case_bool_decide.
Qed.

Lemma unsupported_mime_is_rejected_witness :
  Uploader.init Scenarios.png_world "/uploads/a.png" (Scenarios.disk "/uploads/a.png")
  = (Raise (Uploader.type_error "image/png"), Scenarios.disk "/uploads/a.png")
  ∧ exn_class (Uploader.type_error "image/png") = TypeError.
Proof.
  apply (unsupported_mime_is_rejected Scenarios.png_world "/uploads/a.png"
           (Scenarios.disk "/uploads/a.png") "image/png").
  - reflexivity.
  - apply (bool_decide_eq_false_1 _). vm_compute. reflexivity.
  - apply (bool_decide_eq_false_1 _). vm_compute. reflexivity.
Defined.

(** C9 fails as stated: a small PNG upload is refused with an exception that
    is not a [ValidationError]. *)
Lemma png_is_not_a_ValidationError :
  ∃ e, (Uploader.init Scenarios.png_world "/uploads/a.png"
          (Scenarios.disk "/uploads/a.png")).1 = Raise e
       ∧ exn_class e ≠ ValidationError.
Proof. eexists. split; [vm_compute; reflexivity | discriminate]. Qed.

(** ** Tar extraction *)

Lemma check_loop (members : list TarInfo) path s :
  for_each members (λ member,
    within ← Archive.is_within_directory path (PosixPath.join path (name member));
    when (negb within) (raise traversal)) s
  = (if forallb (λ member, passes_check (cwd s) path (name member)) members
     then Ok tt else Raise traversal, s).
Proof.
  induction members as [|member members IH]; [done |].
  cbn [for_each forallb]. unfold bind at 1.
  unfold Archive.is_within_directory, OS.resolve, bind, gets, ret. cbv beta iota.
  fold (passes_check (cwd s) path (name member)).
  destruct (passes_check (cwd s) path (name member)); cbn; [| done].
  apply IH.
Qed.

(** What the check does achieve: when a member fails it, [safe_extract]
    raises before anything is written. *)
Lemma safe_extract_rejects (members : list TarInfo) path s member :
  member ∈ members →
  passes_check (cwd s) path (name member) = false →
  Archive.safe_extract members path s = (Raise traversal, s).
Proof.
  intros Hin Hfail. unfold Archive.safe_extract.
  apply bind_raise. fold traversal. rewrite check_loop.
  destruct (forallb _ members) eqn:Hall; [| done].
  rewrite forallb_forall in Hall.
  rewrite (Hall member) in Hfail; [done | by apply list_elem_of_In].
Qed.

Example evil_entry_is_rejected :
  Archive.read_from_tar Scenarios.evil_tar_world Scenarios.tar_reader
    (Scenarios.disk "/uploads/data.tar")
  = (Raise traversal, Scenarios.disk "/uploads/data.tar").
Proof. vm_compute. reflexivity. Qed.

(** C1, at the failing input: the tar member [../ws_evil/x] resolves to
    [/tmp/aoi/ws_evil/x], which is not inside the workspace [/tmp/aoi/ws];
    the check passes it, since the two paths share the characters of
    [/tmp/aoi/ws]; extraction returns, and the file is on disk outside the
    workspace. *)
Theorem sibling_entry_escapes_workspace :
  PosixPath.abspath "/srv/app" (PosixPath.join "/tmp/aoi/ws" "../ws_evil/x")
  = "/tmp/aoi/ws_evil/x"
  ∧ PosixPath.inside_dir "/tmp/aoi/ws" "/tmp/aoi/ws_evil/x" = false
  ∧ passes_check "/srv/app" "/tmp/aoi/ws" "../ws_evil/x" = true
  ∧ ∃ reader s',
      Uploader.materialize Scenarios.sibling_tar_world Scenarios.tar_upload
        (Scenarios.disk "/uploads/data.tar")
      = (Ok ([], Some reader), s')
      ∧ Archive.tmp_folder reader = "/tmp/aoi/ws"
      ∧ "/tmp/aoi/ws_evil/x" ∈ files s'.
Proof.
  do 3 (split; [reflexivity |]).
  do 2 eexists. split; [vm_compute; reflexivity |]. split; [reflexivity |].
  apply (bool_decide_eq_true_1 _). vm_compute. reflexivity.
Qed.

(** ** Cleanup of the workspace *)

Section Cleanup.
Variables (w : World) (self : Uploader.VectorFileUploader).
Hypothesis fresh : fresh_names w self.

Let ws := workspace_name w.






Lemma run_outcome (body : M unit) (name : string) s :
  (try_except body (Uploader.rollback name);; ret name) s
  = match body s with
    | (Ok _, s') => (Ok name, s')
    | (Raise e, s') =>
        match Uploader.rollback name e s' with
        | (Ok _, s'') => (Ok name, s'')
        | (Raise e', s'') => (Raise e', s'')
        end
    end.
Proof. unfold bind, try_except. by destruct (body s) as [[[]|e] s']. Qed.


End Cleanup.

(** C2, at the failing input: the tar member [../../etc/evil] makes the
    extraction raise; [TEMP_FOLDER] has not been assigned yet, so the handler
    skips the workspace, and the directory [ArchiveReader.__init__] made is
    still there when the exception leaves [create_output_data_source]. *)
Theorem failed_extraction_leaves_workspace :
  ∃ s',
    Uploader.create_output_data_source Scenarios.evil_tar_world
      Scenarios.tar_upload [] (Scenarios.disk "/uploads/data.tar")
    = (Raise (Exn PlainException "Attempted Path Traversal in Tar File"), s')
    ∧ TEMP_FOLDER s' = None
    ∧ "/tmp/aoi/ws" ∈ dirs s'.
Proof.
  eexists. split; [vm_compute; reflexivity |]. split; [reflexivity |].
  apply (bool_decide_eq_true_1 _). vm_compute. reflexivity.
Qed.

(** ** The end-to-end example *)

(** The output never gets a second layer from an append: a layer is made
    only when [GetLayer()] finds none. *)
Lemma CreateFeature_keeps_one_layer f :
  hoare (λ s, (length (output s) ≤ 1)%nat) (Validators.CreateFeature f) (λ _, True).
Proof.
  intros s Hs. unfold Validators.CreateFeature, bind, gets. cbn.
  destruct (output s) as [|o others] eqn:E; cbn; [by rewrite E |].
  cbn in Hs. split; [lia | done].
Qed.

Lemma write_geometry_keeps_one_layer w v file types :
  hoare (λ s, (length (output s) ≤ 1)%nat)
    (Validators.write_geometry_to_data_source w v file types) (λ _, True).
Proof.
  intros s Hs. unfold Validators.write_geometry_to_data_source, bind.
  pose proof (set_data_source_reads w v file s) as Hread.
  destruct (Validators.set_data_source w v file s) as [[[ds|]|e] s0];
    cbn in Hread; subst s0; [| done | done].
  assert (hoare (λ s, (length (output s) ≤ 1)%nat)
            (for_each (seq 0 (length ds)) (Validators.layer_body w types ds))
            (λ _, True)) as H; [| apply (H s Hs)].
  apply hoare_for_each. intros i.
  assert (hoare (λ s, (length (output s) ≤ 1)%nat)
            (match ds !! i with
             | Some ds_layer =>
                 for_each ds_layer (λ feature,
                   out_feature ← Validators.copy_feature w types feature;
                   Validators.CreateFeature out_feature)
             | None => raise (Validators.no_attribute "GetNextFeature")
             end) (λ _, True)) as Hrest.
  { destruct (ds !! i); [| apply hoare_raise].
    apply hoare_for_each. intros feature.
    eapply hoare_bind with (Q := λ _, True);
      [| intros out_feature _; apply CreateFeature_keeps_one_layer].
    intros s1 Hs1. destruct (only_output_copy_feature w types feature s1) as [o Ho].
    pose proof (copy_feature_readable w types feature s1) as Hok.
    pose proof (copy_feature_unreadable w types feature s1) as Hno.
    destruct (Validators.copy_feature w types feature s1) as [[f|e] s2].
    - destruct (decide (readable types feature)) as [Hr | Hr];
        [injection (Hok Hr) as _ -> | discriminate (Hno Hr)]. done.
    - destruct (decide (readable types feature)) as [Hr | Hr];
        [discriminate (Hok Hr) | injection (Hno Hr) as _ ->]. done. }
  intros s1 Hs1. unfold Validators.layer_body.
  match type of Hrest with hoare _ ?m _ => set (rest := m) in * end.
  clearbody rest. unfold bind, gets. cbv beta iota.
  destruct (output s1) as [|o others] eqn:E; cbn.
  all: apply Hrest; cbn; rewrite ?E; cbn in *; lia.
Qed.

(** C4, as the code has it.  The zip holds [a.geojson] with three features
    and [b.kml] with two, and the filter is empty: the run returns the
    artifact's path; the artifact has one layer, [layer_1], with the five
    features, each with [CreateGeometryFromWkt(str(geom))] for geometry; the
    zip file and the workspace are gone, and the artifact is the only file
    left. *)
Theorem zip_run_merges_into_one_layer (p1 p2 p3 q1 q2 : Feature) :
  ∃ s',
    Uploader.create_output_data_source (Scenarios.zip_world p1 p2 p3 q1 q2)
      Scenarios.zip_upload [] (Scenarios.disk "/uploads/data.zip")
    = (Ok "/tmp/aoi/out.geojson", s')
    ∧ length (output s') = 1%nat
    ∧ map layer_name (output s') = ["layer_1"]
    ∧ feature_count (output s') = 5%nat
    ∧ concat (map out_features (output s'))
      ≡ₚ map (λ f, {| out_geometry :=
                        CreateGeometryFromWkt (Scenarios.zip_world p1 p2 p3 q1 q2)
                          (str_geom (geometry f)) |})
           [p1; p2; p3; q1; q2]
    ∧ ("/uploads/data.zip" ∉ files s')
    ∧ ("/tmp/aoi/ws" ∉ dirs s')
    ∧ elements (files s') = ["/tmp/aoi/out.geojson"].
Proof.
  eexists. split; [vm_compute; reflexivity |].
  do 3 (split; [reflexivity |]).
  split; [apply (Permutation_app_comm [_; _] [_; _; _]) |].
  split; [apply (bool_decide_eq_false_1 _); vm_compute; reflexivity |].
  split; [apply (bool_decide_eq_false_1 _); vm_compute; reflexivity |].
  vm_compute. reflexivity.
Qed.

(** The run of the example itself, on three points and two polygons: the one
    layer holds the three points and the two polygons. *)
Example zip_run_on_points_and_polygons :
  ∃ s',
    Uploader.create_output_data_source
      (Scenarios.zip_world Scenarios.point Scenarios.point Scenarios.point
         Scenarios.polygon Scenarios.polygon)
      Scenarios.zip_upload [] (Scenarios.disk "/uploads/data.zip")
    = (Ok "/tmp/aoi/out.geojson", s')
    ∧ map layer_name (output s') = ["layer_1"]
    ∧ all_features (output s')
      ≡ₚ [{| out_geometry := Some (Scenarios.geometry_of_wkt "POINT (1 2)") |};
          {| out_geometry := Some (Scenarios.geometry_of_wkt "POINT (1 2)") |};
          {| out_geometry := Some (Scenarios.geometry_of_wkt "POINT (1 2)") |};
          {| out_geometry :=
               Some (Scenarios.geometry_of_wkt "POLYGON ((0 0,1 0,1 1,0 0))") |};
          {| out_geometry :=
               Some (Scenarios.geometry_of_wkt "POLYGON ((0 0,1 0,1 1,0 0))") |}].
Proof.
  eexists. split; [vm_compute; reflexivity |]. split; [reflexivity |].
  apply (Permutation_app_comm [_; _] [_; _; _]).
Qed.

(** C4 fails as stated: the artifact of that run does not have two layers. *)
Lemma zip_run_has_not_two_layers :
  ∃ s',
    Uploader.create_output_data_source
      (Scenarios.zip_world Scenarios.point Scenarios.point Scenarios.point
         Scenarios.polygon Scenarios.polygon)
      Scenarios.zip_upload [] (Scenarios.disk "/uploads/data.zip")
    = (Ok "/tmp/aoi/out.geojson", s')
    ∧ length (output s') ≠ 2%nat.
Proof. eexists. split; [vm_compute; reflexivity | cbn; lia]. Qed.

(** * Further properties of the code *)

(** ** Names: prefixes, suffixes and case *)

Section Names.

Lemma append_nil_r s : s +:+ "" = s.
Proof.
  induction s as [|c s IH]; [done |].
  change (String c (s +:+ "") = String c s). by rewrite IH.
Qed.

Lemma append_assoc a b c : (a +:+ b) +:+ c = a +:+ (b +:+ c).
Proof.
  induction a as [|x a IH]; [done |].
  change (String x ((a +:+ b) +:+ c) = String x (a +:+ (b +:+ c))). by rewrite IH.
Qed.

Lemma startswith_spec s p :
  Str.startswith s p = true ↔ ∃ t, s = p +:+ t.
Proof.
  revert s. induction p as [|c p IH]; intros s.
  - split; [intros _; by exists s | done].
  - destruct s as [|d s]; cbn [Str.startswith].
    + split; [done | by intros [t [=]]].
    + rewrite andb_true_iff, IH. split.
      * intros [Hc [t ->]]. apply Ascii.eqb_eq in Hc as ->. by exists t.
      * intros [t [= -> ->]]. split; [apply Ascii.eqb_refl | by exists t].
Qed.

Lemma rev_app_spec s a : String.rev_app s a = String.rev s +:+ a.
Proof.
  unfold String.rev. revert a. induction s as [|c s IH]; intros a; [done |].
  cbn [String.rev_app]. rewrite (IH (String c a)), (IH (String c "")).
  by rewrite append_assoc.
Qed.

Lemma rev_append a b : String.rev (a +:+ b) = String.rev b +:+ String.rev a.
Proof.
  induction a as [|c a IH].
  - change (String.rev b = String.rev b +:+ ""). by rewrite append_nil_r.
  - change (String.rev_app (a +:+ b) (String c "")
            = String.rev b +:+ String.rev_app a (String c "")).
    rewrite !rev_app_spec, IH. by rewrite append_assoc.
Qed.

Lemma rev_involutive s : String.rev (String.rev s) = s.
Proof.
  induction s as [|c s IH]; [done |].
  change (String.rev (String.rev_app s (String c "")) = String c s).
  by rewrite rev_app_spec, rev_append, IH.
Qed.

(** [s.endswith(p)] holds exactly when [s] is some text followed by [p]. *)
Lemma endswith_spec s p :
  Str.endswith s p = true ↔ ∃ t, s = t +:+ p.
Proof.
  unfold Str.endswith. rewrite startswith_spec. split.
  - intros [u Hu]. exists (String.rev u).
    rewrite <- (rev_involutive s), Hu, rev_append. by rewrite rev_involutive.
  - intros [t ->]. exists (String.rev t). apply rev_append.
Qed.

Lemma is_byte_not_ascii n c :
  (128 <= n)%N → Str.is_byte n c = true → Str.isascii c = false.
Proof.
  unfold Str.is_byte, Str.isascii. intros Hn ->%N.eqb_eq. by apply N.ltb_ge.
Qed.

(** Lowering goes through a cut that is followed by an ASCII character: no
    character of several bytes is cut in two there. *)
Lemma lower_append t p :
  Str.starts_ascii p = true → Str.lower (t +:+ p) = Str.lower t +:+ Str.lower p.
Proof.
  intros Hp. induction t as [t IH] using string_length_ind.
  destruct t as [|c t1]; [done |].
  change (Str.lower (String c (t1 +:+ p)) = Str.lower (String c t1) +:+ Str.lower p).
  rewrite !lower_String.
  assert (String (Str.lower_ascii c) (Str.lower (t1 +:+ p))
          = String (Str.lower_ascii c) (Str.lower t1) +:+ Str.lower p) as Hstep.
  { change (String (Str.lower_ascii c) (Str.lower (t1 +:+ p))
            = String (Str.lower_ascii c) (Str.lower t1 +:+ Str.lower p)).
    by rewrite (IH t1) by (cbn; lia). }
  destruct t1 as [|c1 t2].
  - (* the cut comes after [c] *)
    change ("" +:+ p) with p in *.
    destruct p as [|d p1]; [done |]. cbn [Str.starts_ascii] in Hp. cbv beta iota.
    destruct (Str.is_byte 196 c && Str.is_byte 176 d) eqn:HI.
    { apply andb_true_iff in HI as [_ H2].
      by rewrite (is_byte_not_ascii 176 d) in Hp. }
    destruct p1 as [|d1 p2]; [exact Hstep |].
    destruct (Str.is_byte 226 c && Str.is_byte 132 d && Str.is_byte 170 d1) eqn:HK;
      [| exact Hstep].
    apply andb_true_iff in HK as [[_ H2]%andb_true_iff _].
    by rewrite (is_byte_not_ascii 132 d) in Hp.
  - change (String c1 t2 +:+ p) with (String c1 (t2 +:+ p)) in *. cbv beta iota.
    destruct (Str.is_byte 196 c && Str.is_byte 176 c1).
    { change (String "i" (String (Ascii.ascii_of_N 204)
                (String (Ascii.ascii_of_N 135) (Str.lower (t2 +:+ p))))
              = String "i" (String (Ascii.ascii_of_N 204)
                  (String (Ascii.ascii_of_N 135) (Str.lower t2 +:+ Str.lower p)))).
      by rewrite (IH t2) by (cbn; lia). }
    destruct t2 as [|c2 t3].
    + (* the cut comes after [c1] *)
      change ("" +:+ p) with p in *.
      destruct p as [|d p1]; [exact Hstep |]. cbn [Str.starts_ascii] in Hp.
      cbv beta iota.
      destruct (Str.is_byte 226 c && Str.is_byte 132 c1 && Str.is_byte 170 d) eqn:HK;
        [| exact Hstep].
      apply andb_true_iff in HK as [_ H3].
      by rewrite (is_byte_not_ascii 170 d) in Hp.
    + change (String c2 t3 +:+ p) with (String c2 (t3 +:+ p)) in *. cbv beta iota.
      destruct (Str.is_byte 226 c && Str.is_byte 132 c1 && Str.is_byte 170 c2);
        [| exact Hstep].
      change (String "k" (Str.lower (t3 +:+ p))
              = String "k" (Str.lower t3 +:+ Str.lower p)).
      by rewrite (IH t3) by (cbn; lia).
Qed.

(** An ASCII suffix written in lower case survives [lower()]. *)
Lemma endswith_lower s p :
  Str.lower p = p → Str.starts_ascii p = true →
  Str.endswith s p = true → Str.endswith (Str.lower s) p = true.
Proof.
  intros Hp Ha [t ->]%endswith_spec. apply endswith_spec. exists (Str.lower t).
  by rewrite lower_append, Hp.
Qed.

(** A longer suffix gives the shorter one. *)
Lemma endswith_shorter s a b :
  Str.endswith s (a +:+ b) = true → Str.endswith s b = true.
Proof.
  intros [t ->]%endswith_spec. apply endswith_spec. exists (t +:+ a).
  by rewrite append_assoc.
Qed.

End Names.

(** ** Selecting files by name *)

Lemma check_count_loop_spec files count :
  (count ≤ 1)%nat →
  Validators.check_count_loop files count = true
  ↔ (2 ≤ count
         + length (List.filter (λ file, Str.endswith (Str.lower file) ".shp") files))%nat.
Proof.
  revert count. induction files as [|file rest IH]; intros count Hc;
    cbn [Validators.check_count_loop List.filter].
  - split; [done | cbn [length]; intros H; exfalso; lia].
  - destruct (Str.endswith (Str.lower file) ".shp"); cbn [length].
    + case_bool_decide.
      * split; [intros _; lia | done].
      * rewrite IH by lia. lia.
    + by apply IH.
Qed.

(** X1.  [check_count_of_shp] answers [True] exactly when at least two of
    the names end in [.shp], whatever the case of their letters; with no
    name, or one such name, it answers [False]. *)
Theorem check_count_of_shp_iff_two (extracted_files : list string) :
  Validators.check_count_of_shp extracted_files = true
  ↔ (2 ≤ length (List.filter (λ file, Str.endswith (Str.lower file) ".shp")
                   extracted_files))%nat.
Proof.
  unfold Validators.check_count_of_shp. by rewrite check_count_loop_spec by lia.
Qed.

Lemma get_vector_files_loop_spec files acc :
  Uploader.get_vector_files_loop files acc
  = acc ++ List.filter Uploader.vector_name files.
Proof.
  revert acc. induction files as [|file rest IH]; intros acc; cbn.
  - by rewrite app_nil_r.
  - destruct (Uploader.vector_name file); [| apply IH].
    by rewrite IH, <- app_assoc.
Qed.

(** A name that ends in [.Kml] written with U+212A KELVIN SIGN ends in [.kml]
    once lowered, as for Python. *)
Example kelvin_name_is_a_kml_name :
  Str.endswith (Str.lower Scenarios.kelvin_name) ".kml" = true
  ∧ Uploader.vector_name Scenarios.kelvin_name = true.
Proof. split; reflexivity. Qed.

(** X2.  [__get_vector_files_from_archive] keeps, in their order and with
    their repetitions, the names that end in [kml], [geojson] or [shp] once
    lowered, and nothing else; applying it twice changes nothing more. *)
Theorem get_vector_files_keeps_vector_names (files_from_archive : list string) :
  Uploader.get_vector_files_from_archive files_from_archive
  = List.filter (λ file,
      Str.endswith (Str.lower file) "kml"
      || Str.endswith (Str.lower file) "geojson"
      || Str.endswith (Str.lower file) "shp") files_from_archive
  ∧ Uploader.get_vector_files_from_archive
      (Uploader.get_vector_files_from_archive files_from_archive)
    = Uploader.get_vector_files_from_archive files_from_archive.
Proof.
  unfold Uploader.get_vector_files_from_archive.
  rewrite !get_vector_files_loop_spec. cbn [app]. split; [done |].
  induction files_from_archive as [|file rest IH]; [done |].
  cbn [List.filter]. destruct (Uploader.vector_name file) eqn:E; [| exact IH].
  cbn [List.filter]. by rewrite E, IH.
Qed.

Lemma shp_is_vector_name file :
  Str.endswith file ".shp" = true → Uploader.vector_name file = true.
Proof.
  intros H. unfold Uploader.vector_name.
  rewrite (endswith_shorter _ "." "shp" (endswith_lower _ ".shp" eq_refl eq_refl H)).
  by rewrite orb_true_r.
Qed.

(** X3.  Selecting the vector files of an archive first loses no Shapefile:
    [get_shp_files] finds the same [.shp] files in the selection as in the
    whole list.  With two or more of them, [check_count_of_shp] answers
    [True]. *)
Theorem vector_selection_keeps_shp_files (files : list string) :
  Validators.get_shp_files (Uploader.get_vector_files_from_archive files)
  = Validators.get_shp_files files
  ∧ ((2 ≤ length (Validators.get_shp_files files))%nat →
     Validators.check_count_of_shp files = true).
Proof.
  unfold Uploader.get_vector_files_from_archive, Validators.get_shp_files.
  rewrite get_vector_files_loop_spec. cbn [app]. split.
  - induction files as [|file rest IH]; [done |]. cbn [List.filter].
    destruct (Str.endswith file ".shp") eqn:E.
    + rewrite (shp_is_vector_name file E). cbn [List.filter]. by rewrite E, IH.
    + destruct (Uploader.vector_name file); [| exact IH].
      cbn [List.filter]. by rewrite E.
  - intros H. unfold Validators.check_count_of_shp.
    apply check_count_loop_spec; [lia |]. cbn [Nat.add].
    etrans; [exact H |]. clear H.
    induction files as [|file rest IH]; [done |]. cbn [List.filter].
    destruct (Str.endswith file ".shp") eqn:E.
    + rewrite (endswith_lower _ ".shp" eq_refl eq_refl E). cbn [length]. lia.
    + destruct (Str.endswith (Str.lower file) ".shp"); cbn [length]; lia.
Qed.

(** ** Choosing a validator *)

Lemma isin_nil x : Str.isin x [] = false.
Proof. unfold Str.isin. apply bool_decide_eq_false_2, not_elem_of_nil. Qed.

Lemma isin_cons x y l : Str.isin x (y :: l) = String.eqb x y || Str.isin x l.
Proof.
  unfold Str.isin. destruct (String.eqb_spec x y) as [-> | Hne]; cbn.
  - apply bool_decide_eq_true_2. by left.
  - apply bool_decide_ext. rewrite elem_of_cons. split; [by intros [|] | by right].
Qed.

Lemma KMZ_driver_validation_runs w file s mime :
  from_file w (PosixPath.abspath (cwd s) file) = Mime mime →
  Validators.KMZ_driver_validation w file s
  = (Ok (Str.isin mime ["application/xml"; "text/plain"]
         && Str.endswith (Str.lower file) ".kml"), s).
Proof.
  intros H. unfold Validators.KMZ_driver_validation.
  pose proof (from_file_runs w file s) as Hsniff. rewrite H in Hsniff.
  by rewrite (bind_ok _ _ _ _ _ Hsniff).
Qed.

Lemma KML_driver_validation_runs w file s mime :
  from_file w (PosixPath.abspath (cwd s) file) = Mime mime →
  Validators.KML_driver_validation w file s
  = (Ok (Str.isin mime ["application/xml"; "text/plain"; "text/html"]
         && Str.endswith (Str.lower file) ".kml"), s).
Proof.
  intros H. unfold Validators.KML_driver_validation.
  pose proof (from_file_runs w file s) as Hsniff. rewrite H in Hsniff.
  by rewrite (bind_ok _ _ _ _ _ Hsniff).
Qed.

(** When libmagic answers, the GeoJSON test answers too, reads only, and
    needs [text/plain]. *)
Lemma GeoJSON_driver_validation_reads w file s mime :
  from_file w (PosixPath.abspath (cwd s) file) = Mime mime →
  ∃ b : bool,
    Validators.GeoJSON_driver_validation w file s = (Ok b, s)
    ∧ (b = true → mime = "text/plain").
Proof.
  intros H. unfold Validators.GeoJSON_driver_validation.
  pose proof (from_file_runs w file s) as Hsniff. rewrite H in Hsniff.
  rewrite (bind_ok _ _ _ _ _ Hsniff).
  destruct (String.eqb_spec mime "text/plain") as [-> | Hmime]; [| by exists false].
  destruct (GeoJSON_try_block w file s) as (b & Hb & _). by exists b.
Qed.

(** The first test of [__get_driver_for_file] asks libmagic, and what
    libmagic raises leaves the method. *)
Lemma get_driver_for_file_sniff_error w file s e :
  OS.from_file w file s = (Raise e, s) →
  Uploader.get_driver_for_file w file s = (Raise e, s).
Proof.
  intros H. unfold Uploader.get_driver_for_file, Validators.KMZ_driver_validation.
  by rewrite (bind_raise _ _ _ _ _ (bind_raise _ _ _ _ _ H)).
Qed.

(** X4.  [__get_driver_for_file] changes nothing, and when libmagic answers
    for the file it answers too.  It never picks the Shapefile validator.  For
    a name ending in [.kml] (in any case) it picks [KMZValidator] when the MIME
    type is [application/xml] or [text/plain], and [KMLValidator] only when it
    is [text/html]: the KMZ test comes first and accepts all that the KML test
    accepts but [text/html].  [GeoJSONValidator] is picked only for
    [text/plain] files whose name does not end in [.kml].  When libmagic
    raises, its exception leaves the method. *)
Theorem get_driver_for_file_priority (w : World) (file : string) (s : State) :
  let kml_name := Str.endswith (Str.lower file) ".kml" in
  match from_file w (PosixPath.abspath (cwd s) file) with
  | Mime mime =>
      ∃ driver : option Validators.Validator,
        Uploader.get_driver_for_file w file s = (Ok driver, s)
        ∧ driver ≠ Some Validators.ShapeValidator
        ∧ (driver = Some Validators.KMZValidator
           ↔ (mime = "application/xml" ∨ mime = "text/plain") ∧ kml_name = true)
        ∧ (driver = Some Validators.KMLValidator
           ↔ mime = "text/html" ∧ kml_name = true)
        ∧ (driver = Some Validators.GeoJSONValidator
           → mime = "text/plain" ∧ kml_name = false)
  | CannotOpen =>
      Uploader.get_driver_for_file w file s
      = (Raise (Exn OSError "FileNotFoundError"), s)
  | MagicException =>
      Uploader.get_driver_for_file w file s
      = (Raise (Exn LibraryError "MagicException"), s)
  end.
Proof.
  intros kml_name.
  pose proof (from_file_runs w file s) as Hsniff.
  destruct (from_file w (PosixPath.abspath (cwd s) file)) as [mime | |] eqn:Hmime;
    [| by apply get_driver_for_file_sniff_error..].
  clear Hsniff. unfold Uploader.get_driver_for_file.
  pose proof (KMZ_driver_validation_runs w file s mime Hmime) as HZ.
  pose proof (KML_driver_validation_runs w file s mime Hmime) as HL.
  destruct (GeoJSON_driver_validation_reads w file s mime Hmime) as (b & HG & Hb).
  fold kml_name in HZ, HL.
  rewrite !isin_cons, isin_nil in HZ. rewrite !isin_cons, isin_nil in HL.
  clearbody kml_name. clear Hmime.
  rewrite (bind_ok _ _ _ _ _ HZ). clear HZ. revert HL Hb.
  destruct (String.eqb_spec mime "application/xml") as [-> | Hxml];
    [| destruct (String.eqb_spec mime "text/plain") as [-> | Hplain];
       [| destruct (String.eqb_spec mime "text/html") as [-> | Hhtml]]];
    destruct kml_name; cbn [orb andb String.eqb Ascii.eqb Bool.eqb]; intros HL Hb;
    try (rewrite (bind_ok _ _ _ _ _ HL); clear HL);
    try (rewrite (bind_ok _ _ _ _ _ HG); clear HG);
    try (destruct b; [first [discriminate (Hb eq_refl) | by elim (Hb eq_refl) | idtac] |]);
    (eexists; split; [reflexivity |]);
    (split; [discriminate |]);
    repeat split; try discriminate; try congruence; try (intros [[|] ?]; congruence);
    try (intros [? ?]; congruence); try (intros _; auto);
    try (by left); try (by right); try (intros; by apply Hb);
    try (exfalso; by apply Hplain, Hb).
Qed.

(** A name that ends in [.Kml] written with U+212A KELVIN SIGN, sniffed as
    HTML, goes to the KML validator. *)
Example kelvin_name_goes_to_KML :
  Uploader.get_driver_for_file
    (Scenarios.with_mime [(Scenarios.kelvin_name, "text/html")] Scenarios.blank)
    Scenarios.kelvin_name (Scenarios.disk Scenarios.kelvin_name)
  = (Ok (Some Validators.KMLValidator), Scenarios.disk Scenarios.kelvin_name).
Proof. vm_compute. reflexivity. Qed.

(** ** Reading an archive *)

Section RaisesOnly.
Context {A B : Type} (P : exn → Prop).

Lemma raises_only_ret (a : A) : raises_only P (ret a).
Proof. intros s. done. Qed.

Lemma raises_only_gets (f : State → A) : raises_only P (gets f).
Proof. intros s. done. Qed.

Lemma raises_only_modify f : raises_only P (modify f).
Proof. intros s. done. Qed.

Lemma raises_only_raise e : P e → raises_only P (@raise A e).
Proof. intros H s. done. Qed.

Lemma raises_only_bind (m : M A) (f : A → M B) :
  raises_only P m → (∀ a, raises_only P (f a)) → raises_only P (bind m f).
Proof.
  intros Hm Hf s. unfold bind. specialize (Hm s).
  destruct (m s) as [[a|e] s']; [apply Hf | done].
Qed.

Lemma raises_only_answer (o : option A) e : P e → raises_only P (answer o e).
Proof. intros H. destruct o; [apply raises_only_ret | by apply raises_only_raise]. Qed.

End RaisesOnly.

Lemma raises_only_for_each {A} P (l : list A) (body : A → M unit) :
  (∀ x, raises_only P (body x)) → raises_only P (for_each l body).
Proof.
  intros H. induction l as [|x l IH]; cbn; [apply raises_only_ret |].
  apply raises_only_bind; auto.
Qed.

Lemma raises_only_when P c (m : M unit) : raises_only P m → raises_only P (when c m).
Proof. intros H. destruct c; [exact H | apply raises_only_ret]. Qed.

Ltac raises_only_auto :=
  repeat first
    [ apply raises_only_ret
    | apply raises_only_gets
    | apply raises_only_modify
    | apply raises_only_raise; unfold extraction_error; cbn; tauto
    | apply raises_only_answer; unfold extraction_error; cbn; tauto
    | apply raises_only_bind; [| intros ?]
    | apply raises_only_for_each; intros ?
    | apply raises_only_when
    | match goal with
      | |- raises_only _ (if ?c then _ else _) => destruct c
      end ].

Lemma raises_only_read_from_zip w r :
  raises_only extraction_error (Archive.read_from_zip w r).
Proof.
  unfold Archive.read_from_zip, Archive.zip_extractall, Archive.absolute_file_paths,
    OS.walk_files, OS.remove, OS.extract_member, OS.mkdir, OS.write_file, OS.resolve.
  raises_only_auto.
Qed.

Lemma raises_only_read_from_tar w r :
  raises_only extraction_error (Archive.read_from_tar w r).
Proof.
  unfold Archive.read_from_tar, Archive.safe_extract, Archive.tar_extractall,
    Archive.is_within_directory, Archive.absolute_file_paths, OS.walk_files,
    OS.remove, OS.extract_member, OS.mkdir, OS.write_file, OS.resolve.
  raises_only_auto.
Qed.

Lemma raises_only_read_from_7z w r :
  raises_only extraction_error (Archive.read_from_7z w r).
Proof.
  unfold Archive.read_from_7z, Archive.absolute_file_paths, OS.walk_files,
    OS.remove, OS.write_file, OS.chdir, OS.resolve.
  raises_only_auto.
Qed.

Lemma init_runs_archive w file_path s :
  let k := PosixPath.abspath (cwd s) (workspace_name w) in
  Archive.init w file_path s
  = match from_file w (PosixPath.abspath (cwd s) file_path) with
    | Mime mime =>
        if Str.isin mime Archive.TAR_ARCHIVES_MIME_TYPES
           || Str.isin mime Archive.ZIP_FILE_MIME_TYPES
           || Str.isin mime Archive.SEVEN_ZIP_MIME_TYPES
        then
          if bool_decide (k ∈ dirs s) || bool_decide (k ∈ files s)
          then (Raise (Exn OSError "FileExistsError"), s)
          else (Ok {| Archive.mime_type := mime; Archive.file := file_path;
                      Archive.tmp_folder := workspace_name w |},
                set_dirs ({[k]} ∪ dirs s) s)
        else (Raise (Exn ValidationError
                       ("Incorrect MIME_TYPE. " +:+ mime +:+ " does not support")), s)
    | CannotOpen => (Raise (Exn OSError "FileNotFoundError"), s)
    | MagicException => (Raise (Exn LibraryError "MagicException"), s)
    end.
Proof.
  intros k. unfold Archive.init.
  pose proof (from_file_runs w file_path s) as Hsniff.
  destruct (from_file w _) as [mime | |];
    [| by rewrite (bind_raise _ _ _ _ _ Hsniff)..].
  rewrite (bind_ok _ _ _ _ _ Hsniff).
  unfold OS.mkdir, OS.resolve, bind, gets, ret, raise, modify.
  cbv beta iota. fold (workspace_name w). fold k.
  destruct (_ || _ || _); [| done]. by destruct (_ || _).
Qed.

(** X5.  [ArchiveReader.__init__] raises [ValidationError] exactly when
    libmagic answers with a MIME type that is in none of its three lists, and
    a constructor that raises, for this, for libmagic or for an existing
    directory, leaves the disk as it was; one that returns has made the
    workspace directory, and nothing else. *)
Theorem archive_init_outcomes (w : World) (file_path : string) (s : State) :
  let k := PosixPath.abspath (cwd s) (workspace_name w) in
  ((∃ msg, (Archive.init w file_path s).1 = Raise (Exn ValidationError msg))
   ↔ ∃ mime,
       from_file w (PosixPath.abspath (cwd s) file_path) = Mime mime
       ∧ (mime ∉ Archive.TAR_ARCHIVES_MIME_TYPES)
       ∧ (mime ∉ Archive.ZIP_FILE_MIME_TYPES)
       ∧ (mime ∉ Archive.SEVEN_ZIP_MIME_TYPES))
  ∧ match Archive.init w file_path s with
    | (Raise _, s') => s' = s
    | (Ok reader, s') =>
        Archive.tmp_folder reader = workspace_name w
        ∧ Archive.file reader = file_path
        ∧ (k ∉ dirs s) ∧ dirs s' = {[k]} ∪ dirs s
        ∧ files s' = files s ∧ cwd s' = cwd s
    end.
Proof.
  intros k. rewrite init_runs_archive. fold k.
  destruct (from_file w _) as [mime | |].
  2,3: split; [split; [by intros [msg [=]] | by intros (? & [=] & _)] | done].
  unfold Str.isin.
  destruct (decide (mime ∈ Archive.TAR_ARCHIVES_MIME_TYPES)) as [Ht | Ht];
    [rewrite (bool_decide_eq_true_2 _ Ht) | rewrite (bool_decide_eq_false_2 _ Ht)];
    (destruct (decide (mime ∈ Archive.ZIP_FILE_MIME_TYPES)) as [Hz | Hz];
       [rewrite (bool_decide_eq_true_2 _ Hz) | rewrite (bool_decide_eq_false_2 _ Hz)]);
    (destruct (decide (mime ∈ Archive.SEVEN_ZIP_MIME_TYPES)) as [H7 | H7];
       [rewrite (bool_decide_eq_true_2 _ H7) | rewrite (bool_decide_eq_false_2 _ H7)]);
    cbn [orb].
  8:{ split; [| done]. split; [by eauto | intros _; by eexists]. }
  all: destruct (decide (k ∈ dirs s)) as [Hd | Hd];
    [rewrite (bool_decide_eq_true_2 _ Hd) | rewrite (bool_decide_eq_false_2 _ Hd)];
    cbn [orb]; try case_bool_decide.
  all: split; [split; [by intros [msg [=]] | intros (? & [= <-] & ? & ? & ?); tauto] | done].
Qed.

Lemma get_files_of_supported w r s :
  Str.isin (Archive.mime_type r) Archive.TAR_ARCHIVES_MIME_TYPES
  || Str.isin (Archive.mime_type r) Archive.ZIP_FILE_MIME_TYPES
  || Str.isin (Archive.mime_type r) Archive.SEVEN_ZIP_MIME_TYPES = true →
  match Archive.get_files w r s with
  | (Ok got, _) => ∃ l, got = Some (l, Archive.tmp_folder r)
  | (Raise e, _) => extraction_error e
  end.
Proof.
  intros Hmime. unfold Archive.get_files.
  destruct (Str.isin _ Archive.ZIP_FILE_MIME_TYPES).
  { pose proof (raises_only_read_from_zip w r s) as H. unfold bind.
    destruct (Archive.read_from_zip w r s) as [[l|e] s']; [by exists l | done]. }
  destruct (Str.isin _ Archive.TAR_ARCHIVES_MIME_TYPES).
  { pose proof (raises_only_read_from_tar w r s) as H. unfold bind.
    destruct (Archive.read_from_tar w r s) as [[l|e] s']; [by exists l | done]. }
  destruct (Str.isin _ Archive.SEVEN_ZIP_MIME_TYPES); [| done].
  pose proof (raises_only_read_from_7z w r s) as H. unfold bind.
  destruct (Archive.read_from_7z w r s) as [[l|e] s']; [by exists l | done].
Qed.

(** X6.  Materialising the candidates never meets the [None] that
    [get_files] returns for an unknown MIME type, so it never raises the
    [TypeError] of a failed unpacking: the reader's constructor has refused
    such a file before.  It returns the upload itself and no reader for a plain
    file; for an archive it returns a reader and has set [TEMP_FOLDER] to the
    reader's workspace; the exceptions it raises are [ValidationError], from the
    reader's constructor, and the [OSError], library errors and plain
    [Exception] of [mkdir] and of the extraction. *)
Theorem materialize_outcomes (w : World) (self : Uploader.VectorFileUploader)
    (s : State) :
  match Uploader.materialize w self s with
  | (Ok (candidates, reader), s') =>
      if Str.isin (Uploader.mime_type self) Uploader.FILE_TYPES
      then candidates = [Uploader.file self] ∧ reader = None ∧ s' = s
      else ∃ r, reader = Some r
                ∧ Archive.tmp_folder r = workspace_name w
                ∧ TEMP_FOLDER s' = Some (workspace_name w)
  | (Raise e, _) =>
      Str.isin (Uploader.mime_type self) Uploader.FILE_TYPES = false
      ∧ (exn_class e = ValidationError ∨ extraction_error e)
  end.
Proof.
  unfold Uploader.materialize.
  destruct (Str.isin (Uploader.mime_type self) Uploader.FILE_TYPES); [done |].
  unfold bind at 1. rewrite init_runs_archive.
  destruct (from_file w _) as [mime | |];
    [| split; [done | right; by left] | split; [done | right; right; by left]].
  destruct (Str.isin mime Archive.TAR_ARCHIVES_MIME_TYPES
            || Str.isin mime Archive.ZIP_FILE_MIME_TYPES
            || Str.isin mime Archive.SEVEN_ZIP_MIME_TYPES) eqn:Hmime;
    [| split; [done | by left]].
  destruct (bool_decide _ || bool_decide _); [split; [done | right; by left] |].
  cbv beta iota. unfold bind at 1.
  match goal with
  | |- context [Archive.get_files w ?r ?s1] =>
      pose proof (get_files_of_supported w r s1 Hmime) as Hget;
      destruct (Archive.get_files w r s1) as [[got|e] s2] eqn:E
  end; cbv beta iota; [| split; [done | by right]].
  destruct Hget as [l ->]. cbn. eauto.
Qed.

Lemma bind_ok_inv {A B} (m : M A) (f : A → M B) s b s' :
  bind m f s = (Ok b, s') → ∃ a s0, m s = (Ok a, s0) ∧ f a s0 = (Ok b, s').
Proof. intros [(a & s0 & H1 & H2) | (e & _ & [=])]%bind_inv. eauto. Qed.

(** The last two statements of each [__read_from_...] method: the file is
    gone when the walk has returned. *)
Lemma remove_then_walk f t s l s' :
  (OS.remove f;; Archive.absolute_file_paths t) s = (Ok l, s') →
  PosixPath.abspath (cwd s') f ∉ files s'.
Proof.
  unfold OS.remove, Archive.absolute_file_paths, OS.walk_files, OS.resolve,
    bind, gets, modify, raise.
  cbv beta iota. case_bool_decide as Hin; [| done]. intros [= <- <-]. cbn.
  intros [_ Hne]%elem_of_difference. apply Hne. by apply elem_of_singleton.
Qed.

Lemma read_ends_with_remove_then_walk w r s l s' :
  Archive.get_files w r s = (Ok (Some (l, Archive.tmp_folder r)), s') →
  ∃ s0, (OS.remove (Archive.file r);;
         Archive.absolute_file_paths (Archive.tmp_folder r)) s0 = (Ok l, s').
Proof.
  unfold Archive.get_files.
  destruct (Str.isin _ Archive.ZIP_FILE_MIME_TYPES).
  { intros (l' & s1 & H & [= <- <-])%bind_ok_inv. unfold Archive.read_from_zip in H.
    apply bind_ok_inv in H as (k & ? & _ & H).
    apply bind_ok_inv in H as (names & ? & _ & H).
    apply bind_ok_inv in H as (? & s0 & _ & H). eauto. }
  destruct (Str.isin _ Archive.TAR_ARCHIVES_MIME_TYPES).
  { intros (l' & s1 & H & [= <- <-])%bind_ok_inv. unfold Archive.read_from_tar in H.
    apply bind_ok_inv in H as (k & ? & _ & H).
    apply bind_ok_inv in H as (names & ? & _ & H).
    apply bind_ok_inv in H as (? & s0 & _ & H). eauto. }
  destruct (Str.isin _ Archive.SEVEN_ZIP_MIME_TYPES); [| done].
  intros (l' & s1 & H & [= <- <-])%bind_ok_inv. unfold Archive.read_from_7z in H.
  apply bind_ok_inv in H as (cur & ? & _ & H).
  apply bind_ok_inv in H as (? & ? & _ & H).
  apply bind_ok_inv in H as (k & ? & _ & H).
  apply bind_ok_inv in H as (produced & ? & _ & H).
  apply bind_ok_inv in H as (? & ? & _ & H).
  apply bind_ok_inv in H as (? & s0 & _ & H). eauto.
Qed.

(** X8.  When [get_files] returns a list, the archive it read is on disk no
    more: each [__read_from_...] method removes it after the extraction. *)
Theorem get_files_removes_the_archive (w : World) (r : Archive.ArchiveReader)
    (s s' : State) (l : list string) (t : string) :
  Archive.get_files w r s = (Ok (Some (l, t)), s') →
  PosixPath.abspath (cwd s') (Archive.file r) ∉ files s'.
Proof.
  intros H.
  assert (t = Archive.tmp_folder r) as ->.
  { unfold Archive.get_files in H.
    repeat match type of H with
           | (if ?c then _ else _) _ = _ => destruct c
           end; [..| done];
      by apply bind_ok_inv in H as (? & ? & _ & [= _ <- _]). }
  destruct (read_ends_with_remove_then_walk w r s l s' H) as [s0 H0].
  by apply (remove_then_walk _ _ _ _ _ H0).
Qed.

Lemma get_files_removes_the_archive_witness :
  ∃ s' l,
    Archive.get_files Scenarios.failed_7z_world Scenarios.sevenzip_reader
      (Scenarios.disk_with_workspace "/uploads/data.7z")
    = (Ok (Some (l, "/tmp/aoi/ws")), s')
    ∧ ("/uploads/data.7z" ∉ files s').
Proof.
  do 2 eexists. split; [vm_compute; reflexivity |].
  eapply (get_files_removes_the_archive Scenarios.failed_7z_world
            Scenarios.sevenzip_reader (Scenarios.disk_with_workspace "/uploads/data.7z")).
  vm_compute. reflexivity.
Defined.

(** ** The check of tar members, and what it lets through *)

Lemma commonprefix_is_prefix_test a b :
  String.eqb (PosixPath.commonprefix a b) a = Str.startswith b a.
Proof.
  revert b. induction a as [|c a IH]; intros [|d b]; try reflexivity.
  cbn [PosixPath.commonprefix Str.startswith].
  destruct (Ascii.eqb_spec c d) as [<- | Hne]; [| reflexivity].
  cbn [String.eqb]. by rewrite Ascii.eqb_refl, IH.
Qed.

Lemma inside_dir_startswith d p :
  PosixPath.inside_dir d p = true → Str.startswith p d = true.
Proof.
  unfold PosixPath.inside_dir. intros [->%String.eqb_eq | H]%orb_true_iff.
  - apply startswith_spec. exists "". by rewrite append_nil_r.
  - apply startswith_spec in H as [t ->]. apply startswith_spec.
    exists ("/" +:+ t). by rewrite append_assoc.
Qed.

(** X9.  [is_within_directory] always answers and changes nothing; its answer
    is a test on characters: whether the absolute target, as a string, starts
    with the absolute directory.  So it answers [True] for the directory
    itself and for every path below it. *)
Theorem is_within_directory_is_prefix_test (directory target : string) (s : State) :
  let abs_directory := PosixPath.abspath (cwd s) directory in
  let abs_target := PosixPath.abspath (cwd s) target in
  Archive.is_within_directory directory target s
  = (Ok (Str.startswith abs_target abs_directory), s)
  ∧ (PosixPath.inside_dir abs_directory abs_target = true →
     Archive.is_within_directory directory target s = (Ok true, s)).
Proof.
  intros abs_directory abs_target.
  assert (Archive.is_within_directory directory target s
          = (Ok (Str.startswith abs_target abs_directory), s)) as H.
  { unfold Archive.is_within_directory, OS.resolve, bind, gets, ret. cbv beta iota.
    by rewrite commonprefix_is_prefix_test. }
  split; [exact H |]. intros Hin. by rewrite H, (inside_dir_startswith _ _ Hin).
Qed.

(** What extracting one member does to the files, whether it returns or
    raises: at most the member's destination is new, and only for a regular
    file. *)
Lemma extract_member_files p is_dir s :
  cwd (OS.extract_member p is_dir s).2 = cwd s
  ∧ ∀ q, q ∈ files (OS.extract_member p is_dir s).2 →
         q ∈ files s ∨ (is_dir = false ∧ q = PosixPath.abspath (cwd s) p).
Proof.
  unfold OS.extract_member, OS.mkdir, OS.write_file, OS.resolve,
    bind, gets, modify, raise, ret.
  cbv beta iota. destruct (existsb _ _); [by split; [| left] |].
  cbn [cwd set_dirs files dirs]. case_bool_decide; destruct is_dir; cbn.
  - by split; [| left].
  - by split; [| left].
  - destruct (_ || _); cbn; by split; [| left].
  - split; [done |]. intros q [->%elem_of_singleton | Hq]%elem_of_union; [by right | by left].
Qed.

Lemma tar_extractall_files (members : list TarInfo) path s :
  cwd (Archive.tar_extractall members path s).2 = cwd s
  ∧ ∀ q, q ∈ files (Archive.tar_extractall members path s).2 →
         q ∈ files s
         ∨ ∃ member, member ∈ members ∧ isdir member = false
                     ∧ q = PosixPath.abspath (cwd s) (PosixPath.join path (name member)).
Proof.
  unfold Archive.tar_extractall. revert s.
  induction members as [|member members IH]; intros s; cbn [for_each].
  - split; [done | by left].
  - destruct (extract_member_files (PosixPath.join path (name member)) (isdir member) s)
      as [Hcwd Hfiles].
    unfold bind.
    destruct (OS.extract_member _ _ s) as [[[]|e] s1]; cbn [snd] in *.
    + destruct (IH s1) as [Hcwd' Hfiles']. split; [congruence |].
      intros q Hq. destruct (Hfiles' q Hq) as [Hq1 | (m & Hm & Hd & ->)].
      * destruct (Hfiles q Hq1) as [? | [Hd ->]]; [by left |].
        right. exists member. split; [by left | done].
      * right. exists m. rewrite Hcwd. split; [by right | done].
    + split; [done |]. intros q Hq. destruct (Hfiles q Hq) as [? | [Hd ->]]; [by left |].
      right. exists member. split; [by left | done].
Qed.

(** X10.  [safe_extract] checks every member before it extracts any.  When
    the absolute destination of some member does not start with the absolute
    workspace path, it raises [Exception("Attempted Path Traversal in Tar
    File")] and the disk is untouched, whatever the position of that member.
    Otherwise it goes on to [extractall], which may still fail midway;
    whether that returns or raises, a regular file then on disk was there
    before or is the destination of a regular-file member, a path that starts
    with the workspace path as a string of characters. *)
Theorem safe_extract_checks_every_member_first (members : list TarInfo)
    (path : string) (s : State) :
  let destination member :=
    PosixPath.abspath (cwd s) (PosixPath.join path (name member)) in
  let workspace := PosixPath.abspath (cwd s) path in
  if forallb (λ member, Str.startswith (destination member) workspace) members
  then Archive.safe_extract members path s = Archive.tar_extractall members path s
       ∧ ∀ p, p ∈ files (Archive.safe_extract members path s).2 →
              p ∈ files s
              ∨ (Str.startswith p workspace = true
                 ∧ ∃ member, member ∈ members ∧ isdir member = false
                             ∧ p = destination member)
  else Archive.safe_extract members path s
       = (Raise (Exn PlainException "Attempted Path Traversal in Tar File"), s).
Proof.
  intros destination workspace. unfold Archive.safe_extract.
  pose proof (check_loop members path s) as Hcheck.
  assert (forallb (λ member, passes_check (cwd s) path (name member)) members
          = forallb (λ member, Str.startswith (destination member) workspace) members)
    as Heq.
  { clear. induction members as [|member members IH]; [done |].
    cbn [forallb]. rewrite IH. f_equal. apply commonprefix_is_prefix_test. }
  rewrite Heq in Hcheck. clear Heq.
  destruct (forallb _ members) eqn:Hall; [| by apply bind_raise].
  rewrite (bind_ok _ _ _ _ _ Hcheck). split; [done |].
  intros p Hp. destruct (tar_extractall_files members path s) as [_ Hfiles].
  destruct (Hfiles p Hp) as [? | (member & Hin & Hd & ->)]; [by left |].
  right. split; [| by exists member].
  rewrite forallb_forall in Hall. apply (Hall member). by apply list_elem_of_In.
Qed.

(** A tar archive with the directory [sub] and the file [sub/a.kml]: the
    directory is made, and the file alone comes out of the walk. *)
Example directory_member_is_no_candidate :
  ∃ s',
    Archive.read_from_tar
      (Scenarios.with_archive "/uploads/data.tar" None
         (Some [{| name := "sub"; isdir := true |}; Scenarios.file_member "sub/a.kml"])
         None Scenarios.blank)
      Scenarios.tar_reader (Scenarios.disk_with_workspace "/uploads/data.tar")
    = (Ok ["/tmp/aoi/ws/sub/a.kml"], s')
    ∧ "/tmp/aoi/ws/sub" ∈ dirs s'.
Proof.
  eexists. split; [vm_compute; reflexivity |].
  apply (bool_decide_eq_true_1 _). vm_compute. reflexivity.
Qed.

(** A zip archive with the file [a] and then the file [a/b]: the second
    member cannot be written below a regular file, and the extraction raises
    with the first member on disk. *)
Example file_below_a_file_raises :
  ∃ s',
    Archive.read_from_zip
      (Scenarios.with_archive "/uploads/data.zip" (Some ["a"; "a/b"]) None None
         Scenarios.blank)
      Scenarios.zip_reader (Scenarios.disk_with_workspace "/uploads/data.zip")
    = (Raise (Exn OSError "NotADirectoryError"), s')
    ∧ "/tmp/aoi/ws/a" ∈ files s'
    ∧ "/uploads/data.zip" ∈ files s'.
Proof.
  eexists. split; [vm_compute; reflexivity |].
  split; apply (bool_decide_eq_true_1 _); vm_compute; reflexivity.
Qed.

(** X11.  When the 7z command cannot be started, [__read_from_7z] raises from
    inside the workspace: the [chdir] back is not reached, so the working
    directory of the process stays the workspace; the archive is not removed
    and no file or directory changes. *)
Theorem read_from_7z_failure_keeps_cwd_in_workspace
    (w : World) (r : Archive.ArchiveReader) (s : State) :
  let workspace := PosixPath.abspath (cwd s) (Archive.tmp_folder r) in
  sevenzip_x w (PosixPath.abspath workspace (Archive.file r)) = None →
  ∃ s',
    Archive.read_from_7z w r s = (Raise (Exn OSError "FileNotFoundError: '7z'"), s')
    ∧ cwd s' = workspace
    ∧ files s' = files s ∧ dirs s' = dirs s.
Proof.
  intros workspace H. exists (set_cwd workspace s).
  split; [| done].
  unfold Archive.read_from_7z, OS.chdir, OS.resolve, answer, bind, gets, modify, raise.
  cbv beta iota. cbn [cwd set_cwd]. fold workspace. by rewrite H.
Qed.

Lemma read_from_7z_failure_keeps_cwd_in_workspace_witness :
  ∃ s',
    Archive.read_from_7z Scenarios.blank Scenarios.sevenzip_reader
      (Scenarios.disk_with_workspace "/uploads/data.7z")
    = (Raise (Exn OSError "FileNotFoundError: '7z'"), s')
    ∧ cwd s' = "/tmp/aoi/ws"
    ∧ files s' = files (Scenarios.disk_with_workspace "/uploads/data.7z")
    ∧ dirs s' = dirs (Scenarios.disk_with_workspace "/uploads/data.7z").
Proof.
  apply (read_from_7z_failure_keeps_cwd_in_workspace Scenarios.blank
           Scenarios.sevenzip_reader (Scenarios.disk_with_workspace "/uploads/data.7z")).
  reflexivity.
Defined.

(** ** Opening a source and appending it *)






Lemma set_data_source_loop_skips w k (mid pre rest : DataSource) n s :
  Forall (λ ds_layer : Layer, ds_layer ≠ []) mid →
  Validators.set_data_source_loop w k (seq (length pre) (length mid + n))
    (Some (pre ++ mid ++ rest)) s
  = Validators.set_data_source_loop w k (seq (length pre + length mid) n)
      (Some (pre ++ mid ++ rest)) s.
Proof.
  revert pre. induction mid as [|ds_layer mid IH]; intros pre Hmid.
  - cbn. by rewrite Nat.add_0_r.
  - apply Forall_cons in Hmid as [Hne Hmid]. cbn [length Nat.add seq].
    cbn [Validators.set_data_source_loop].
    change ((ds_layer :: mid) ++ rest) with (ds_layer :: (mid ++ rest)).
    match goal with
    | |- context [?l !! ?i] =>
        replace (l !! i) with (Some ds_layer) by (symmetry; by apply list_lookup_middle)
    end.
    rewrite bool_decide_eq_false_2 by (by destruct ds_layer).
    specialize (IH (pre ++ [ds_layer]) Hmid).
    rewrite length_app, Nat.add_1_r, <- app_assoc in IH. cbn in IH.
    rewrite IH. by rewrite Nat.add_succ_r.
Qed.

(** X13.  [__set_data_source] keeps what the format's driver opened when
    every layer of it has a feature.  When its last layer alone has none, the
    data source kept is whatever the generic [ogr.Open] gives for the file,
    be it [None]. *)
Theorem set_data_source_falls_back_on_empty_layer
    (w : World) (v : Validators.Validator) (file : string) (s : State)
    (ds : DataSource) :
  let k := PosixPath.abspath (cwd s) file in
  Forall (λ ds_layer : Layer, ds_layer ≠ []) ds →
  (driver_Open w (Validators.driver_name v) k = Some ds →
   Validators.set_data_source w v file s = (Ok (Some ds), s))
  ∧ (driver_Open w (Validators.driver_name v) k = Some (ds ++ [[]]) →
     Validators.set_data_source w v file s = (Ok (ogr_Open w k), s)).
Proof.
  intros k Hds.
  unfold Validators.set_data_source, OS.resolve, bind, gets. cbv beta iota. fold k.
  split; intros ->; cbv beta iota.
  - pose proof (set_data_source_loop_skips w k ds [] [] 0 s Hds) as H.
    cbn [app length Nat.add] in H. rewrite Nat.add_0_r, app_nil_r in H.
    etrans; [exact H | reflexivity].
  - pose proof (set_data_source_loop_skips w k ds [] [[]] 1 s Hds) as H.
    cbn [app length Nat.add] in H. rewrite length_app. etrans; [exact H |].
    cbn [length seq Validators.set_data_source_loop].
    match goal with
    | |- context [?l !! ?i] =>
        replace (l !! i) with (Some ([] : Layer))
          by (symmetry; by apply (list_lookup_middle ds []))
    end.
    done.
Qed.

Lemma set_data_source_falls_back_on_empty_layer_witness :
  driver_Open Scenarios.empty_layer_world "KML" "/data/empty.kml"
  = Some ([[Scenarios.point]] ++ [[]])
  ∧ ogr_Open Scenarios.empty_layer_world "/data/empty.kml"
    = Some [[Scenarios.point]]
  ∧ Validators.set_data_source Scenarios.empty_layer_world Validators.KMLValidator
      "/data/empty.kml" (Scenarios.disk "/data/empty.kml")
    = (Ok (Some [[Scenarios.point]]), Scenarios.disk "/data/empty.kml")
  ∧ Validators.set_data_source Scenarios.mixed_world Validators.GeoJSONValidator
      "/data/mixed.geojson" (Scenarios.disk "/data/mixed.geojson")
    = (Ok (Some [[Scenarios.point; Scenarios.polygon]]),
       Scenarios.disk "/data/mixed.geojson").
Proof.
  split; [reflexivity |]. split; [reflexivity |]. split.
  - apply (proj2 (set_data_source_falls_back_on_empty_layer
                    Scenarios.empty_layer_world Validators.KMLValidator
                    "/data/empty.kml" (Scenarios.disk "/data/empty.kml")
                    [[Scenarios.point]]
                    ltac:(repeat constructor; discriminate))).
    reflexivity.
  - apply (proj1 (set_data_source_falls_back_on_empty_layer
                    Scenarios.mixed_world Validators.GeoJSONValidator
                    "/data/mixed.geojson" (Scenarios.disk "/data/mixed.geojson")
                    [[Scenarios.point; Scenarios.polygon]]
                    ltac:(repeat constructor; discriminate))).
    reflexivity.
Defined.

Lemma feature_count_with_new_features new o :
  feature_count (with_new_features new o) = (feature_count o + length new)%nat.
Proof.
  unfold feature_count. destruct o as [|l others]; cbn.
  - by rewrite app_nil_r.
  - rewrite !length_app. lia.
Qed.

(** X14.  When the filter is empty, or every feature of the source has a
    geometry, an append adds one feature to the output for each feature of
    the source, whatever the filter: a filter changes which of them carry a
    geometry, not how many there are.  Disk and working directory are not
    touched. *)
Theorem write_geometry_adds_one_feature_per_source_feature
    (w : World) (v : Validators.Validator) (file : string)
    (types : list string) (s : State) (ds : DataSource) :
  (Validators.set_data_source w v file s).1 = Ok (Some ds) →
  types = [] ∨ Forall (λ feature, is_Some (geometry feature)) (concat ds) →
  ∃ s',
    Validators.write_geometry_to_data_source w v file types s = (Ok tt, s')
    ∧ feature_count (output s')
      = (feature_count (output s) + length (concat ds))%nat
    ∧ files s' = files s ∧ dirs s' = dirs s ∧ cwd s' = cwd s.
Proof.
  intros H Hgeom.
  assert (Forall (readable types) (concat ds)) as Hr.
  { destruct Hgeom as [-> | Hall].
    - apply Forall_forall. intros feature _. by left.
    - eapply Forall_impl; [exact Hall |]. intros feature Hf. by right. }
  rewrite (write_geometry_appends w types v file s ds H Hr).
  eexists. split; [reflexivity |]. destruct ds as [|ds_layer ds].
  - cbn. by rewrite Nat.add_0_r.
  - cbn [output set_output files dirs cwd].
    by rewrite feature_count_with_new_features, length_map.
Qed.

Lemma write_geometry_adds_one_feature_per_source_feature_witness :
  ∃ s',
    Validators.write_geometry_to_data_source Scenarios.mixed_world
      Validators.GeoJSONValidator "/data/mixed.geojson" ["LINESTRING"]
      (Scenarios.disk "/data/mixed.geojson")
    = (Ok tt, s')
    ∧ feature_count (output s') = 2%nat
    ∧ files s' = files (Scenarios.disk "/data/mixed.geojson")
    ∧ dirs s' = dirs (Scenarios.disk "/data/mixed.geojson")
    ∧ cwd s' = cwd (Scenarios.disk "/data/mixed.geojson").
Proof.
  apply (write_geometry_adds_one_feature_per_source_feature Scenarios.mixed_world
           Validators.GeoJSONValidator "/data/mixed.geojson" ["LINESTRING"]
           (Scenarios.disk "/data/mixed.geojson")
           [[Scenarios.point; Scenarios.polygon]]).
  - vm_compute. reflexivity.
  - right. repeat constructor; by eexists.
Defined.

(** X15.  An append never gives the output a second layer: a layer is made
    only when [GetLayer()] finds none, so an output with at most one layer has
    at most one after [write_geometry_to_data_source], whether it returned or
    raised. *)
Theorem write_geometry_never_adds_a_second_layer
    (w : World) (v : Validators.Validator) (file : string)
    (types : list string) (s : State) :
  (length (output s) ≤ 1)%nat →
  (length (output (Validators.write_geometry_to_data_source w v file types s).2) ≤ 1)%nat.
Proof.
  intros H. pose proof (write_geometry_keeps_one_layer w v file types s H) as H'.
  destruct (Validators.write_geometry_to_data_source w v file types s) as [[[]|e] s'];
    [by destruct H' | done].
Qed.

Lemma write_geometry_never_adds_a_second_layer_witness :
  (length (output (Validators.write_geometry_to_data_source Scenarios.mixed_world
                     Validators.GeoJSONValidator "/data/mixed.geojson" []
                     (Scenarios.disk "/data/mixed.geojson")).2) ≤ 1)%nat.
Proof.
  apply (write_geometry_never_adds_a_second_layer Scenarios.mixed_world
           Validators.GeoJSONValidator "/data/mixed.geojson" []
           (Scenarios.disk "/data/mixed.geojson")).
  cbn. lia.
Defined.

(** ** Runs of the orchestrator *)

Lemma only_output_plain_body w self types :
  Str.isin (Uploader.mime_type self) Uploader.FILE_TYPES = true →
  only_output (Uploader.write_geometry_by_type w self types).
Proof.
  intros H s. unfold Uploader.write_geometry_by_type, Uploader.materialize.
  rewrite H. unfold bind at 1, ret at 1. cbv beta iota. cbn [rev app].
  match goal with
  | |- ∃ o, (?m s).2 = set_output o s => revert s; change (only_output m)
  end.
  apply only_output_bind; [apply only_output_dispatch |]. intros shp.
  apply only_output_bind; [apply only_output_when, only_output_shp_pass |]. intros _.
  apply only_output_ret.
Qed.

(** X16.  A run on a plain upload, by a fresh uploader, makes no directory
    and removes no file but its own artifact: when it returns, the disk holds
    what it held and the artifact, whose path is returned; when it raises, the
    disk holds what it held, less a file that was at the artifact's path.  The
    upload itself is never removed. *)
Theorem plain_upload_run_keeps_the_disk (w : World)
    (self : Uploader.VectorFileUploader) (types : list string) (s : State) :
  let artifact := PosixPath.abspath (cwd s) (Uploader.output_name w) in
  Str.isin (Uploader.mime_type self) Uploader.FILE_TYPES = true →
  TEMP_FOLDER s = None →
  match Uploader.create_output_data_source w self types s with
  | (Ok name, s') =>
      name = Uploader.output_name w
      ∧ files s' = {[artifact]} ∪ files s ∧ dirs s' = dirs s
  | (Raise _, s') =>
      files s' = files s ∖ {[artifact]} ∧ dirs s' = dirs s
  end.
Proof.
  intros artifact Hplain Htemp. unfold Uploader.create_output_data_source.
  rewrite (bind_ok _ _ s tt
             (set_output [] (set_files ({[artifact]} ∪ files s) s)) eq_refl).
  rewrite run_outcome.
  destruct (only_output_plain_body w self types Hplain
              (set_output [] (set_files ({[artifact]} ∪ files s) s))) as [o Ho].
  destruct (Uploader.write_geometry_by_type w self types _) as [[[]|e] s'];
    cbn in Ho; subst s'; [done |].
  unfold Uploader.rollback, OS.remove, OS.resolve, bind, gets, modify, raise, ret.
  cbn [TEMP_FOLDER set_output set_files cwd files]. rewrite Htemp. cbv beta iota.
  cbn [TEMP_FOLDER set_output set_files cwd files].
  fold artifact. rewrite bool_decide_eq_true_2
    by (apply elem_of_union; left; by apply elem_of_singleton).
  cbn. split; [| done]. apply (proj2 (set_eq _ _)). intros x.
  rewrite !elem_of_difference, elem_of_union, elem_of_singleton. tauto.
Qed.

Lemma plain_upload_run_keeps_the_disk_witness :
  ∃ s',
    Uploader.create_output_data_source Scenarios.geojson_world
      Scenarios.geojson_upload [] (Scenarios.disk "/uploads/mixed.geojson")
    = (Ok "/tmp/aoi/out.geojson", s')
    ∧ files s' = {["/tmp/aoi/out.geojson"]} ∪ {["/uploads/mixed.geojson"]}
    ∧ dirs s' = ∅.
Proof.
  pose proof (plain_upload_run_keeps_the_disk Scenarios.geojson_world
                Scenarios.geojson_upload [] (Scenarios.disk "/uploads/mixed.geojson")
                eq_refl eq_refl) as H.
  destruct (Uploader.create_output_data_source _ _ _ _) as [[name|e] s'] eqn:E.
  - exists s'. destruct H as (-> & Hfiles & Hdirs). split; [reflexivity |].
    split; [exact Hfiles | exact Hdirs].
  - vm_compute in E. discriminate E.
Defined.

(** X17.  A run that returns hands over an artifact that exists: the value
    returned is the artifact's path, and that file is on disk, for plain
    uploads and for archives alike. *)
Theorem returned_artifact_is_on_disk (w : World)
    (self : Uploader.VectorFileUploader) (types : list string)
    (s s' : State) (name : string) :
  fresh_names w self →
  TEMP_FOLDER s = None →
  Uploader.create_output_data_source w self types s = (Ok name, s') →
  name = Uploader.output_name w
  ∧ PosixPath.normpath (Uploader.output_name w) ∈ files s'.
Proof.
  intros fresh Htemp Hrun. unfold Uploader.create_output_data_source in Hrun.
  set (s1 := (Uploader.CreateDataSource (Uploader.output_name w) s).2).
  assert (Uploader.CreateDataSource (Uploader.output_name w) s = (Ok tt, s1)) as Hc
    by reflexivity.
  rewrite (bind_ok _ _ _ _ _ Hc), run_outcome in Hrun.
  pose proof (artifact_kept_after_create w self fresh s s1 Htemp Hc) as H1.
  pose proof (hoare_write_geometry_by_type w self fresh types s1 H1) as H2.
  destruct (Uploader.write_geometry_by_type w self types s1) as [[[]|e] s2].
  - injection Hrun as <- <-. by destruct H2 as [[H2 _] _].
  - destruct (rollback_raises w self fresh e s2 H2) as (s3 & Hr & _).
    by rewrite Hr in Hrun.
Qed.

Lemma returned_artifact_is_on_disk_witness :
  "/tmp/aoi/out.geojson" = "/tmp/aoi/out.geojson"
  ∧ "/tmp/aoi/out.geojson"
    ∈ files (Uploader.create_output_data_source
               (Scenarios.zip_world Scenarios.point Scenarios.point Scenarios.point
                  Scenarios.polygon Scenarios.polygon)
               Scenarios.zip_upload [] (Scenarios.disk "/uploads/data.zip")).2.
Proof.
  apply (returned_artifact_is_on_disk
           (Scenarios.zip_world Scenarios.point Scenarios.point Scenarios.point
              Scenarios.polygon Scenarios.polygon)
           Scenarios.zip_upload [] (Scenarios.disk "/uploads/data.zip")).
  - split; [reflexivity | intros c; vm_compute; discriminate | vm_compute; reflexivity].
  - reflexivity.
  - vm_compute. reflexivity.
Defined.

Lemma get_driver_for_file_none w file s mime :
  from_file w (PosixPath.abspath (cwd s) file) = Mime mime →
  Str.endswith (Str.lower file) ".kml" = false →
  mime ≠ "text/plain" →
  Uploader.get_driver_for_file w file s = (Ok None, s).
Proof.
  intros Hsniff Hname Hmime. unfold Uploader.get_driver_for_file.
  rewrite (bind_ok _ _ _ _ _ (KMZ_driver_validation_runs w file s mime Hsniff)).
  rewrite Hname, andb_false_r.
  rewrite (bind_ok _ _ _ _ _ (KML_driver_validation_runs w file s mime Hsniff)).
  rewrite Hname, andb_false_r.
  destruct (GeoJSON_driver_validation_reads w file s mime Hsniff) as (b & Hb & Hplain).
  rewrite (bind_ok _ _ _ _ _ Hb). destruct b; [| done].
  by destruct (Hmime (Hplain eq_refl)).
Qed.

(** X18.  A plain upload that no validator recognises and that is not named
    [.shp] is no error: the run returns the artifact's path, and the artifact
    has no layer and no feature.  Here libmagic gives the upload a MIME type
    other than [text/plain], the uploader holds a supported one, and the name
    ends neither in [.kml], in any case, nor in [.shp]; the upload goes to the
    Shapefile pass, which skips it. *)
Theorem unrecognised_plain_upload_gives_empty_artifact (w : World)
    (self : Uploader.VectorFileUploader) (types : list string) (s : State)
    (mime : string) :
  let file := Uploader.file self in
  Str.isin (Uploader.mime_type self) Uploader.FILE_TYPES = true →
  Str.truthy file = true →
  Str.endswith (Str.lower file) ".kml" = false →
  Str.endswith file ".shp" = false →
  from_file w (PosixPath.abspath (cwd s) file) = Mime mime →
  mime ≠ "text/plain" →
  ∃ s',
    Uploader.create_output_data_source w self types s
    = (Ok (Uploader.output_name w), s')
    ∧ output s' = []
    ∧ files s' = {[PosixPath.abspath (cwd s) (Uploader.output_name w)]} ∪ files s.
Proof.
  intros file Hplain Htruthy Hkml Hshp Hsniff Hmime.
  set (s1 := set_output []
               (set_files ({[PosixPath.abspath (cwd s) (Uploader.output_name w)]}
                           ∪ files s) s)).
  exists s1. split; [| done].
  unfold Uploader.create_output_data_source.
  rewrite (bind_ok (Uploader.CreateDataSource (Uploader.output_name w)) _ s tt s1
             eq_refl), run_outcome.
  assert (Uploader.write_geometry_by_type w self types s1 = (Ok tt, s1)) as ->; [| done].
  unfold Uploader.write_geometry_by_type, Uploader.materialize. rewrite Hplain.
  unfold bind at 1, ret at 1. cbv beta iota. cbn [rev app]. fold file.
  assert (Uploader.dispatch w types file [] [] s1 = (Ok [file], s1)) as Hd.
  { cbn [Uploader.dispatch]. rewrite Htruthy. cbn [negb].
    rewrite (bind_ok _ _ _ _ _ (get_driver_for_file_none w file s1 mime Hsniff Hkml Hmime)).
    reflexivity. }
  rewrite (bind_ok _ _ _ _ _ Hd).
  rewrite bool_decide_eq_true_2 by done. cbn [when].
  unfold Validators.get_geometry_from_shp_files, Validators.get_shp_files.
  cbn [List.filter]. rewrite Hshp. reflexivity.
Qed.

Lemma unrecognised_plain_upload_gives_empty_artifact_witness :
  ∃ s',
    Uploader.create_output_data_source Scenarios.html_world Scenarios.html_upload
      ["POLYGON"] (Scenarios.disk "/uploads/page.html")
    = (Ok "/tmp/aoi/out.geojson", s')
    ∧ output s' = []
    ∧ files s' = {["/tmp/aoi/out.geojson"]} ∪ {["/uploads/page.html"]}.
Proof.
  apply (unrecognised_plain_upload_gives_empty_artifact Scenarios.html_world
           Scenarios.html_upload ["POLYGON"] (Scenarios.disk "/uploads/page.html")
           "text/html");
    [reflexivity | reflexivity | reflexivity | reflexivity | reflexivity | discriminate].
Defined.


(** ** More on the Shapefile set and on the two constructors *)

Lemma extension_determines_name stem1 stem2 e1 e2 :
  e1 ∈ Validators.SHP_SET → e2 ∈ Validators.SHP_SET →
  stem1 +:+ "." +:+ e1 = stem2 +:+ "." +:+ e2 → e1 = e2.
Proof.
  intros H1 H2 Heq.
  pose proof (rpartition_last "." stem1 e1 (SHP_SET_no_dot e1 H1)) as P1.
  pose proof (rpartition_last "." stem2 e2 (SHP_SET_no_dot e2 H2)) as P2.
  change (stem1 +:+ "." +:+ e1) with (stem1 +:+ String "." e1) in Heq.
  change (stem2 +:+ "." +:+ e2) with (stem2 +:+ String "." e2) in Heq.
  rewrite Heq, P2 in P1. by injection P1.
Qed.

(** X19.  The Shapefile set test grows with the list and needs four names:
    a list that passes still passes when names are added or reordered, and no
    list of fewer than four names passes, the empty list least of all. *)
Theorem Shape_driver_validation_needs_four_names :
  (∀ files files' : list string,
     (∀ f, f ∈ files → f ∈ files') →
     Validators.Shape_driver_validation files = true →
     Validators.Shape_driver_validation files' = true)
  ∧ (∀ files : list string,
       Validators.Shape_driver_validation files = true → (4 ≤ length files)%nat).
Proof.
  split.
  - intros files files' Hsub H. apply Shape_driver_validation_spec.
    intros e He. destruct (proj1 (Shape_driver_validation_spec files) H e He) as [stem Hs].
    exists stem. by apply Hsub.
  - intros files H.
    pose proof (proj1 (Shape_driver_validation_spec files) H) as Hall.
    destruct (Hall "dbf") as [s1 H1]; [set_solver |].
    destruct (Hall "shp") as [s2 H2]; [set_solver |].
    destruct (Hall "shx") as [s3 H3]; [set_solver |].
    destruct (Hall "prj") as [s4 H4]; [set_solver |].
    assert (NoDup [s1 +:+ "." +:+ "dbf"; s2 +:+ "." +:+ "shp";
                   s3 +:+ "." +:+ "shx"; s4 +:+ "." +:+ "prj"]) as Hnd.
    { assert (∀ a b e1 e2, e1 ∈ Validators.SHP_SET → e2 ∈ Validators.SHP_SET →
                e1 ≠ e2 → a +:+ "." +:+ e1 ≠ b +:+ "." +:+ e2) as Hne.
      { intros a b e1 e2 He1 He2 Hd Heq. apply Hd.
        by apply (extension_determines_name a b). }
      repeat constructor; rewrite ?elem_of_cons, ?elem_of_nil;
        intros Hin; repeat destruct Hin as [Hin | Hin]; try done;
        revert Hin; apply Hne; (set_solver || discriminate). }
    apply NoDup_submseteq with (k := files) in Hnd.
    + apply submseteq_length in Hnd. exact Hnd.
    + intros x. rewrite !elem_of_cons, elem_of_nil.
      intros [-> | [-> | [-> | [-> | []]]]]; done.
Qed.

Lemma archive_types_are_supported mime :
  mime ∈ Uploader.ARCHIVE_TYPES →
  Str.isin mime Archive.TAR_ARCHIVES_MIME_TYPES
  || Str.isin mime Archive.ZIP_FILE_MIME_TYPES
  || Str.isin mime Archive.SEVEN_ZIP_MIME_TYPES = true.
Proof.
  unfold Uploader.ARCHIVE_TYPES. rewrite !elem_of_cons, elem_of_nil.
  intros [-> | [-> | [-> | [-> | [-> | [-> | [-> | []]]]]]]]; reflexivity.
Qed.

(** X20.  The two constructors agree on archives: an upload that
    [VectorFileUploader.__init__] accepted, and whose MIME type is not one of
    the plain file types, is not refused by [ArchiveReader.__init__] with
    [ValidationError] when it is sniffed again from the same working
    directory. *)
Theorem accepted_archive_is_supported_by_the_reader (w : World) (file : string)
    (s s1 : State) (self : Uploader.VectorFileUploader) :
  Uploader.init w file s = (Ok self, s) →
  Str.isin (Uploader.mime_type self) Uploader.FILE_TYPES = false →
  cwd s1 = cwd s →
  Uploader.file self = file
  ∧ ∀ msg, (Archive.init w (Uploader.file self) s1).1 ≠ Raise (Exn ValidationError msg).
Proof.
  intros Hinit Hplain Hcwd. rewrite init_runs in Hinit.
  destruct (from_file w (PosixPath.abspath (cwd s) file)) as [mime | |] eqn:Hmime;
    [| done..].
  case_bool_decide; [done |].
  destruct (negb (Str.isin _ Uploader.FILE_TYPES)
            && negb (Str.isin _ Uploader.ARCHIVE_TYPES)) eqn:Hsets; [done |].
  injection Hinit as <-. cbn [Uploader.mime_type Uploader.file] in *.
  split; [done |]. intros msg. rewrite init_runs_archive, Hcwd, Hmime.
  rewrite Hplain in Hsets. cbn [negb andb] in Hsets.
  apply negb_false_iff, bool_decide_eq_true_1 in Hsets.
  rewrite (archive_types_are_supported _ Hsets).
  by destruct (_ || _).
Qed.

Lemma accepted_archive_is_supported_by_the_reader_witness :
  Uploader.file Scenarios.zip_upload = "/uploads/data.zip"
  ∧ ∀ msg,
      (Archive.init Scenarios.empty_zip_world (Uploader.file Scenarios.zip_upload)
         (Scenarios.disk "/uploads/data.zip")).1
      ≠ Raise (Exn ValidationError msg).
Proof.
  apply (accepted_archive_is_supported_by_the_reader Scenarios.empty_zip_world
           "/uploads/data.zip" (Scenarios.disk "/uploads/data.zip")
           (Scenarios.disk "/uploads/data.zip") Scenarios.zip_upload);
    [vm_compute; reflexivity | reflexivity | reflexivity].
Defined.
